(** * libband.device: a shallow embedding of [BandDevice]

    The development follows src/libband/device.py.  Python values that the
    facade touches are modelled directly: [bytes] objects are lists of
    bytes, integers are [Z], [str] is [string], and every method of
    [BandDevice] is a computation over an explicit [World] that holds the
    instance attributes and the trace of calls made on the two sockets and
    on the wrapper.  Exceptions are the [Raise] result of a computation.

    The modules device.py imports ([socket], [parser], [sensors],
    [versions], [notifications], [commands]) are parameters of the
    development: a call into them returns a value or raises, and the
    properties hold for every such behaviour unless they say otherwise. *)

From Stdlib Require Import String Ascii Strings.Byte.
From Stdlib Require Import ZArith Bool Lia Arith List Permutation.
Import ListNotations.

Set Implicit Arguments.

(** ** Python bytes, slices and [struct] *)

Module Py.

Definition bytes := list byte.

(** [b[i:j]] for [0 <= i <= j]; Python clamps both ends to [len(b)]. *)
Definition slice (b : bytes) (i j : nat) : bytes := firstn (j - i) (skipn i b).

(** [b[i:]] *)
Definition slice_from (b : bytes) (i : nat) : bytes := skipn i b.

(** [b''.join(chunks)] *)
Definition join (chunks : list bytes) : bytes := concat chunks.

Definition byte_val (b : byte) : Z := Z.of_N (Byte.to_N b).

Definition byte_of_Z (z : Z) : byte :=
  match Byte.of_N (Z.to_N (z mod 256)) with
  | Some b => b
  | None => x00
  end.

(** Exceptions device.py can meet.  [KeyboardInterrupt] and [SystemExit]
    derive from [BaseException] only; the others derive from [Exception]. *)
Inductive exn : Type :=
| OSError
| ValueError
| AttributeError
| IndexError
| TypeError
| UnicodeDecodeError
| struct_error
| OtherException (name : string)
| KeyboardInterrupt
| SystemExit.

(** [isinstance(e, Exception)] *)
Definition is_Exception (e : exn) : bool :=
  match e with
  | KeyboardInterrupt | SystemExit => false
  | _ => true
  end.

Inductive res (A : Type) : Type :=
| Ok (a : A)
| Raise (e : exn).
Arguments Ok {A} a.
Arguments Raise {A} e.

Definition res_bind {A B} (r : res A) (k : A -> res B) : res B :=
  match r with
  | Ok a => k a
  | Raise e => Raise e
  end.

(** Little-endian value of a byte string. *)
Fixpoint le_decode (b : bytes) : Z :=
  match b with
  | [] => 0
  | x :: rest => byte_val x + 256 * le_decode rest
  end.

Fixpoint le_encode (n : nat) (v : Z) : bytes :=
  match n with
  | O => []
  | S k => byte_of_Z v :: le_encode k (v / 256)
  end.

(** [struct.unpack(fmt, b)[0]] for the one-field unsigned formats used in
    device.py: "<I" and "I" (4 bytes), "<H" and "H" (2 bytes), "B" (1).
    The formats without "<" use the host byte order, which is little-endian
    on the hosts the library runs on; [struct.error] is raised unless the
    buffer has exactly the size of the format. *)
Definition struct_unpack (size : nat) (b : bytes) : res Z :=
  if Nat.eqb (length b) size then Ok (le_decode b) else Raise struct_error.

(** [struct.pack] of one unsigned field of [size] bytes: the value must fit. *)
Definition struct_pack (size : nat) (v : Z) : res bytes :=
  if ((0 <=? v) && (v <? 256 ^ Z.of_nat size))%Z
  then Ok (le_encode size v) else Raise struct_error.

(** [struct.pack(fmt * n, *vs)] for a repeated field: the number of values
    must be the number of fields. *)
Fixpoint struct_pack_all (size : nat) (vs : list Z) : res bytes :=
  match vs with
  | [] => Ok []
  | v :: rest =>
      res_bind (struct_pack size v) (fun hd =>
      res_bind (struct_pack_all size rest) (fun tl => Ok (hd ++ tl)))
  end.

Definition struct_pack_n (size n : nat) (vs : list Z) : res bytes :=
  if Nat.eqb (length vs) n then struct_pack_all size vs else Raise struct_error.

(** [binascii.hexlify] *)
Definition hex_digit (n : Z) : byte :=
  if (n <? 10)%Z then byte_of_Z (48 + n) else byte_of_Z (87 + n).

Definition hexlify (b : bytes) : bytes :=
  flat_map (fun x => [hex_digit (byte_val x / 16); hex_digit (byte_val x mod 16)]) b.

Definition str_of_ascii_bytes (b : bytes) : string := string_of_list_byte b.

(** [str(b)] for a bytes object of printable ASCII without quotes. *)
Definition str_of_bytes (b : bytes) : string :=
  ("b'" ++ str_of_ascii_bytes b ++ "'")%string.

(** [s.ljust(width)] *)
Definition ljust (s : string) (width : nat) : string :=
  (s ++ string_of_list_ascii (repeat " "%char (width - String.length s)))%string.

(** [uuid.UUID]: the value is kept as its [bytes_le] form, which
    [UUID(bytes_le=b).bytes_le] returns unchanged. *)
Record UUID : Type := mkUUID { bytes_le : bytes }.

(** [uuid.UUID(bytes_le=b)] raises [ValueError] unless [b] has 16 bytes. *)
Definition UUID_of_bytes_le (b : bytes) : res UUID :=
  if Nat.eqb (length b) 16 then Ok (mkUUID b) else Raise ValueError.

Definition UUID_eqb (a b : UUID) : bool :=
  if list_eq_dec Byte.byte_eq_dec (bytes_le a) (bytes_le b) then true else false.

(** [str(u)]: the first three groups are stored little-endian. *)
Definition UUID_str (u : UUID) : string :=
  let b := bytes_le u in
  let hex x := str_of_ascii_bytes (hexlify x) in
  (hex (rev (slice b 0 4)) ++ "-" ++ hex (rev (slice b 4 6)) ++ "-" ++
   hex (rev (slice b 6 8)) ++ "-" ++ hex (slice b 8 10) ++ "-" ++
   hex (slice b 10 16))%string.

(** The Python values that travel through the wrapper and the handlers. *)
#[warnings="-register-all"]
Inductive value : Type :=
| None_
| Bool (b : bool)
| Int (z : Z)
| Str (s : string)
| Bytes (b : bytes)
| Dict (items : list (string * value))
| IntEnum (cls : string) (val : Z)
| Exc (e : exn).

(** [bool(v)] *)
Definition truthy (v : value) : bool :=
  match v with
  | None_ => false
  | Bool b => b
  | Int z => negb (z =? 0)%Z
  | Str s => negb (String.eqb s ""%string)
  | Bytes b => match b with [] => false | _ => true end
  | Dict items => match items with [] => false | _ => true end
  | IntEnum _ val => negb (val =? 0)%Z
  | Exc _ => true
  end.

End Py.
Import Py.

(** ** Enumerations and records of the module *)

Inductive FirmwareApp : Type := OneBL | TwoUp | App | UpApp.

Definition FirmwareApp_of_int (z : Z) : res FirmwareApp :=
  if (z =? 1)%Z then Ok OneBL
  else if (z =? 2)%Z then Ok TwoUp
  else if (z =? 3)%Z then Ok App
  else if (z =? 4)%Z then Ok UpApp
  else Raise ValueError.

Inductive PushServicePacketType : Type :=
| WakeApp
| RemoteSubscription
| Sms
| DismissCall
| VoicePacketBegin
| VoicePacketData
| VoicePacketEnd
| VoicePacketCancel
| StrappEvent
| StrappSyncRequest
| CortanaContext
| Keyboard
| KeyboardSetContent.

Definition PushServicePacketType_value (t : PushServicePacketType) : Z :=
  match t with
  | WakeApp => 0
  | RemoteSubscription => 1
  | Sms => 100
  | DismissCall => 101
  | VoicePacketBegin => 200
  | VoicePacketData => 201
  | VoicePacketEnd => 202
  | VoicePacketCancel => 203
  | StrappEvent => 204
  | StrappSyncRequest => 205
  | CortanaContext => 206
  | Keyboard => 220
  | KeyboardSetContent => 222
  end.

Definition PushServicePacketType_members : list PushServicePacketType :=
  [WakeApp; RemoteSubscription; Sms; DismissCall; VoicePacketBegin;
   VoicePacketData; VoicePacketEnd; VoicePacketCancel; StrappEvent;
   StrappSyncRequest; CortanaContext; Keyboard; KeyboardSetContent].

(** [PushServicePacketType(n)]: the member with value [n], or [ValueError]. *)
Definition PushServicePacketType_of_int (n : Z) : res PushServicePacketType :=
  match find (fun t => (PushServicePacketType_value t =? n)%Z)
             PushServicePacketType_members with
  | Some t => Ok t
  | None => Raise ValueError
  end.

(** The members of [versions.BandType] that device.py names; [OtherBandType]
    stands for any further member of that enumeration. *)
Inductive BandType : Type :=
| Cargo
| Envoy
| Unknown
| OtherBandType (code : Z).

(** The command constants imported from [.commands]. *)
Inductive command : Type :=
| SERIAL_NUMBER_REQUEST
| CARGO_NOTIFICATION
| GET_TILES_NO_IMAGES
| CORE_WHO_AM_I
| CORE_GET_API_VERSION
| SET_THEME_COLOR
| START_STRIP_SYNC_END
| CORE_SDK_CHECK
| START_STRIP_SYNC_START
| READ_ME_TILE_IMAGE
| CORE_GET_VERSION
| WRITE_ME_TILE_IMAGE_WITH_ID
| CARGO_SYSTEM_SETTINGS_OOBE_COMPLETED_GET
| NAVIGATE_TO_SCREEN
| GET_ME_TILE_IMAGE_ID
| GET_TILES
| SET_TILES.

(** What the facade does to its collaborators, in program order. *)
Inductive event : Type :=
| CargoConnect
| CargoDisconnect
| PushConnect
| PushDisconnect
| CargoRead (cmd : command) (response_size : Z)
| CargoWrite (cmd : command)
| CargoWriteWithData (cmd : command) (data : bytes) (arguments : bytes)
| ThreadStart
| WrapperPrint (arg : value) (end_ : string)
| WrapperSend (signal : string) (args : value).

Definition is_cargo_read (e : event) : bool :=
  match e with CargoRead _ _ => true | _ => false end.

(** Number of [cargo_read] calls recorded in a trace. *)
Definition reads (t : list event) : nat := List.length (filter is_cargo_read t).

(** A tile as [request_tiles] builds it (a dict with these seven keys). *)
Record Tile : Type := mkTile {
  guid : UUID;
  order : Z;
  theme_color : Z;
  name_length : Z;
  settings_mask : Z;
  name : string;
  icon : option bytes
}.

(** A registered service, as far as [BandDevice] uses it: the outcome of
    formatting it ([__str__] may raise), its [guid], and the outcome of
    its [push] and [sync] methods. *)
Record Service : Type := mkService {
  svc_str : res string;
  svc_guid : UUID;
  svc_push : UUID -> bytes -> value -> res value;
  svc_sync : res value
}.

(** ** The device *)

Section Device.

Set Default Proof Using "Type".

(** [versions.FirmwareVersion] and [versions.DeviceVersion] are defined
    outside device.py; the facade only deserializes records, reads their
    [app_name], tests a [DeviceVersion] for truth and asks for its
    [band_type]. *)
Variable FirmwareVersion : Type.
Variable FirmwareVersion_deserialize : bytes -> res FirmwareVersion.
Variable app_name : FirmwareVersion -> string.

Record DeviceVersion : Type := mkDeviceVersion {
  bootloader : option FirmwareVersion;
  updater : option FirmwareVersion;
  application : option FirmwareVersion
}.

Variable DeviceVersion_bool : DeviceVersion -> bool.
Variable DeviceVersion_band_type : DeviceVersion -> BandType.

(** [parser.MsftBandParser], [sensors.decode_sensor_reading],
    [notifications.GenericClearTileNotification] and the utf-8 codec. *)
Variable bytes_to_text : bytes -> res string.
Variable serialize_text : string -> nat -> bytes.
Variable decode_sensor_reading : bytes -> res value.
Variable GenericClearTileNotification_serialize : UUID -> bytes.
Variable decode_utf8 : bytes -> res string.

(** [socket.BandSocket]: what a call on one of the two sockets returns or
    raises, given everything the facade did before.  A returned pair is
    [(result, data)]: [result] is the status as [if result:] tests it and
    [data] the list of received chunks.  Of [connect], [disconnect] and
    [cargo_write] device.py does not use the returned value. *)
Definition reply : Type := (bool * list bytes)%type.
Variable socket : list event -> event -> res reply.

(** [BandDevice.services.values()], in the order of the dict. *)
Variable services : list Service.

(** The instance attributes that change, and the trace. [version] is [None]
    while the attribute does not exist (the class only annotates it);
    [tiles] and [serial_number] are [None] for Python's [None]. *)
Record World : Type := mkWorld {
  tiles : option (list Tile);
  serial_number : option string;
  version : option DeviceVersion;
  push_thread : bool;
  trace : list event
}.

Definition M (A : Type) : Type := World -> res A * World.

Definition ret {A} (a : A) : M A := fun w => (Ok a, w).

Definition bind {A B} (m : M A) (k : A -> M B) : M B :=
  fun w =>
    match m w with
    | (Ok a, w') => k a w'
    | (Raise e, w') => (Raise e, w')
    end.

Definition raise {A} (e : exn) : M A := fun w => (Raise e, w).

Definition lift {A} (r : res A) : M A := fun w => (r, w).

(** [try: m / except Exception as e: handler e]: an exception that does
    not derive from [Exception] is not caught. *)
Definition try_except {A} (m : M A) (handler : exn -> M A) : M A :=
  fun w =>
    match m w with
    | (Ok a, w') => (Ok a, w')
    | (Raise e, w') => if is_Exception e then handler e w' else (Raise e, w')
    end.

Notation "x <- m ;; k" := (bind m (fun x => k))
  (at level 61, m at next level, right associativity).
Notation "' pat <- m ;; k" := (bind m (fun x => match x with pat => k end))
  (at level 61, pat pattern, m at next level, right associativity).
Notation "m ;; k" := (bind m (fun _ => k))
  (at level 61, right associativity).

Definition add_trace (w : World) (es : list event) : World :=
  mkWorld (tiles w) (serial_number w) (version w) (push_thread w) (trace w ++ es).

Definition emit (e : event) : M unit := fun w => (Ok tt, add_trace w [e]).

Definition socket_call (e : event) : M reply :=
  fun w => (socket (trace w) e, add_trace w [e]).

Definition get_attr {A} (f : World -> A) : M A := fun w => (Ok (f w), w).

Definition set_tiles_attr (t : option (list Tile)) : M unit :=
  fun w => (Ok tt, mkWorld t (serial_number w) (version w) (push_thread w) (trace w)).

Definition set_serial_number_attr (s : option string) : M unit :=
  fun w => (Ok tt, mkWorld (tiles w) s (version w) (push_thread w) (trace w)).

Definition set_version_attr (v : DeviceVersion) : M unit :=
  fun w => (Ok tt, mkWorld (tiles w) (serial_number w) (Some v) (push_thread w) (trace w)).

Definition set_push_thread_attr : M unit :=
  fun w => (Ok tt, mkWorld (tiles w) (serial_number w) (version w) true (trace w)).

(** [self.version], an [AttributeError] while nothing was assigned. *)
Definition self_version : M DeviceVersion :=
  v <- get_attr version ;;
  match v with
  | Some dv => ret dv
  | None => raise AttributeError
  end.

(** *** The sockets and the wrapper *)

Definition cargo_connect : M unit := socket_call CargoConnect ;; ret tt.

Definition cargo_disconnect : M unit := socket_call CargoDisconnect ;; ret tt.

Definition push_connect : M unit := socket_call PushConnect ;; ret tt.

Definition push_disconnect : M unit := socket_call PushDisconnect ;; ret tt.

Definition cargo_read (cmd : command) (response_size : Z) : M reply :=
  socket_call (CargoRead cmd response_size).

Definition cargo_write (cmd : command) : M unit :=
  socket_call (CargoWrite cmd) ;; ret tt.

Definition cargo_write_with_data (cmd : command) (data arguments : bytes) : M reply :=
  socket_call (CargoWriteWithData cmd data arguments).

Definition newline : string := String (ascii_of_nat 10) EmptyString.

Definition wrapper_print (arg : value) : M unit := emit (WrapperPrint arg newline).

Definition wrapper_print_end (arg : value) (end_ : string) : M unit :=
  emit (WrapperPrint arg end_).

Definition wrapper_send (signal : string) (args : value) : M unit :=
  emit (WrapperSend signal args).

(** *** Methods of [BandDevice] *)

Definition band_type : M BandType :=
  v <- self_version ;;
  if DeviceVersion_bool v then ret (DeviceVersion_band_type v) else ret Unknown.

Definition disconnect : M unit :=
  push_disconnect ;; cargo_disconnect.

Definition check_if_oobe_completed : M bool :=
  ' (result, data) <- cargo_read CARGO_SYSTEM_SETTINGS_OOBE_COMPLETED_GET 4 ;;
  match data with
  | d0 :: _ => v <- lift (struct_unpack 4 d0) ;; ret (negb (v =? 0)%Z)
  | [] => ret false
  end.

Definition get_me_tile_image_id : M value :=
  ' (result, data) <- cargo_read GET_ME_TILE_IMAGE_ID 4 ;;
  match data with
  | d0 :: _ => ret (Bytes d0)
  | [] => ret (Int 0)
  end.

Definition BandType_eqb (a b : BandType) : bool :=
  match a, b with
  | Cargo, Cargo | Envoy, Envoy | Unknown, Unknown => true
  | OtherBandType x, OtherBandType y => (x =? y)%Z
  | _, _ => false
  end.

(** The byte count [get_me_tile_image] computes from the device type. *)
Definition me_tile_byte_count (t : BandType) : Z :=
  if BandType_eqb t Cargo then 310 * 102 * 2
  else if BandType_eqb t Envoy then 310 * 128 * 2
  else 0.

Definition get_me_tile_image : M bytes :=
  t <- band_type ;;
  let byte_count := me_tile_byte_count t in
  ' (result, data) <- cargo_read READ_ME_TILE_IMAGE byte_count ;;
  let pixel_data := join data in
  ret pixel_data.

Definition set_me_tile_image (pixel_data : bytes) (image_id : Z) : M reply :=
  id_bytes <- lift (struct_pack 4 image_id) ;;
  ' (result, data) <- cargo_write_with_data WRITE_ME_TILE_IMAGE_WITH_ID pixel_data id_bytes ;;
  ret (result, data).

Definition navigate_to_screen (screen : Z) : M reply :=
  screen_bytes <- lift (struct_pack 2 screen) ;;
  cargo_write_with_data NAVIGATE_TO_SCREEN screen_bytes [].

(** The [for] loop of [process_push] over [self.services.values()]. *)
Fixpoint process_push_loop (svcs : list Service) (guid : UUID) (command : bytes)
    (message : value) : res value :=
  match svcs with
  | [] => Ok message
  | service :: rest =>
      if UUID_eqb (svc_guid service) guid then
        res_bind (svc_push service guid command message) (fun new_message =>
          if truthy new_message then Ok new_message
          else process_push_loop rest guid command message)
      else process_push_loop rest guid command message
  end.

Definition process_push (guid : UUID) (command : bytes) (message : value) : M value :=
  lift (process_push_loop services guid command message).

Definition process_tile_callback (result : bytes) : M unit :=
  opcode <- lift (struct_unpack 4 (slice result 6 10)) ;;
  guid <- lift (UUID_of_bytes_le (slice result 10 26)) ;;
  let command := slice result 26 44 in
  tile_name <- lift (bytes_to_text (slice result 44 84)) ;;
  let message := Dict [("opcode"%string, Int opcode);
                       ("guid"%string, Str (UUID_str guid));
                       ("command"%string, Bytes (hexlify command));
                       ("tile_name"%string, Str tile_name)] in
  message <- process_push guid command message ;;
  wrapper_send "PushService" message.

Definition process_notification_callback (result : bytes) : M unit :=
  opcode <- lift (struct_unpack 4 (slice result 2 6)) ;;
  guid <- lift (UUID_of_bytes_le (slice result 6 22)) ;;
  let command := slice_from result 22 in
  let message := Dict [("opcode"%string, Int opcode);
                       ("guid"%string, Str (UUID_str guid));
                       ("command"%string, Str (str_of_bytes (hexlify command)))] in
  message <- process_push guid command message ;;
  wrapper_send "PushService" message.

(** A member of [PushServicePacketType] as a Python object. *)
Definition PushServicePacketType_obj (t : PushServicePacketType) : value :=
  IntEnum "PushServicePacketType" (PushServicePacketType_value t).

(** One turn of the [while True] loop of [listen_pushservice], after
    [self.push.receive()] has returned [result]. *)
Definition listen_iteration (result : bytes) : M unit :=
  packet_type <- lift (struct_unpack 2 (slice result 0 2)) ;;
  member <- lift (PushServicePacketType_of_int packet_type) ;;
  wrapper_print (PushServicePacketType_obj member) ;;
  if (packet_type =? PushServicePacketType_value RemoteSubscription)%Z then
    sensor <- lift (decode_sensor_reading result) ;;
    wrapper_print sensor
  else if (packet_type =? PushServicePacketType_value Sms)%Z then
    process_notification_callback result
  else if (packet_type =? PushServicePacketType_value DismissCall)%Z then
    process_notification_callback result
  else if (packet_type =? PushServicePacketType_value StrappEvent)%Z then
    wrapper_print (Bytes (hexlify result)) ;;
    process_tile_callback result
  else
    wrapper_print (Bytes (hexlify result)).

(** The loop itself.  [inbox] lists the frames [self.push.receive()]
    returns, in order; after the last one the socket is closed and
    [receive] raises [OSError], which is the [break]. *)
Fixpoint listen_loop (inbox : list bytes) : M unit :=
  match inbox with
  | [] => ret tt
  | result :: rest => listen_iteration result ;; listen_loop rest
  end.

Definition listen_pushservice (inbox : list bytes) : M unit :=
  push_connect ;; listen_loop inbox.

(** The body of the [for] loop of [sync]. *)
Definition sync_service (service : Service) : M unit :=
  text <- lift (svc_str service) ;;
  wrapper_print_end (Str (ljust text 80)) "" ;;
  result <- try_except (lift (svc_sync service))
                       (fun exc => wrapper_print (Exc exc) ;; ret (Bool false)) ;;
  wrapper_print (Str (if truthy result then "[OK]" else "[FAIL]")).

Fixpoint sync_loop (svcs : list Service) : M unit :=
  match svcs with
  | [] => ret tt
  | service :: rest => sync_service service ;; sync_loop rest
  end.

Definition sync : M unit :=
  sync_loop services ;; wrapper_print (Str "Sync finished").

(** A notification object, as far as [send_notification] uses it. *)
Record Notification : Type := mkNotification { serialize : bytes }.

Definition send_notification (notification : Notification) : M unit :=
  cargo_write_with_data CARGO_NOTIFICATION (serialize notification) [] ;; ret tt.

Definition clear_tile (guid : UUID) : M unit :=
  send_notification (mkNotification (GenericClearTileNotification_serialize guid)).

Definition set_theme (colors : list Z) : M unit :=
  cargo_write START_STRIP_SYNC_START ;;
  colors <- lift (struct_pack_n 4 6 colors) ;;
  cargo_write_with_data SET_THEME_COLOR colors [] ;;
  cargo_write START_STRIP_SYNC_END.

Definition get_max_tile_capacity : nat := 15.

(** The body of the [while i < tile_count] loop of [request_tiles], run
    [n] more times from index [i] and offset [begin]. *)
Fixpoint request_tiles_loop (n : nat) (tile_data : bytes) (icons : bool)
    (tile_icons : list bytes) (i begin : nat) : res (list Tile) :=
  match n with
  | O => Ok []
  | S n' =>
      res_bind (UUID_of_bytes_le (slice tile_data begin (begin + 16))) (fun guid =>
      res_bind (struct_unpack 4 (slice tile_data (begin + 16) (begin + 20))) (fun order =>
      res_bind (struct_unpack 4 (slice tile_data (begin + 20) (begin + 24))) (fun theme_color =>
      res_bind (struct_unpack 2 (slice tile_data (begin + 24) (begin + 26))) (fun name_length =>
      res_bind (struct_unpack 2 (slice tile_data (begin + 26) (begin + 28))) (fun settings_mask =>
      res_bind (if negb (name_length =? 0)%Z
                then bytes_to_text (slice tile_data (begin + 28) (begin + 80))
                else Ok ""%string) (fun name =>
      res_bind (if icons
                then match nth_error tile_icons i with
                     | Some ic => Ok (Some ic)
                     | None => Raise IndexError
                     end
                else Ok None) (fun icon =>
      res_bind (request_tiles_loop n' tile_data icons tile_icons (i + 1) (begin + 88))
               (fun rest =>
      Ok (mkTile guid order theme_color name_length settings_mask name icon :: rest)))))))))
  end.

Definition request_tiles (icons : bool) : M unit :=
  let max_tiles := get_max_tile_capacity in
  let response_size := (88 * Z.of_nat max_tiles + 4)%Z in
  let response_size :=
    if icons then (response_size + Z.of_nat max_tiles * 1024)%Z else response_size in
  let command := if icons then GET_TILES else GET_TILES_NO_IMAGES in
  ' (result, tiles) <- cargo_read command response_size ;;
  let tile_data := join tiles in
  let tile_icons :=
    if icons
    then map (fun i => slice tile_data (1024 * i) (1024 * i + 1024)) (seq 0 max_tiles)
    else [] in
  let begin := if icons then 1024 * max_tiles else 0 in
  tile_count <- lift (struct_unpack 4 (slice tile_data begin (begin + 4))) ;;
  let begin := begin + 4 in
  tile_list <- lift (request_tiles_loop (Z.to_nat tile_count) tile_data icons
                                        tile_icons 0 begin) ;;
  set_tiles_attr (Some tile_list).

(** [not self.tiles]: [None] and the empty list are both false. *)
Definition tiles_truthy (t : option (list Tile)) : bool :=
  match t with
  | Some (_ :: _) => true
  | _ => false
  end.

Definition get_tiles : M (option (list Tile)) :=
  t <- get_attr tiles ;;
  (if negb (tiles_truthy t) then request_tiles false else ret tt) ;;
  get_attr tiles.

(** [not self.serial_number]: [None] and the empty string are both false. *)
Definition serial_truthy (s : option string) : bool :=
  match s with
  | Some s => negb (String.eqb s "")
  | None => false
  end.

Definition get_serial_number : M (option string) :=
  s <- get_attr serial_number ;;
  (if negb (serial_truthy s) then
     ' (result, number) <- cargo_read SERIAL_NUMBER_REQUEST 12 ;;
     if result then
       match number with
       | n0 :: _ => text <- lift (decode_utf8 n0) ;; set_serial_number_attr (Some text)
       | [] => raise IndexError
       end
     else ret tt
   else ret tt) ;;
  get_attr serial_number.

(** The record [set_tiles] builds for one tile. *)
Definition set_tiles_record (x : Tile) : res bytes :=
  res_bind (struct_pack 4 (order x)) (fun order_bytes =>
  res_bind (struct_pack 4 (theme_color x)) (fun color_bytes =>
  res_bind (struct_pack 2 (Z.of_nat (String.length (name x)))) (fun length_bytes =>
  res_bind (struct_pack 2 (settings_mask x)) (fun mask_bytes =>
  Ok (bytes_le (guid x) ++ order_bytes ++ color_bytes ++ length_bytes ++ mask_bytes
      ++ serialize_text (name x) 30))))).

Fixpoint set_tiles_records (xs : list Tile) : res (list bytes) :=
  match xs with
  | [] => Ok []
  | x :: rest =>
      res_bind (set_tiles_record x) (fun tile =>
      res_bind (set_tiles_records rest) (fun tiles => Ok (tile :: tiles)))
  end.

Definition set_tiles : M reply :=
  cargo_write START_STRIP_SYNC_START ;;
  self_tiles <- get_attr tiles ;;
  match self_tiles with
  | None => raise TypeError
  | Some xs =>
      tiles <- lift (set_tiles_records xs) ;;
      count <- lift (struct_pack 4 (Z.of_nat (List.length tiles))) ;;
      let data := count ++ join tiles in
      count_arg <- lift (struct_pack 4 (Z.of_nat (List.length tiles))) ;;
      result <- cargo_write_with_data SET_TILES data count_arg ;;
      cargo_write START_STRIP_SYNC_END ;;
      ret result
  end.

(** The slot assignment in the loop of [get_firmware_version]. *)
Definition store_firmware_version (v : DeviceVersion) (fw_version : FirmwareVersion)
    : DeviceVersion :=
  if String.eqb (app_name fw_version) "1BL" then
    mkDeviceVersion (Some fw_version) (updater v) (application v)
  else if String.eqb (app_name fw_version) "2UP" then
    mkDeviceVersion (bootloader v) (Some fw_version) (application v)
  else if String.eqb (app_name fw_version) "App" then
    mkDeviceVersion (bootloader v) (updater v) (Some fw_version)
  else v.

Fixpoint get_firmware_version_loop (n : nat) (info : bytes) (offset : nat) : M unit :=
  match n with
  | O => ret tt
  | S n' =>
      fw_version <- lift (FirmwareVersion_deserialize (slice info offset (offset + 19))) ;;
      v <- self_version ;;
      set_version_attr (store_firmware_version v fw_version) ;;
      get_firmware_version_loop n' info (offset + 19)
  end.

Definition get_firmware_version : M DeviceVersion :=
  ' (result, info) <- cargo_read CORE_GET_VERSION (19 * 3)%Z ;;
  let info := join info in
  set_version_attr (mkDeviceVersion None None None) ;;
  get_firmware_version_loop 3 info 0 ;;
  self_version.

Definition get_api_version : M Z :=
  ' (result, info) <- cargo_read CORE_GET_API_VERSION 4 ;;
  match info with
  | i0 :: _ => lift (struct_unpack 4 i0)
  | [] => raise IndexError
  end.

Definition get_running_firmware_app : M FirmwareApp :=
  ' (result, info) <- cargo_read CORE_WHO_AM_I 1 ;;
  match info with
  | i0 :: _ => app <- lift (struct_unpack 1 i0) ;; lift (FirmwareApp_of_int app)
  | [] => raise IndexError
  end.

Definition check_firmware_sdk_bit (platform reserved : Z) : M unit :=
  p <- lift (struct_pack 1 platform) ;;
  r <- lift (struct_pack 1 reserved) ;;
  three <- lift (struct_pack 2 3) ;;
  cargo_write_with_data CORE_SDK_CHECK (p ++ r ++ three) [] ;; ret tt.

(** [connect]: the thread it starts runs [listen_pushservice] concurrently;
    here it is recorded as started. *)
Definition connect : M unit :=
  cargo_connect ;;
  get_firmware_version ;;
  set_push_thread_attr ;;
  emit ThreadStart.

(** A device just constructed. *)
Definition new_device : World := mkWorld None None None false [].

(** ** Vocabulary of the properties *)

(** A handler declines when it returns a value that [if new_message:]
    takes for false. *)
Definition declines (s : Service) (guid : UUID) (command : bytes) (message : value) : Prop :=
  exists v, svc_push s guid command message = Ok v /\ truthy v = false.

(** A service that [sync] gets through: formatting it returns, and what
    its [sync] raises, if anything, derives from [Exception]. *)
Definition sync_handled (service : Service) : Prop :=
  (exists text, svc_str service = Ok text)
  /\ (forall e, svc_sync service = Raise e -> is_Exception e = true).

(** What [sync] prints for such a service. *)
Definition sync_report (service : Service) : list event :=
  match svc_str service with
  | Ok text =>
      WrapperPrint (Str (ljust text 80)) ""
      :: match svc_sync service with
         | Ok result =>
             [WrapperPrint (Str (if truthy result then "[OK]" else "[FAIL]")) newline]
         | Raise exc =>
             [WrapperPrint (Exc exc) newline; WrapperPrint (Str "[FAIL]") newline]
         end
  | Raise _ => []
  end.

Definition with_version (w : World) (v : DeviceVersion) : World :=
  mkWorld (tiles w) (serial_number w) (Some v) (push_thread w) (trace w).

(** The six slices [request_tiles] takes from the record that starts at
    [begin], here relative to the record. *)
Definition tile_record_fields (r : bytes) : list bytes :=
  [slice r 0 16; slice r 16 20; slice r 20 24; slice r 24 26; slice r 26 28;
   slice r 28 80].

(** The tile [request_tiles] builds from a record without icon, given the
    text of its name. *)
Definition tile_of_record (r : bytes) (text : string) : Tile :=
  mkTile (mkUUID (slice r 0 16))
         (le_decode (slice r 16 20))
         (le_decode (slice r 20 24))
         (le_decode (slice r 24 26))
         (le_decode (slice r 26 28))
         text
         None.

(** The name of a record: the decoded 52 bytes of text when the name
    length is not zero, the empty string otherwise. *)
Definition record_name (r : bytes) (text : string) : Prop :=
  if (le_decode (slice r 24 26) =? 0)%Z
  then text = ""%string
  else bytes_to_text (slice r 28 80) = Ok text.

Definition with_tiles (w : World) (t : option (list Tile)) : World :=
  mkWorld t (serial_number w) (version w) (push_thread w) (trace w).

(** The message [process_notification_callback] builds before routing. *)
Definition notification_dict (opcode : Z) (guid : UUID) (command : bytes) : value :=
  Dict [("opcode"%string, Int opcode);
        ("guid"%string, Str (UUID_str guid));
        ("command"%string, Str (str_of_bytes (hexlify command)))].

(** The message [process_tile_callback] builds before routing. *)
Definition tile_dict (opcode : Z) (guid : UUID) (command : bytes) (tile_name : string)
    : value :=
  Dict [("opcode"%string, Int opcode);
        ("guid"%string, Str (UUID_str guid));
        ("command"%string, Bytes (hexlify command));
        ("tile_name"%string, Str tile_name)].

(** What one frame makes the listener hand to the wrapper, by packet type:
    a sensor sample, a routed notification event, a routed tile event, or
    the frame itself in hexadecimal. *)
Inductive surfaces (result : bytes) : list event -> Prop :=
| surfaces_sensor (sensor : value) :
    struct_unpack 2 (slice result 0 2) = Ok (PushServicePacketType_value RemoteSubscription) ->
    decode_sensor_reading result = Ok sensor ->
    surfaces result [WrapperPrint (PushServicePacketType_obj RemoteSubscription) newline;
                     WrapperPrint sensor newline]
| surfaces_notification (t : PushServicePacketType) (opcode : Z) (message : value) :
    t = Sms \/ t = DismissCall ->
    struct_unpack 2 (slice result 0 2) = Ok (PushServicePacketType_value t) ->
    struct_unpack 4 (slice result 2 6) = Ok opcode ->
    process_push_loop services (mkUUID (slice result 6 22)) (slice_from result 22)
      (notification_dict opcode (mkUUID (slice result 6 22)) (slice_from result 22))
    = Ok message ->
    surfaces result [WrapperPrint (PushServicePacketType_obj t) newline;
                     WrapperSend "PushService" message]
| surfaces_tile (opcode : Z) (tile_name : string) (message : value) :
    struct_unpack 2 (slice result 0 2) = Ok (PushServicePacketType_value StrappEvent) ->
    struct_unpack 4 (slice result 6 10) = Ok opcode ->
    bytes_to_text (slice result 44 84) = Ok tile_name ->
    process_push_loop services (mkUUID (slice result 10 26)) (slice result 26 44)
      (tile_dict opcode (mkUUID (slice result 10 26)) (slice result 26 44) tile_name)
    = Ok message ->
    surfaces result [WrapperPrint (PushServicePacketType_obj StrappEvent) newline;
                     WrapperPrint (Bytes (hexlify result)) newline;
                     WrapperSend "PushService" message]
| surfaces_raw (t : PushServicePacketType) :
    t <> RemoteSubscription -> t <> Sms -> t <> DismissCall -> t <> StrappEvent ->
    struct_unpack 2 (slice result 0 2) = Ok (PushServicePacketType_value t) ->
    surfaces result [WrapperPrint (PushServicePacketType_obj t) newline;
                     WrapperPrint (Bytes (hexlify result)) newline].

Arguments surfaces_sensor : clear implicits.
Arguments surfaces_notification : clear implicits.
Arguments surfaces_tile : clear implicits.
Arguments surfaces_raw : clear implicits.

(** A frame whose packet type is a member of [PushServicePacketType] and
    whose body has what its decoder needs. *)
Definition frame_decodes (result : bytes) : Prop :=
  exists t,
    struct_unpack 2 (slice result 0 2) = Ok (PushServicePacketType_value t)
    /\ match t with
       | RemoteSubscription => exists sensor, decode_sensor_reading result = Ok sensor
       | Sms | DismissCall => 22 <= length result
       | StrappEvent =>
           26 <= length result /\ exists text, bytes_to_text (slice result 44 84) = Ok text
       | _ => True
       end.

(** No registered handler raises. *)
Definition handlers_return : Prop :=
  forall s guid command message,
    In s services -> exists v, svc_push s guid command message = Ok v.

(** The calls a program makes on a device, and the turns of the listener
    thread that [connect] starts, interleaved in any order. *)
Inductive call : Type :=
| call_connect
| call_disconnect
| call_band_type
| call_check_if_oobe_completed
| call_get_me_tile_image_id
| call_get_me_tile_image
| call_set_me_tile_image (pixel_data : bytes) (image_id : Z)
| call_navigate_to_screen (screen : Z)
| call_process_push (guid : UUID) (command : bytes) (message : value)
| call_process_tile_callback (result : bytes)
| call_process_notification_callback (result : bytes)
| call_listen_pushservice (inbox : list bytes)
| call_sync
| call_clear_tile (guid : UUID)
| call_set_theme (colors : list Z)
| call_get_tiles
| call_get_serial_number
| call_set_tiles
| call_request_tiles (icons : bool)
| call_send_notification (notification : Notification)
| call_get_firmware_version
| call_get_api_version
| call_get_running_firmware_app
| call_check_firmware_sdk_bit (platform reserved : Z).

(** The world after a call, whether it returned or raised. *)
Definition after (c : call) (w : World) : World :=
  match c with
  | call_connect => snd (connect w)
  | call_disconnect => snd (disconnect w)
  | call_band_type => snd (band_type w)
  | call_check_if_oobe_completed => snd (check_if_oobe_completed w)
  | call_get_me_tile_image_id => snd (get_me_tile_image_id w)
  | call_get_me_tile_image => snd (get_me_tile_image w)
  | call_set_me_tile_image pixel_data image_id => snd (set_me_tile_image pixel_data image_id w)
  | call_navigate_to_screen screen => snd (navigate_to_screen screen w)
  | call_process_push guid command message => snd (process_push guid command message w)
  | call_process_tile_callback result => snd (process_tile_callback result w)
  | call_process_notification_callback result =>
      snd (process_notification_callback result w)
  | call_listen_pushservice inbox => snd (listen_pushservice inbox w)
  | call_sync => snd (sync w)
  | call_clear_tile guid => snd (clear_tile guid w)
  | call_set_theme colors => snd (set_theme colors w)
  | call_get_tiles => snd (get_tiles w)
  | call_get_serial_number => snd (get_serial_number w)
  | call_set_tiles => snd (set_tiles w)
  | call_request_tiles icons => snd (request_tiles icons w)
  | call_send_notification notification => snd (send_notification notification w)
  | call_get_firmware_version => snd (get_firmware_version w)
  | call_get_api_version => snd (get_api_version w)
  | call_get_running_firmware_app => snd (get_running_firmware_app w)
  | call_check_firmware_sdk_bit platform reserved =>
      snd (check_firmware_sdk_bit platform reserved w)
  end.

(** The states of a device: a new device, then any call of the program,
    or, once the push thread was started, the handling of a frame by it. *)
Inductive reachable : World -> Prop :=
| reachable_new : reachable new_device
| reachable_call (c : call) (w : World) :
    reachable w -> reachable (after c w)
| reachable_frame (result : bytes) (w : World) :
    reachable w -> push_thread w = true ->
    reachable (snd (listen_iteration result w)).


(** *** Vocabulary of the further properties *)

Definition FirmwareApp_value (a : FirmwareApp) : Z :=
  match a with
  | OneBL => 1
  | TwoUp => 2
  | App => 3
  | UpApp => 4
  end.

Definition with_serial_number (w : World) (s : option string) : World :=
  mkWorld (tiles w) s (version w) (push_thread w) (trace w).

Definition is_wrapper_event (e : event) : bool :=
  match e with
  | WrapperPrint _ _ | WrapperSend _ _ => true
  | _ => false
  end.

(** A computation that only talks to the wrapper. *)
Definition wrapper_only {A} (m : M A) : Prop :=
  forall w r w', m w = (r, w') ->
    exists es, w' = add_trace w es /\ forallb is_wrapper_event es = true.

Definition empty_version : DeviceVersion := mkDeviceVersion None None None.

(** The last of the records [fs], in the order read, whose [app_name] is
    [tag]. *)
Definition last_tagged (tag : string) (fs : list FirmwareVersion)
    : option FirmwareVersion :=
  find (fun f => String.eqb (app_name f) tag) (rev fs).

(** The fields of a tile that [set_tiles] packs fit their formats. *)
Definition tile_packable (x : Tile) : Prop :=
  (0 <= order x < 2 ^ 32)%Z /\ (0 <= theme_color x < 2 ^ 32)%Z
  /\ (Z.of_nat (String.length (name x)) < 2 ^ 16)%Z
  /\ (0 <= settings_mask x < 2 ^ 16)%Z.

(** The record of a tile in the table [set_tiles] sends. *)
Definition tile_record_bytes (x : Tile) : bytes :=
  bytes_le (guid x) ++ le_encode 4 (order x) ++ le_encode 4 (theme_color x)
  ++ le_encode 2 (Z.of_nat (String.length (name x))) ++ le_encode 2 (settings_mask x)
  ++ serialize_text (name x) 30.

(** The tile [request_tiles] reads back from the record of [x]. *)
Definition read_back (x : Tile) : Tile :=
  mkTile (guid x) (order x) (theme_color x) (Z.of_nat (String.length (name x)))
         (settings_mask x) (name x) None.

(** The serialized name has the 60 bytes of its field and its first 52
    bytes decode to the name. *)
Definition name_round_trips (x : Tile) : Prop :=
  length (bytes_le (guid x)) = 16
  /\ length (serialize_text (name x) 30) = 60
  /\ (name x <> ""%string ->
      bytes_to_text (firstn 52 (serialize_text (name x) 30)) = Ok (name x)).

(** What a computation may change: the trace grows, and an attribute
    whose flag is [false] keeps its value. *)
Definition writes (ft fs fv fp : bool) {A} (m : M A) : Prop :=
  forall w r w', m w = (r, w') ->
    (exists es, trace w' = trace w ++ es)
    /\ (ft = false -> tiles w' = tiles w)
    /\ (fs = false -> serial_number w' = serial_number w)
    /\ (fv = false -> version w' = version w)
    /\ (fp = false -> push_thread w' = push_thread w).

Definition tile_with_icon (t : Tile) (ic : bytes) : Tile :=
  mkTile (guid t) (order t) (theme_color t) (name_length t) (settings_mask t) (name t)
         (Some ic).

(** The [k]-th icon of the block of icons that precedes the tile table. *)
Definition icon_of (block : bytes) (k : nat) : bytes :=
  slice block (1024 * k) (1024 * k + 1024).

(** The tiles decoded from [recs], the first of them with icon number [i]. *)
Definition tiles_with_icons (icon : nat -> bytes) (i : nat) (recs : list bytes)
    (names : list string) : list Tile :=
  map (fun p => tile_with_icon (tile_of_record (fst (snd p)) (snd (snd p))) (icon (fst p)))
      (combine (seq i (length recs)) (combine recs names)).

(** ** Properties *)

(** *** Reasoning about computations *)

Lemma add_trace_nil (w : World) : add_trace w [] = w.
Proof. destruct w; unfold add_trace; simpl; now rewrite app_nil_r. Qed.

Lemma add_trace_app (w : World) (es es' : list event) :
  add_trace (add_trace w es) es' = add_trace w (es ++ es').
Proof. unfold add_trace; simpl; now rewrite app_assoc. Qed.

Lemma emit_eq (e : event) (w : World) : emit e w = (Ok tt, add_trace w [e]).
Proof. reflexivity. Qed.

Lemma bind_ok {A B} (m : M A) (k : A -> M B) (w w' : World) (a : A) :
  m w = (Ok a, w') -> bind m k w = k a w'.
Proof. unfold bind; intros ->; reflexivity. Qed.

Lemma bind_raise {A B} (m : M A) (k : A -> M B) (w w' : World) (e : exn) :
  m w = (Raise e, w') -> bind m k w = (Raise e, w').
Proof. unfold bind; intros ->; reflexivity. Qed.

Lemma trace_add_trace (w : World) (es : list event) :
  trace (add_trace w es) = trace w ++ es.
Proof. reflexivity. Qed.

Lemma socket_call_eq (e : event) (w : World) :
  socket_call e w = (socket (trace w) e, add_trace w [e]).
Proof. reflexivity. Qed.

Lemma socket_call_ok (e : event) (w : World) (r : reply) :
  socket (trace w) e = Ok r -> socket_call e w = (Ok r, add_trace w [e]).
Proof. unfold socket_call; intros ->; reflexivity. Qed.

(** A call of which the returned value is dropped. *)
Lemma socket_call_dropped (e : event) (w : World) :
  bind (socket_call e) (fun _ => ret tt) w
  = (res_bind (socket (trace w) e) (fun _ => Ok tt), add_trace w [e]).
Proof. unfold bind, socket_call, ret; destruct (socket (trace w) e); reflexivity. Qed.

Lemma reads_app (t t' : list event) : reads (t ++ t') = reads t + reads t'.
Proof. unfold reads; now rewrite filter_app, length_app. Qed.

(** *** The dispatch router *)

Lemma process_push_loop_declined (pre post : list Service) (guid : UUID)
    (command : bytes) (message : value) :
  (forall s, In s pre -> UUID_eqb (svc_guid s) guid = true ->
             declines s guid command message) ->
  process_push_loop (pre ++ post) guid command message
  = process_push_loop post guid command message.
Proof.
  induction pre as [|s pre IH]; intros Hpre; simpl; [reflexivity|].
  destruct (UUID_eqb (svc_guid s) guid) eqn:Hguid.
  - destruct (Hpre s (or_introl eq_refl) Hguid) as [v [Hv Hfalse]].
    rewrite Hv; simpl; rewrite Hfalse.
    apply IH; intros s' Hin; apply Hpre; now right.
  - apply IH; intros s' Hin; apply Hpre; now right.
Qed.

(** C6 (as the code has it). [process_push] scans the registered handlers
    in order and compares identifiers.  A handler declines when what it
    returns is false for [if new_message:], which is so for [None] and
    also for an empty message.  When every handler whose identifier
    matches declines (in particular when none matches) the original
    message is returned; when, after handlers that do not match or
    decline, a matching handler returns a value that is true, that value
    is returned and no later handler is consulted. *)
Theorem process_push_routes (guid : UUID) (command : bytes) (message : value) (w : World) :
  ((forall s, In s services -> UUID_eqb (svc_guid s) guid = true ->
              declines s guid command message) ->
   process_push guid command message w = (Ok message, w))
  /\
  (forall pre s post v,
     services = pre ++ s :: post ->
     (forall s', In s' pre -> UUID_eqb (svc_guid s') guid = true ->
                 declines s' guid command message) ->
     UUID_eqb (svc_guid s) guid = true ->
     svc_push s guid command message = Ok v ->
     truthy v = true ->
     process_push guid command message w = (Ok v, w)).
Proof.
  unfold process_push, lift; split.
  - intros Hall.
    rewrite <- (app_nil_r services).
    rewrite process_push_loop_declined by assumption.
    reflexivity.
  - intros pre s post v Hsplit Hpre Hguid Hpush Htrue.
    rewrite Hsplit, process_push_loop_declined by assumption.
    simpl; rewrite Hguid, Hpush; simpl; rewrite Htrue; reflexivity.
Qed.

(** *** [sync] *)

Lemma sync_service_eq (service : Service) (w : World) :
  sync_handled service ->
  sync_service service w = (Ok tt, add_trace w (sync_report service)).
Proof.
  intros [[text Htext] Hexc].
  unfold sync_service, sync_report, wrapper_print_end, wrapper_print, try_except,
    bind, lift, ret, emit, add_trace.
  rewrite Htext.
  destruct (svc_sync service) as [result|exc]; simpl;
    [|rewrite (Hexc exc eq_refl)]; simpl; rewrite <- ?app_assoc; reflexivity.
Qed.

Lemma sync_loop_eq (svcs : list Service) (w : World) :
  Forall sync_handled svcs ->
  sync_loop svcs w = (Ok tt, add_trace w (flat_map sync_report svcs)).
Proof.
  intros Hall. revert w.
  induction Hall as [|s svcs Hs _ IH]; intros w; simpl.
  - now rewrite add_trace_nil.
  - rewrite (bind_ok _ _ _ (@sync_service_eq s w Hs)), IH, add_trace_app; reflexivity.
Qed.

Lemma sync_loop_app (pre rest : list Service) (w : World) :
  Forall sync_handled pre ->
  sync_loop (pre ++ rest) w = sync_loop rest (add_trace w (flat_map sync_report pre)).
Proof.
  intros Hall. revert w.
  induction Hall as [|s svcs Hs _ IH]; intros w; simpl.
  - now rewrite add_trace_nil.
  - rewrite (bind_ok _ _ _ (@sync_service_eq s w Hs)), IH, add_trace_app; reflexivity.
Qed.

(** C10 (as the code has it). [sync] treats the registered services in
    turn.  A service whose [sync] raises an exception that derives from
    [Exception] gets the exception printed and a [[FAIL]] line, and the
    loop goes on with the next service; when this is so for every
    service, [sync] returns normally after printing "Sync finished".  The
    [except Exception] clause does not catch an exception that derives
    from [BaseException] only, and the service is formatted before the
    [try]: a [sync] that raises such an exception, and a service whose
    formatting raises, make [sync] raise that exception after the output
    for the services before it, without "Sync finished". *)
Theorem sync_isolates_failures :
  (forall w,
     Forall sync_handled services ->
     sync w = (Ok tt, add_trace w (flat_map sync_report services
                                   ++ [WrapperPrint (Str "Sync finished") newline])))
  /\ (forall w pre s post text e,
        services = pre ++ s :: post ->
        Forall sync_handled pre ->
        svc_str s = Ok text ->
        svc_sync s = Raise e -> is_Exception e = false ->
        sync w = (Raise e, add_trace w (flat_map sync_report pre
                                        ++ [WrapperPrint (Str (ljust text 80)) ""])))
  /\ (forall w pre s post e,
        services = pre ++ s :: post ->
        Forall sync_handled pre ->
        svc_str s = Raise e ->
        sync w = (Raise e, add_trace w (flat_map sync_report pre))).
Proof.
  split; [|split].
  - intros w Hall. unfold sync.
    rewrite (bind_ok _ _ _ (@sync_loop_eq services w Hall)).
    unfold wrapper_print; rewrite emit_eq, add_trace_app; reflexivity.
  - intros w pre s post text e Hsplit Hpre Htext Hsync Hbase.
    unfold sync. rewrite Hsplit.
    unfold bind at 1. rewrite (@sync_loop_app pre (s :: post) w Hpre).
    cbn [sync_loop]. unfold bind at 1.
    unfold sync_service, wrapper_print_end.
    unfold bind at 1, lift at 1. rewrite Htext.
    unfold bind at 1. rewrite emit_eq.
    unfold bind at 1, try_except, lift. rewrite Hsync, Hbase.
    rewrite add_trace_app. reflexivity.
  - intros w pre s post e Hsplit Hpre Htext.
    unfold sync. rewrite Hsplit.
    unfold bind at 1. rewrite (@sync_loop_app pre (s :: post) w Hpre).
    cbn [sync_loop]. unfold bind at 1.
    unfold sync_service.
    unfold bind at 1, lift at 1. rewrite Htext. reflexivity.
Qed.

(** *** [set_theme] *)

Lemma struct_pack_all_ok (size : nat) (vs : list Z) :
  Forall (fun v => (0 <= v < 256 ^ Z.of_nat size)%Z) vs ->
  struct_pack_all size vs = Ok (flat_map (le_encode size) vs).
Proof.
  induction 1 as [|v vs [Hlo Hhi] _ IH]; simpl; [reflexivity|].
  unfold struct_pack.
  apply Z.leb_le in Hlo; apply Z.ltb_lt in Hhi.
  rewrite Hlo, Hhi, IH; reflexivity.
Qed.

Lemma length_le_encode (n : nat) (v : Z) : length (le_encode n v) = n.
Proof. revert v; induction n; intros v; simpl; [reflexivity | now rewrite IHn]. Qed.

Lemma length_flat_map_le_encode (n : nat) (vs : list Z) :
  length (flat_map (le_encode n) vs) = n * length vs.
Proof.
  induction vs as [|v vs IH]; simpl; [lia|].
  rewrite length_app, length_le_encode, IH; lia.
Qed.
(** C4 (as the code has it). [set_theme] with six colours, each a 32-bit
    value, calls the cargo socket in this order: the start marker without
    payload, [SET_THEME_COLOR] with the 24 bytes of the six packed
    colours, the end marker without payload.  Each call is made when the
    calls before it returned: the end marker is sent whatever result the
    colour write returns, and is not sent when the colour write raises. *)
Theorem set_theme_brackets (colors : list Z) (w : World) :
  length colors = 6 ->
  Forall (fun c => (0 <= c < 2 ^ 32)%Z) colors ->
  let payload := flat_map (le_encode 4) colors in
  let start := CargoWrite START_STRIP_SYNC_START in
  let middle := CargoWriteWithData SET_THEME_COLOR payload [] in
  let stop := CargoWrite START_STRIP_SYNC_END in
  length payload = 24
  /\ set_theme colors w
     = match socket (trace w) start with
       | Raise e => (Raise e, add_trace w [start])
       | Ok _ =>
           match socket (trace w ++ [start]) middle with
           | Raise e => (Raise e, add_trace w [start; middle])
           | Ok _ =>
               (res_bind (socket (trace w ++ [start; middle]) stop) (fun _ => Ok tt),
                add_trace w [start; middle; stop])
           end
       end.
Proof.
  intros Hlen Hrange payload start middle stop; split.
  - unfold payload; rewrite length_flat_map_le_encode, Hlen; reflexivity.
  - unfold set_theme, struct_pack_n, cargo_write, cargo_write_with_data.
    rewrite Hlen; simpl Nat.eqb; cbv iota.
    rewrite (struct_pack_all_ok 4 Hrange).
    subst start middle stop. fold payload.
    unfold bind at 1. rewrite socket_call_dropped.
    destruct (socket (trace w) _) as [r0|e0]; cbn [res_bind]; [|reflexivity].
    unfold bind at 1, lift at 1.
    unfold bind at 1. rewrite socket_call_eq, trace_add_trace, add_trace_app.
    destruct (socket (trace w ++ _) _) as [r1|e1]; [|reflexivity].
    rewrite socket_call_dropped, trace_add_trace, add_trace_app.
    reflexivity.
Qed.

(** *** [check_if_oobe_completed] *)

(** The outcome of [check_if_oobe_completed] as a function of what the
    read does. *)
Lemma check_if_oobe_completed_eq (w : World) :
  check_if_oobe_completed w
  = (match socket (trace w) (CargoRead CARGO_SYSTEM_SETTINGS_OOBE_COMPLETED_GET 4) with
     | Ok (_, []) => Ok false
     | Ok (_, d0 :: _) =>
         if Nat.eqb (length d0) 4 then Ok (negb (le_decode d0 =? 0)%Z)
         else Raise struct_error
     | Raise e => Raise e
     end,
     add_trace w [CargoRead CARGO_SYSTEM_SETTINGS_OOBE_COMPLETED_GET 4]).
Proof.
  unfold check_if_oobe_completed, cargo_read.
  unfold bind at 1. rewrite socket_call_eq.
  destruct (socket (trace w) _) as [[result [|d0 rest]]|e]; try reflexivity.
  unfold bind, lift, struct_unpack, ret.
  destruct (Nat.eqb (length d0) 4); reflexivity.
Qed.

(** C5 (as the code has it). [check_if_oobe_completed] looks only at the
    data of the read, not at its status: without data it returns [False];
    with a first chunk of four bytes it returns whether their
    little-endian value is non-zero, so it returns [True] exactly for
    such a chunk with a non-zero value; a first chunk of another length
    raises [struct.error]; and an exception of the read itself is not
    caught. *)
Theorem check_if_oobe_completed_fallback (w : World) :
  let read := CargoRead CARGO_SYSTEM_SETTINGS_OOBE_COMPLETED_GET 4 in
  let w' := add_trace w [read] in
  (forall result,
     socket (trace w) read = Ok (result, []) ->
     check_if_oobe_completed w = (Ok false, w'))
  /\ (forall result d0 rest,
        socket (trace w) read = Ok (result, d0 :: rest) -> length d0 = 4 ->
        check_if_oobe_completed w = (Ok (negb (le_decode d0 =? 0)%Z), w'))
  /\ (check_if_oobe_completed w = (Ok true, w') <->
      exists result d0 rest,
        socket (trace w) read = Ok (result, d0 :: rest)
        /\ length d0 = 4 /\ le_decode d0 <> 0%Z)
  /\ (forall result d0 rest,
        socket (trace w) read = Ok (result, d0 :: rest) -> length d0 <> 4 ->
        check_if_oobe_completed w = (Raise struct_error, w'))
  /\ (forall e,
        socket (trace w) read = Raise e ->
        check_if_oobe_completed w = (Raise e, w')).
Proof.
  intros read w'.
  rewrite check_if_oobe_completed_eq. fold read; fold w'.
  split; [intros result ->; reflexivity|].
  split.
  { intros result d0 rest -> Hlen. rewrite Hlen. reflexivity. }
  split.
  { destruct (socket (trace w) read) as [[result [|d0 rest]]|e].
    - split; [discriminate | intros (r & d & rs & Hd & _); discriminate].
    - destruct (Nat.eqb (length d0) 4) eqn:Hlen.
      + apply Nat.eqb_eq in Hlen. split.
        * intros Heq. exists result, d0, rest. repeat split; trivial.
          intros Hz. rewrite Hz in Heq. discriminate.
        * intros (r & d & rs & Hd & _ & Hnz).
          injection Hd as _ <- _.
          apply Z.eqb_neq in Hnz. rewrite Hnz. reflexivity.
      + apply Nat.eqb_neq in Hlen. split; [discriminate|].
        intros (r & d & rs & Hd & Heq & _).
        injection Hd as _ <- _. contradiction.
    - split; [discriminate | intros (r & d & rs & Hd & _); discriminate]. }
  split.
  { intros result d0 rest -> Hlen. apply Nat.eqb_neq in Hlen. rewrite Hlen. reflexivity. }
  intros e ->. reflexivity.
Qed.

(** *** [get_me_tile_image] *)


(** *** Slices of concatenations *)

Unset Implicit Arguments.

Lemma slice_app_l (a b : bytes) (i j : nat) :
  j <= length a -> slice (a ++ b) i j = slice a i j.
Proof.
  intros Hj; unfold slice.
  destruct (le_lt_dec i (length a)) as [Hi|Hi].
  - rewrite skipn_app.
    replace (i - length a) with 0 by lia; simpl.
    rewrite firstn_app, length_skipn.
    replace (j - i - (length a - i)) with 0 by lia.
    simpl; now rewrite app_nil_r.
  - replace (j - i) with 0 by lia; reflexivity.
Qed.

Lemma slice_app_r (a b : bytes) (n i j : nat) :
  length a = n -> slice (a ++ b) (n + i) (n + j) = slice b i j.
Proof.
  intros <-; unfold slice.
  rewrite skipn_app, skipn_all2 by lia.
  replace (length a + i - length a) with i by lia.
  replace (length a + j - (length a + i)) with (j - i) by lia.
  reflexivity.
Qed.

Lemma slice_middle (pre r post : bytes) (n i j : nat) :
  length pre = n -> j <= length r ->
  slice (pre ++ r ++ post) (n + i) (n + j) = slice r i j.
Proof.
  intros Hn Hj. rewrite (slice_app_r _ _ _ _ _ Hn). now apply slice_app_l.
Qed.

Lemma slice_middle_0 (pre r post : bytes) (n j : nat) :
  length pre = n -> j <= length r ->
  slice (pre ++ r ++ post) n (n + j) = slice r 0 j.
Proof.
  intros Hn Hj. rewrite <- (Nat.add_0_r n) at 1. now apply slice_middle.
Qed.

Lemma slice_all (r : bytes) (n : nat) : length r = n -> slice r 0 n = r.
Proof. intros <-; unfold slice; simpl; rewrite Nat.sub_0_r; apply firstn_all. Qed.

(** *** [get_firmware_version] *)

Lemma tag_orders (a b c : string) :
  Permutation [a; b; c] ["1BL"; "2UP"; "App"]%string ->
  (a, b, c) = ("1BL", "2UP", "App")%string \/ (a, b, c) = ("1BL", "App", "2UP")%string \/
  (a, b, c) = ("2UP", "1BL", "App")%string \/ (a, b, c) = ("2UP", "App", "1BL")%string \/
  (a, b, c) = ("App", "1BL", "2UP")%string \/ (a, b, c) = ("App", "2UP", "1BL")%string.
Proof.
  intros HP. clear - HP.
  assert (Ha : In a ["1BL"; "2UP"; "App"]%string)
    by (apply (Permutation_in _ HP); simpl; auto).
  assert (Hb : In b ["1BL"; "2UP"; "App"]%string)
    by (apply (Permutation_in _ HP); simpl; auto).
  assert (Hc : In c ["1BL"; "2UP"; "App"]%string)
    by (apply (Permutation_in _ HP); simpl; auto).
  assert (Hnd : NoDup [a; b; c]).
  { apply (Permutation_NoDup (Permutation_sym HP)).
    repeat constructor; simpl; intuition discriminate. }
  inversion Hnd as [|? ? Hab Hnd']; subst.
  inversion Hnd' as [|? ? Hbc _]; subst.
  simpl in Ha, Hb, Hc, Hab, Hbc.
  destruct Ha as [<-|[<-|[<-|[]]]]; destruct Hb as [<-|[<-|[<-|[]]]];
    destruct Hc as [<-|[<-|[<-|[]]]]; tauto.
Qed.

Lemma get_firmware_version_loop_step (n : nat) (info : bytes) (offset : nat)
    (w : World) (fw : FirmwareVersion) (dv : DeviceVersion) :
  FirmwareVersion_deserialize (slice info offset (offset + 19)) = Ok fw ->
  version w = Some dv ->
  get_firmware_version_loop (S n) info offset w
  = get_firmware_version_loop n info (offset + 19)
      (with_version w (store_firmware_version dv fw)).
Proof.
  intros Hfw Hdv.
  cbn [get_firmware_version_loop].
  unfold bind at 1, lift at 1. rewrite Hfw.
  unfold bind at 1, self_version, bind at 1, get_attr. rewrite Hdv.
  reflexivity.
Qed.

(** C7. When the version read returns three 19-byte records that
    deserialize to firmware versions tagged '1BL', '2UP' and 'App', in
    whichever order, [get_firmware_version] returns (and stores) a
    [DeviceVersion] whose bootloader slot holds the '1BL' record, whose
    updater slot holds the '2UP' record and whose application slot holds
    the 'App' record. *)
Theorem get_firmware_version_slots (w : World) (result : bool) (info : list bytes)
    (r1 r2 r3 extra : bytes) (f1 f2 f3 : FirmwareVersion) :
  socket (trace w) (CargoRead CORE_GET_VERSION 57) = Ok (result, info) ->
  join info = r1 ++ r2 ++ r3 ++ extra ->
  length r1 = 19 -> length r2 = 19 -> length r3 = 19 ->
  FirmwareVersion_deserialize r1 = Ok f1 ->
  FirmwareVersion_deserialize r2 = Ok f2 ->
  FirmwareVersion_deserialize r3 = Ok f3 ->
  Permutation [app_name f1; app_name f2; app_name f3] ["1BL"; "2UP"; "App"]%string ->
  exists v w',
    get_firmware_version w = (Ok v, w')
    /\ version w' = Some v
    /\ trace w' = trace w ++ [CargoRead CORE_GET_VERSION 57]
    /\ (forall f, In f [f1; f2; f3] -> app_name f = "1BL"%string -> bootloader v = Some f)
    /\ (forall f, In f [f1; f2; f3] -> app_name f = "2UP"%string -> updater v = Some f)
    /\ (forall f, In f [f1; f2; f3] -> app_name f = "App"%string -> application v = Some f).
Proof.
  intros Hread Hinfo L1 L2 L3 D1 D2 D3 HP.
  unfold get_firmware_version, cargo_read.
  change (19 * 3)%Z with 57%Z.
  rewrite (bind_ok _ _ _ (@socket_call_ok _ _ _ Hread)).
  assert (S1 : slice (join info) 0 (0 + 19) = r1).
  { rewrite Hinfo, slice_app_l by (simpl; lia). now apply slice_all. }
  assert (S2 : slice (join info) (0 + 19) (0 + 19 + 19) = r2).
  { rewrite Hinfo, (slice_middle_0 r1 r2 (r3 ++ extra) (0 + 19) 19) by (simpl; lia).
    now apply slice_all. }
  assert (S3 : slice (join info) (0 + 19 + 19) (0 + 19 + 19 + 19) = r3).
  { rewrite Hinfo, app_assoc, (slice_middle_0 (r1 ++ r2) r3 extra (0 + 19 + 19) 19)
      by (rewrite ?length_app; simpl; lia).
    now apply slice_all. }
  set (w1 := with_version (add_trace w [CargoRead CORE_GET_VERSION 57])
                          (mkDeviceVersion None None None)).
  change (bind (set_version_attr (mkDeviceVersion None None None))
               (fun _ => bind (get_firmware_version_loop 3 (join info) 0)
                              (fun _ => self_version))
               (add_trace w [CargoRead CORE_GET_VERSION 57]))
    with (bind (get_firmware_version_loop 3 (join info) 0) (fun _ => self_version) w1).
  unfold bind at 1.
  rewrite (get_firmware_version_loop_step _ _ _ _ f1 (mkDeviceVersion None None None))
    by (rewrite ?S1; trivial).
  rewrite (get_firmware_version_loop_step _ _ _ _ f2
             (store_firmware_version (mkDeviceVersion None None None) f1))
    by (rewrite ?S2; trivial).
  rewrite (get_firmware_version_loop_step _ _ _ _ f3
             (store_firmware_version
                (store_firmware_version (mkDeviceVersion None None None) f1) f2))
    by (rewrite ?S3; trivial).
  cbn [get_firmware_version_loop ret].
  unfold self_version, bind, get_attr, ret, with_version; cbn [version].
  unfold store_firmware_version.
  destruct (tag_orders _ _ _ HP) as [H|[H|[H|[H|[H|H]]]]];
    injection H as E1 E2 E3; rewrite E1, E2, E3; simpl;
    (eexists; eexists; split; [reflexivity|]);
    (split; [reflexivity|]);
    (split; [reflexivity|]);
    repeat split; simpl; intros f [<-|[<-|[<-|[]]]] Hf;
    try reflexivity; congruence.
Qed.

(** *** [request_tiles] *)

Lemma length_slice (r : bytes) (i j : nat) :
  j <= length r -> length (slice r i j) = j - i.
Proof. intros Hj; unfold slice; rewrite length_firstn, length_skipn; lia. Qed.

Lemma tile_record_fields_lengths (r : bytes) :
  length r = 88 -> map (@length byte) (tile_record_fields r) = [16; 4; 4; 2; 2; 52].
Proof.
  intros Hr; unfold tile_record_fields; cbn [map].
  rewrite !length_slice by lia; reflexivity.
Qed.

Lemma request_tiles_loop_step (n : nat) (pre r post : bytes) (i : nat) (text : string) :
  length r = 88 -> record_name r text ->
  request_tiles_loop (S n) (pre ++ r ++ post) false [] i (length pre)
  = res_bind (request_tiles_loop n (pre ++ r ++ post) false [] (i + 1) (length pre + 88))
             (fun rest => Ok (tile_of_record r text :: rest)).
Proof.
  intros Hr Hname.
  cbn [request_tiles_loop].
  rewrite (slice_middle_0 pre r post (length pre) 16) by lia.
  rewrite !(slice_middle pre r post (length pre)) by lia.
  unfold UUID_of_bytes_le, struct_unpack.
  rewrite !length_slice by lia. cbn [Nat.sub Nat.eqb res_bind].
  unfold record_name in Hname.
  destruct (le_decode (slice r 24 26) =? 0)%Z eqn:Hlen; cbn [negb].
  - subst text; reflexivity.
  - rewrite Hname; reflexivity.
Qed.

(** Decoding any number of consecutive records. *)
Lemma request_tiles_loop_records (recs : list bytes) (names : list string) :
  Forall2 (fun r text => length r = 88 /\ record_name r text) recs names ->
  forall (pre post : bytes) (i : nat),
    request_tiles_loop (length recs) (pre ++ concat recs ++ post) false [] i (length pre)
    = Ok (map (fun p => tile_of_record (fst p) (snd p)) (combine recs names)).
Proof.
  induction 1 as [|r text recs names [Hr Hname] _ IH]; intros pre post i.
  - reflexivity.
  - cbn [length concat combine map fst snd].
    rewrite <- app_assoc.
    rewrite (request_tiles_loop_step _ _ _ _ _ text Hr Hname).
    replace (length pre + 88) with (length (pre ++ r)) by (rewrite length_app; lia).
    replace (pre ++ r ++ concat recs ++ post) with ((pre ++ r) ++ concat recs ++ post)
      by (now rewrite <- app_assoc).
    rewrite IH; reflexivity.
Qed.

Lemma slice_firstn (r : bytes) (n i j : nat) :
  j <= n -> slice (firstn n r) i j = slice r i j.
Proof.
  intros Hj. unfold slice.
  rewrite skipn_firstn_comm, firstn_firstn.
  destruct (le_lt_dec j i) as [Hji|Hij].
  - replace (j - i) with 0 by lia. reflexivity.
  - rewrite Nat.min_l by lia. reflexivity.
Qed.

(** The last 8 bytes of a record do not reach the tile. *)
Lemma tile_of_record_ignores_tail (r : bytes) (text : string) :
  tile_of_record (firstn 80 r) text = tile_of_record r text.
Proof.
  unfold tile_of_record. rewrite !slice_firstn by lia. reflexivity.
Qed.

(** C3 (as the code has it). [request_tiles] advances by 88 bytes per
    record and reads from each record a 16-byte GUID, a 4-byte order, a
    4-byte theme colour, a 2-byte name length, a 2-byte settings mask and
    52 bytes of text, which are the first 80 bytes; the last 8 bytes of a
    record are not read.  For a response that holds a count of 2 followed
    by two 88-byte records whose text decodes, it stores exactly two
    tiles, in the order of the records, with GUID, order, colour, name
    length and mask taken from these bytes and with the decoded text as
    name. *)
Theorem request_tiles_two_records (w : World) (result : bool) (chunks : list bytes)
    (count r1 r2 extra : bytes) (text1 text2 : string) :
  socket (trace w) (CargoRead GET_TILES_NO_IMAGES 1324) = Ok (result, chunks) ->
  join chunks = count ++ r1 ++ r2 ++ extra ->
  length count = 4 -> le_decode count = 2%Z ->
  length r1 = 88 -> length r2 = 88 ->
  record_name r1 text1 -> record_name r2 text2 ->
  map (@length byte) (tile_record_fields r1) = [16; 4; 4; 2; 2; 52]
  /\ map (@length byte) (tile_record_fields r2) = [16; 4; 4; 2; 2; 52]
  /\ tile_of_record (firstn 80 r1) text1 = tile_of_record r1 text1
  /\ tile_of_record (firstn 80 r2) text2 = tile_of_record r2 text2
  /\ request_tiles false w
     = (Ok tt, with_tiles (add_trace w [CargoRead GET_TILES_NO_IMAGES 1324])
                          (Some [tile_of_record r1 text1; tile_of_record r2 text2])).
Proof.
  intros Hread Hdata Hc Hcount Hr1 Hr2 Hn1 Hn2.
  split; [now apply tile_record_fields_lengths|].
  split; [now apply tile_record_fields_lengths|].
  split; [apply tile_of_record_ignores_tail|].
  split; [apply tile_of_record_ignores_tail|].
  unfold request_tiles, cargo_read.
  change (88 * Z.of_nat get_max_tile_capacity + 4)%Z with 1324%Z.
  rewrite (bind_ok _ _ _ (@socket_call_ok _ _ _ Hread)).
  rewrite Hdata.
  rewrite (slice_app_l count _ 0 (0 + 4)) by lia.
  rewrite (slice_all count (0 + 4) Hc).
  unfold struct_unpack. rewrite Hc, Hcount. cbn [Nat.eqb].
  unfold bind at 1, lift at 1.
  change (Z.to_nat 2) with (length [r1; r2]).
  replace (0 + 4) with (length count) by lia.
  replace (r1 ++ r2 ++ extra) with (concat [r1; r2] ++ extra)
    by (cbn [concat]; rewrite <- !app_assoc; reflexivity).
  rewrite (request_tiles_loop_records [r1; r2] [text1; text2]) by (repeat constructor; assumption).
  reflexivity.
Qed.


(** *** The cache-backed getters *)

Lemma request_tiles_effect (icons : bool) (w w' : World) (r : res unit) :
  request_tiles icons w = (r, w') ->
  exists cmd size,
    trace w' = trace w ++ [CargoRead cmd size]
    /\ serial_number w' = serial_number w
    /\ version w' = version w
    /\ push_thread w' = push_thread w
    /\ match r with
       | Ok _ => exists l, tiles w' = Some l
       | Raise _ => tiles w' = tiles w
       end.
Proof.
  unfold request_tiles, cargo_read.
  unfold bind at 1. rewrite socket_call_eq.
  destruct (socket (trace w) _) as [[result chunks]|e0];
    [|intros [= <- <-]; do 2 eexists; cbn; repeat split; eauto].
  unfold bind, lift, set_tiles_attr.
  match goal with |- context [struct_unpack 4 ?b] => destruct (struct_unpack 4 b) as [n|e] end.
  - match goal with |- context [request_tiles_loop ?a1 ?a2 ?a3 ?a4 ?a5 ?a6] =>
      destruct (request_tiles_loop a1 a2 a3 a4 a5 a6) as [l|err] end;
      intros [= <- <-]; do 2 eexists; cbn; repeat split; eauto.
  - intros [= <- <-]; do 2 eexists; cbn; repeat split; eauto.
Qed.

Lemma get_tiles_hit (w : World) :
  tiles_truthy (tiles w) = true -> get_tiles w = (Ok (tiles w), w).
Proof.
  intros Hhit; unfold get_tiles, bind, get_attr, ret; rewrite Hhit; reflexivity.
Qed.

Lemma get_tiles_effect (w w1 : World) (r : option (list Tile)) :
  get_tiles w = (Ok r, w1) ->
  tiles w1 = r
  /\ reads (trace w1) = reads (trace w) + (if tiles_truthy (tiles w) then 0 else 1).
Proof.
  destruct (tiles_truthy (tiles w)) eqn:Hhit.
  - rewrite (get_tiles_hit w Hhit). intros [= <- <-]. split; [reflexivity | lia].
  - unfold get_tiles. unfold bind at 1, get_attr at 1. rewrite Hhit. cbn [negb].
    unfold bind at 1.
    destruct (request_tiles false w) as [[[]|e] w'] eqn:Hreq; [|discriminate].
    destruct (request_tiles_effect _ _ _ _ Hreq) as (cmd & size & Htr & _).
    unfold get_attr. intros [= <- <-]. split; [reflexivity|].
    rewrite Htr, reads_app; reflexivity.
Qed.

Lemma get_serial_number_hit (w : World) :
  serial_truthy (serial_number w) = true ->
  get_serial_number w = (Ok (serial_number w), w).
Proof.
  intros Hhit; unfold get_serial_number, bind, get_attr, ret; rewrite Hhit; reflexivity.
Qed.

Lemma get_serial_number_effect (w w1 : World) (r : option string) :
  get_serial_number w = (Ok r, w1) ->
  serial_number w1 = r
  /\ reads (trace w1)
     = reads (trace w) + (if serial_truthy (serial_number w) then 0 else 1).
Proof.
  destruct (serial_truthy (serial_number w)) eqn:Hhit.
  - rewrite (get_serial_number_hit w Hhit). intros [= <- <-]. split; [reflexivity | lia].
  - unfold get_serial_number. unfold bind at 1, get_attr at 1. rewrite Hhit. cbn [negb].
    unfold bind at 1, cargo_read. unfold bind at 1. rewrite socket_call_eq.
    destruct (socket (trace w) _) as [[[|] [|n0 rest]]|e0];
      unfold bind, raise, lift, ret, set_serial_number_attr, get_attr;
      try destruct (decode_utf8 n0);
      try discriminate;
      intros [= <- <-]; cbn [trace serial_number add_trace];
      (split; [reflexivity|]); rewrite reads_app; reflexivity.
Qed.

Lemma get_firmware_version_loop_trace (n : nat) (info : bytes) :
  forall (offset : nat) (w w' : World) (r : res unit),
    get_firmware_version_loop n info offset w = (r, w') -> trace w' = trace w.
Proof.
  induction n as [|n IH]; intros offset w w' r; cbn [get_firmware_version_loop].
  - now intros [= _ <-].
  - unfold bind at 1, lift at 1.
    destruct (FirmwareVersion_deserialize _) as [fw|e]; [|now intros [= _ <-]].
    unfold bind at 1, self_version, bind at 1, get_attr, raise.
    destruct (version w) as [dv|]; [|now intros [= _ <-]].
    unfold ret, bind at 1, set_version_attr.
    intros Hloop. apply IH in Hloop. exact Hloop.
Qed.

Lemma get_firmware_version_trace (w w1 : World) (r : res DeviceVersion) :
  get_firmware_version w = (r, w1) ->
  trace w1 = trace w ++ [CargoRead CORE_GET_VERSION 57].
Proof.
  unfold get_firmware_version, cargo_read.
  unfold bind at 1. rewrite socket_call_eq.
  destruct (socket (trace w) _) as [[result info]|e0]; [|now intros [= _ <-]].
  unfold bind at 1, set_version_attr at 1.
  unfold bind at 1.
  match goal with |- context [get_firmware_version_loop 3 ?i 0 ?w0] =>
    destruct (get_firmware_version_loop 3 i 0 w0) as [[[]|e] w2] eqn:Hloop end;
    apply get_firmware_version_loop_trace in Hloop; cbn [trace add_trace] in Hloop.
  - unfold self_version, bind, get_attr, raise, ret.
    destruct (version w2); intros [= _ <-]; exact Hloop.
  - intros [= _ <-]. exact Hloop.
Qed.

Lemma get_firmware_version_reads (w w1 : World) (r : res DeviceVersion) :
  get_firmware_version w = (r, w1) -> reads (trace w1) = reads (trace w) + 1.
Proof.
  intros Hrun. rewrite (get_firmware_version_trace _ _ _ Hrun), reads_app. reflexivity.
Qed.

(** C2 (as the code has it). [get_tiles] and [get_serial_number] keep what
    they fetched: once a call has returned a non-empty tile list, or a
    non-empty serial number, the next call returns the same value and
    leaves the cargo socket alone, so that the two calls together read
    once if the cache was empty and not at all if it was filled.
    [get_firmware_version] does not look at the stored version and reads
    on every call. *)
Theorem cache_backed_getters :
  (forall w r w1,
     get_tiles w = (Ok r, w1) -> tiles_truthy r = true ->
     get_tiles w1 = (Ok r, w1)
     /\ reads (trace w1) = reads (trace w) + (if tiles_truthy (tiles w) then 0 else 1))
  /\ (forall w r w1,
        get_serial_number w = (Ok r, w1) -> serial_truthy r = true ->
        get_serial_number w1 = (Ok r, w1)
        /\ reads (trace w1)
           = reads (trace w) + (if serial_truthy (serial_number w) then 0 else 1))
  /\ (forall w r w1,
        get_firmware_version w = (r, w1) -> reads (trace w1) = reads (trace w) + 1).
Proof.
  split; [|split].
  - intros w r w1 Hget Htrue.
    destruct (get_tiles_effect _ _ _ Hget) as [Hr Hreads].
    split; [|exact Hreads].
    subst r. now apply get_tiles_hit.
  - intros w r w1 Hget Htrue.
    destruct (get_serial_number_effect _ _ _ Hget) as [Hr Hreads].
    split; [|exact Hreads].
    subst r. now apply get_serial_number_hit.
  - intros w r w1; apply get_firmware_version_reads.
Qed.


(** *** The push listener *)

Lemma process_push_loop_returns (guid : UUID) (command : bytes) (message : value) :
  handlers_return -> exists v, process_push_loop services guid command message = Ok v.
Proof.
  unfold handlers_return. intros Hret.
  induction services as [|s svcs IH]; simpl.
  - now exists message.
  - assert (IH' : exists v, process_push_loop svcs guid command message = Ok v).
    { apply IH. intros s' g c m Hin. apply Hret. now right. }
    destruct (UUID_eqb (svc_guid s) guid); [|exact IH'].
    destruct (Hret s guid command message (or_introl eq_refl)) as [v Hv].
    rewrite Hv; simpl.
    destruct (truthy v); [now exists v | exact IH'].
Qed.

Lemma PushServicePacketType_of_value (t : PushServicePacketType) :
  PushServicePacketType_of_int (PushServicePacketType_value t) = Ok t.
Proof. destruct t; reflexivity. Qed.

Lemma process_notification_callback_ok (result : bytes) (w : World) :
  22 <= length result -> handlers_return ->
  exists opcode message,
    struct_unpack 4 (slice result 2 6) = Ok opcode
    /\ process_push_loop services (mkUUID (slice result 6 22)) (slice_from result 22)
         (notification_dict opcode (mkUUID (slice result 6 22)) (slice_from result 22))
       = Ok message
    /\ process_notification_callback result w
       = (Ok tt, add_trace w [WrapperSend "PushService" message]).
Proof.
  intros Hlen Hret.
  unfold process_notification_callback, process_push, struct_unpack, UUID_of_bytes_le.
  rewrite !length_slice by lia. cbn [Nat.sub Nat.eqb].
  set (opcode := le_decode (slice result 2 6)).
  set (guid := mkUUID (slice result 6 22)).
  destruct (process_push_loop_returns guid (slice_from result 22)
              (notification_dict opcode guid (slice_from result 22)) Hret) as [message Hm].
  exists opcode, message. split; [reflexivity|]. split; [exact Hm|].
  unfold bind, lift. unfold notification_dict in Hm. rewrite Hm. reflexivity.
Qed.

Lemma process_tile_callback_ok (result : bytes) (tile_name : string) (w : World) :
  26 <= length result -> bytes_to_text (slice result 44 84) = Ok tile_name ->
  handlers_return ->
  exists opcode message,
    struct_unpack 4 (slice result 6 10) = Ok opcode
    /\ process_push_loop services (mkUUID (slice result 10 26)) (slice result 26 44)
         (tile_dict opcode (mkUUID (slice result 10 26)) (slice result 26 44) tile_name)
       = Ok message
    /\ process_tile_callback result w
       = (Ok tt, add_trace w [WrapperSend "PushService" message]).
Proof.
  intros Hlen Htext Hret.
  unfold process_tile_callback, process_push, struct_unpack, UUID_of_bytes_le.
  rewrite !length_slice by lia. cbn [Nat.sub Nat.eqb].
  set (opcode := le_decode (slice result 6 10)).
  set (guid := mkUUID (slice result 10 26)).
  destruct (process_push_loop_returns guid (slice result 26 44)
              (tile_dict opcode guid (slice result 26 44) tile_name) Hret) as [message Hm].
  exists opcode, message. split; [reflexivity|]. split; [exact Hm|].
  unfold bind, lift. rewrite Htext. unfold tile_dict in Hm. rewrite Hm. reflexivity.
Qed.

Lemma listen_iteration_surfaces (result : bytes) (w : World) :
  frame_decodes result -> handlers_return ->
  exists out, surfaces result out /\ listen_iteration result w = (Ok tt, add_trace w out).
Proof.
  intros (t & Htype & Hbody) Hret.
  unfold listen_iteration.
  unfold bind at 1, lift at 1. rewrite Htype.
  unfold bind at 1, lift at 1. rewrite PushServicePacketType_of_value.
  unfold bind at 1, wrapper_print at 1. rewrite emit_eq.
  destruct t; cbn beta iota in Hbody; cbn [PushServicePacketType_value Z.eqb Pos.eqb];
    try (match type of Htype with
         | _ = Ok (PushServicePacketType_value ?t) =>
             exists [WrapperPrint (PushServicePacketType_obj t) newline;
                     WrapperPrint (Bytes (hexlify result)) newline];
             split;
             [ apply (surfaces_raw result t); solve [discriminate | exact Htype]
             | unfold wrapper_print; rewrite emit_eq, add_trace_app; reflexivity ]
         end).
  - destruct Hbody as [sensor Hsensor].
    eexists; split; [exact (surfaces_sensor result sensor Htype Hsensor)|].
    unfold bind, lift, wrapper_print. rewrite Hsensor, emit_eq, add_trace_app. reflexivity.
  - destruct (process_notification_callback_ok result
                (add_trace w [WrapperPrint (PushServicePacketType_obj Sms) newline])
                Hbody Hret) as (opcode & message & Hop & Hm & Hrun).
    eexists; split;
      [exact (surfaces_notification result Sms opcode message (or_introl eq_refl) Htype Hop Hm)|].
    rewrite Hrun, add_trace_app. reflexivity.
  - destruct (process_notification_callback_ok result
                (add_trace w [WrapperPrint (PushServicePacketType_obj DismissCall) newline])
                Hbody Hret) as (opcode & message & Hop & Hm & Hrun).
    eexists; split;
      [exact (surfaces_notification result DismissCall opcode message
                (or_intror eq_refl) Htype Hop Hm)|].
    rewrite Hrun, add_trace_app. reflexivity.
  - destruct Hbody as (Hlen & text & Htext).
    destruct (process_tile_callback_ok result text
                (add_trace (add_trace w [WrapperPrint (PushServicePacketType_obj StrappEvent) newline])
                           [WrapperPrint (Bytes (hexlify result)) newline])
                Hlen Htext Hret) as (opcode & message & Hop & Hm & Hrun).
    eexists; split;
      [exact (surfaces_tile result opcode text message Htype Hop Htext Hm)|].
    unfold bind at 1, wrapper_print at 1. rewrite emit_eq, Hrun, !add_trace_app. reflexivity.
Qed.

(** The loop handles the frames in the order of their arrival. *)
Lemma listen_loop_surfaces (inbox : list bytes) :
  Forall frame_decodes inbox -> handlers_return ->
  forall w, exists outs,
    Forall2 surfaces inbox outs
    /\ listen_loop inbox w = (Ok tt, add_trace w (concat outs)).
Proof.
  intros Hall Hret.
  induction Hall as [|result rest Hframe _ IH]; intros w.
  - exists []. split; [constructor|]. cbn. now rewrite add_trace_nil.
  - destruct (listen_iteration_surfaces result w Hframe Hret) as (out & Hout & Hrun).
    destruct (IH (add_trace w out)) as (outs & Houts & Hloop).
    exists (out :: outs). split; [now constructor|].
    cbn [listen_loop concat].
    rewrite (bind_ok _ _ _ Hrun), Hloop, add_trace_app. reflexivity.
Qed.

(** An exception in one iteration leaves the loop: the frames that follow
    are not received. *)
Lemma listen_loop_stops (result : bytes) (rest : list bytes) (w w' : World) (e : exn) :
  listen_iteration result w = (Raise e, w') ->
  listen_loop (result :: rest) w = (Raise e, w').
Proof. intros Hrun. cbn [listen_loop]. now rewrite (bind_raise _ _ _ Hrun). Qed.

(** A packet type outside the enumeration raises [ValueError] before the
    branch on the type is reached. *)
Lemma listen_iteration_unknown_type (result : bytes) (n : Z) (w : World) :
  struct_unpack 2 (slice result 0 2) = Ok n ->
  (forall t, PushServicePacketType_value t <> n) ->
  listen_iteration result w = (Raise ValueError, w).
Proof.
  intros Htype Hunknown.
  unfold listen_iteration.
  unfold bind at 1, lift at 1. rewrite Htype.
  unfold bind at 1, lift at 1.
  unfold PushServicePacketType_of_int.
  destruct (find _ _) as [t|] eqn:Hfind; [|reflexivity].
  apply find_some in Hfind. destruct Hfind as [_ Heq].
  apply Z.eqb_eq in Heq. now destruct (Hunknown t).
Qed.

(** C1 (as the code has it). Once the push socket is connected, when
    every frame of the inbox carries a packet type of the enumeration and
    a body its decoder accepts, and no handler raises,
    [listen_pushservice] hands to the wrapper, frame after frame in the
    order of arrival, a sensor sample, a routed event or the raw frame in
    hexadecimal, and ends normally when [receive] raises [OSError].  An
    exception raised while a frame is handled leaves the loop: the frames
    after it are not handled. *)
Theorem listen_pushservice_surfaces :
  (forall (inbox : list bytes) (w : World) (ack : reply),
     socket (trace w) PushConnect = Ok ack ->
     Forall frame_decodes inbox -> handlers_return ->
     exists outs,
       Forall2 surfaces inbox outs
       /\ listen_pushservice inbox w = (Ok tt, add_trace w (PushConnect :: concat outs)))
  /\ (forall (result : bytes) (rest : list bytes) (w w' : World) (e : exn),
        listen_iteration result w = (Raise e, w') ->
        listen_loop (result :: rest) w = (Raise e, w')).
Proof.
  split; [|exact listen_loop_stops].
  intros inbox w ack Hconnect Hall Hret.
  destruct (listen_loop_surfaces inbox Hall Hret (add_trace w [PushConnect]))
    as (outs & Houts & Hloop).
  exists outs. split; [exact Houts|].
  unfold listen_pushservice, push_connect.
  unfold bind at 1. rewrite socket_call_dropped, Hconnect. cbn [res_bind].
  rewrite Hloop, add_trace_app. reflexivity.
Qed.


(** *** The version field while the listener runs *)






























(** ** Further properties of the facade *)

(** *** Packing and unpacking *)

Lemma byte_val_range (b : byte) : (0 <= byte_val b < 256)%Z.
Proof.
  unfold byte_val. pose proof (Byte.to_N_bounded b) as Hb. lia.
Qed.

Lemma byte_val_of_Z (z : Z) : byte_val (byte_of_Z z) = (z mod 256)%Z.
Proof.
  unfold byte_val, byte_of_Z.
  pose proof (Z.mod_pos_bound z 256 ltac:(lia)) as Hmod.
  destruct (Byte.of_N (Z.to_N (z mod 256))) as [b|] eqn:Hb.
  - apply Byte.to_of_N in Hb. rewrite Hb. lia.
  - apply Byte.of_N_None_iff in Hb. lia.
Qed.

Lemma le_decode_range (b : bytes) : (0 <= le_decode b < 256 ^ Z.of_nat (length b))%Z.
Proof.
  induction b as [|x rest IH]; cbn [le_decode length]; [simpl; lia|].
  rewrite Nat2Z.inj_succ, Z.pow_succ_r by lia.
  pose proof (byte_val_range x). lia.
Qed.

Lemma le_decode_le_encode (n : nat) (v : Z) :
  (0 <= v < 256 ^ Z.of_nat n)%Z -> le_decode (le_encode n v) = v.
Proof.
  revert v; induction n as [|n IH]; intros v Hv.
  - simpl in *. lia.
  - cbn [le_encode le_decode].
    rewrite Nat2Z.inj_succ, Z.pow_succ_r in Hv by lia.
    rewrite byte_val_of_Z, IH.
    + pose proof (Z.div_mod v 256 ltac:(lia)). lia.
    + split; [apply Z.div_pos; lia | apply Z.div_lt_upper_bound; lia].
Qed.

Lemma struct_pack_ok (size : nat) (v : Z) :
  (0 <= v < 256 ^ Z.of_nat size)%Z -> struct_pack size v = Ok (le_encode size v).
Proof.
  intros [Hlo Hhi]. unfold struct_pack.
  apply Z.leb_le in Hlo; apply Z.ltb_lt in Hhi. now rewrite Hlo, Hhi.
Qed.

Lemma struct_pack_error (size : nat) (v : Z) :
  ~ (0 <= v < 256 ^ Z.of_nat size)%Z -> struct_pack size v = Raise struct_error.
Proof.
  intros Hv. unfold struct_pack.
  destruct (0 <=? v)%Z eqn:Hlo; [|reflexivity].
  destruct (v <? 256 ^ Z.of_nat size)%Z eqn:Hhi; [|reflexivity].
  apply Z.leb_le in Hlo; apply Z.ltb_lt in Hhi. lia.
Qed.

(** *** Arguments are packed before the socket is used *)

(** X1. [navigate_to_screen], [set_me_tile_image] and
    [check_firmware_sdk_bit] pack their integer arguments before they
    call the socket: an argument that does not fit its field (16 bits for
    the screen, 32 for the image id, 8 for platform and reserved) raises
    [struct.error] and nothing is sent. *)
Theorem arguments_packed_before_sending :
  (forall screen w,
     ~ (0 <= screen < 2 ^ 16)%Z ->
     navigate_to_screen screen w = (Raise struct_error, w))
  /\ (forall pixel_data image_id w,
        ~ (0 <= image_id < 2 ^ 32)%Z ->
        set_me_tile_image pixel_data image_id w = (Raise struct_error, w))
  /\ (forall platform reserved w,
        ~ (0 <= platform < 2 ^ 8)%Z \/ ~ (0 <= reserved < 2 ^ 8)%Z ->
        check_firmware_sdk_bit platform reserved w = (Raise struct_error, w)).
Proof.
  split; [|split].
  - intros screen w Hs. unfold navigate_to_screen, bind, lift.
    now rewrite (struct_pack_error 2 screen Hs).
  - intros pixel_data image_id w Hi. unfold set_me_tile_image, bind, lift.
    now rewrite (struct_pack_error 4 image_id Hi).
  - intros platform reserved w Harg. unfold check_firmware_sdk_bit, bind, lift.
    destruct (struct_pack 1 platform) as [p|e] eqn:Hp.
    + destruct Harg as [Hbad|Hbad].
      * rewrite (struct_pack_error 1 platform Hbad) in Hp. discriminate.
      * now rewrite (struct_pack_error 1 reserved Hbad).
    + unfold struct_pack in Hp.
      destruct ((0 <=? platform) && (platform <? 256 ^ Z.of_nat 1))%Z; [discriminate|].
      now injection Hp as <-.
Qed.

(** X2. With arguments that fit, each of the three methods makes exactly
    one call on the cargo socket, a write with data: the screen as two
    little-endian bytes, the pixel data with the image id as four
    little-endian bytes of arguments, and the four bytes platform,
    reserved, 3, 0 for the SDK check.  [navigate_to_screen] and
    [set_me_tile_image] return what the socket answers, and
    [check_firmware_sdk_bit] drops it. *)
Theorem packed_arguments_sent :
  (forall screen w,
     (0 <= screen < 2 ^ 16)%Z ->
     let call := CargoWriteWithData NAVIGATE_TO_SCREEN (le_encode 2 screen) [] in
     length (le_encode 2 screen) = 2
     /\ le_decode (le_encode 2 screen) = screen
     /\ navigate_to_screen screen w = (socket (trace w) call, add_trace w [call]))
  /\ (forall pixel_data image_id w,
        (0 <= image_id < 2 ^ 32)%Z ->
        let call := CargoWriteWithData WRITE_ME_TILE_IMAGE_WITH_ID pixel_data
                      (le_encode 4 image_id) in
        le_decode (le_encode 4 image_id) = image_id
        /\ set_me_tile_image pixel_data image_id w
           = (socket (trace w) call, add_trace w [call]))
  /\ (forall platform reserved w,
        (0 <= platform < 2 ^ 8)%Z -> (0 <= reserved < 2 ^ 8)%Z ->
        let call := CargoWriteWithData CORE_SDK_CHECK
                      [byte_of_Z platform; byte_of_Z reserved; x03; x00] [] in
        byte_val (byte_of_Z platform) = platform
        /\ byte_val (byte_of_Z reserved) = reserved
        /\ check_firmware_sdk_bit platform reserved w
           = (res_bind (socket (trace w) call) (fun _ => Ok tt), add_trace w [call])).
Proof.
  split; [|split].
  - intros screen w Hs call.
    split; [apply length_le_encode|].
    split; [now apply le_decode_le_encode|].
    unfold navigate_to_screen, bind, lift.
    now rewrite (struct_pack_ok 2 screen Hs).
  - intros pixel_data image_id w Hi call.
    split; [now apply le_decode_le_encode|].
    unfold set_me_tile_image. unfold bind at 1, lift.
    rewrite (struct_pack_ok 4 image_id Hi).
    unfold bind, cargo_write_with_data. rewrite socket_call_eq. fold call.
    destruct (socket (trace w) call) as [[result data]|e]; reflexivity.
  - intros platform reserved w Hp Hr call.
    split; [rewrite byte_val_of_Z; apply Z.mod_small; lia|].
    split; [rewrite byte_val_of_Z; apply Z.mod_small; lia|].
    unfold check_firmware_sdk_bit.
    unfold bind at 1, lift. rewrite (struct_pack_ok 1 platform Hp).
    unfold bind at 1. rewrite (struct_pack_ok 1 reserved Hr).
    unfold bind at 1. cbn [struct_pack Z.leb Z.ltb andb].
    change (struct_pack 2 3) with (Ok [x03; x00]).
    unfold cargo_write_with_data. apply socket_call_dropped.
Qed.

(** *** [set_theme] with colours that cannot be packed *)

Lemma struct_pack_all_error (size : nat) (vs : list Z) :
  Exists (fun v => ~ (0 <= v < 256 ^ Z.of_nat size)%Z) vs ->
  struct_pack_all size vs = Raise struct_error.
Proof.
  induction vs as [|v vs IH]; intros Hex; [inversion Hex|].
  cbn [struct_pack_all].
  destruct (struct_pack size v) as [hd|e] eqn:Hv.
  - cbn [res_bind]. rewrite IH; [reflexivity|].
    inversion Hex as [? ? Hbad|? ? Hrest]; subst; [|assumption].
    rewrite (struct_pack_error size v Hbad) in Hv. discriminate.
  - unfold struct_pack in Hv.
    destruct ((0 <=? v) && (v <? 256 ^ Z.of_nat size))%Z; [discriminate|].
    now injection Hv as <-.
Qed.

(** X3. [set_theme] sends the start marker before it packs the colours:
    with a list that does not have six colours, or with a colour outside
    32 bits, it raises [struct.error] after the start marker went out and
    sends neither the colours nor the end marker. *)
Theorem set_theme_bad_colors (colors : list Z) (w : World) :
  length colors <> 6 \/ Exists (fun c => ~ (0 <= c < 2 ^ 32)%Z) colors ->
  set_theme colors w
  = (res_bind (socket (trace w) (CargoWrite START_STRIP_SYNC_START))
              (fun _ => Raise struct_error),
     add_trace w [CargoWrite START_STRIP_SYNC_START]).
Proof.
  intros Hbad.
  assert (Hpack : struct_pack_n 4 6 colors = Raise struct_error).
  { unfold struct_pack_n.
    destruct (Nat.eqb (length colors) 6) eqn:Hlen; [|reflexivity].
    apply Nat.eqb_eq in Hlen.
    destruct Hbad as [Hne|Hex]; [contradiction|].
    now apply struct_pack_all_error. }
  unfold set_theme, cargo_write.
  unfold bind at 1. rewrite socket_call_dropped.
  destruct (socket (trace w) _) as [ack|e]; cbn [res_bind]; [|reflexivity].
  unfold bind, lift. now rewrite Hpack.
Qed.

(** *** [disconnect] *)

(** X4. [disconnect] closes the push socket first and the cargo socket
    second; when closing the push socket raises, the cargo socket is not
    closed. *)
Theorem disconnect_order (w : World) :
  disconnect w
  = match socket (trace w) PushDisconnect with
    | Ok _ =>
        (res_bind (socket (trace w ++ [PushDisconnect]) CargoDisconnect) (fun _ => Ok tt),
         add_trace w [PushDisconnect; CargoDisconnect])
    | Raise e => (Raise e, add_trace w [PushDisconnect])
    end.
Proof.
  unfold disconnect, push_disconnect, cargo_disconnect.
  unfold bind at 1. rewrite socket_call_dropped.
  destruct (socket (trace w) PushDisconnect) as [ack|e]; cbn [res_bind]; [|reflexivity].
  rewrite socket_call_dropped, trace_add_trace, add_trace_app. reflexivity.
Qed.

(** *** [band_type] without a version *)

(** X5. While no version was ever stored, [band_type] raises
    [AttributeError] instead of answering [Unknown], and
    [get_me_tile_image] raises with it before any read; once a version is
    stored, [band_type] returns and leaves the device as it is. *)
Theorem band_type_needs_version :
  (forall w, version w = None ->
     band_type w = (Raise AttributeError, w)
     /\ get_me_tile_image w = (Raise AttributeError, w))
  /\ (forall w dv, version w = Some dv ->
        band_type w
        = (Ok (if DeviceVersion_bool dv then DeviceVersion_band_type dv else Unknown), w)).
Proof.
  split.
  - intros w Hv.
    assert (Hband : band_type w = (Raise AttributeError, w)).
    { unfold band_type, self_version, bind, get_attr, raise. now rewrite Hv. }
    split; [exact Hband|].
    unfold get_me_tile_image. now rewrite (bind_raise _ _ _ Hband).
  - intros w dv Hv.
    unfold band_type, self_version, bind, get_attr, ret. rewrite Hv.
    destruct (DeviceVersion_bool dv); reflexivity.
Qed.

(** *** [get_api_version] and [get_running_firmware_app] *)

Lemma FirmwareApp_of_int_spec (z : Z) (a : FirmwareApp) :
  FirmwareApp_of_int z = Ok a <-> FirmwareApp_value a = z.
Proof.
  unfold FirmwareApp_of_int. split.
  - destruct (z =? 1)%Z eqn:H1; [apply Z.eqb_eq in H1; now intros [= <-]|].
    destruct (z =? 2)%Z eqn:H2; [apply Z.eqb_eq in H2; now intros [= <-]|].
    destruct (z =? 3)%Z eqn:H3; [apply Z.eqb_eq in H3; now intros [= <-]|].
    destruct (z =? 4)%Z eqn:H4; [apply Z.eqb_eq in H4; now intros [= <-]|].
    discriminate.
  - intros <-. destruct a; reflexivity.
Qed.

Lemma get_api_version_eq (w : World) :
  get_api_version w
  = (match socket (trace w) (CargoRead CORE_GET_API_VERSION 4) with
     | Ok (_, []) => Raise IndexError
     | Ok (_, i0 :: _) => struct_unpack 4 i0
     | Raise e => Raise e
     end,
     add_trace w [CargoRead CORE_GET_API_VERSION 4]).
Proof.
  unfold get_api_version, cargo_read.
  unfold bind at 1. rewrite socket_call_eq.
  destruct (socket (trace w) _) as [[result [|i0 rest]]|e]; reflexivity.
Qed.

Lemma get_running_firmware_app_eq (w : World) :
  get_running_firmware_app w
  = (match socket (trace w) (CargoRead CORE_WHO_AM_I 1) with
     | Ok (_, []) => Raise IndexError
     | Ok (_, i0 :: _) => res_bind (struct_unpack 1 i0) FirmwareApp_of_int
     | Raise e => Raise e
     end,
     add_trace w [CargoRead CORE_WHO_AM_I 1]).
Proof.
  unfold get_running_firmware_app, cargo_read.
  unfold bind at 1. rewrite socket_call_eq.
  destruct (socket (trace w) _) as [[result [|i0 rest]]|e]; try reflexivity.
  unfold bind, lift. destruct (struct_unpack 1 i0); reflexivity.
Qed.

(** X6. [get_api_version] returns the little-endian value of the first
    chunk of its read, a number from 0 to 2^32-1, when that chunk has four
    bytes; unlike [check_if_oobe_completed] it has no fallback: a read
    that returns no data raises [IndexError], and a first chunk of another
    length raises [struct.error]. *)
Theorem get_api_version_outcomes (w : World) :
  let read := CargoRead CORE_GET_API_VERSION 4 in
  let w' := add_trace w [read] in
  (forall result, socket (trace w) read = Ok (result, []) ->
     get_api_version w = (Raise IndexError, w'))
  /\ (forall result i0 rest, socket (trace w) read = Ok (result, i0 :: rest) ->
        length i0 <> 4 -> get_api_version w = (Raise struct_error, w'))
  /\ (forall result i0 rest, socket (trace w) read = Ok (result, i0 :: rest) ->
        length i0 = 4 ->
        get_api_version w = (Ok (le_decode i0), w')
        /\ (0 <= le_decode i0 < 2 ^ 32)%Z)
  /\ (forall e, socket (trace w) read = Raise e -> get_api_version w = (Raise e, w')).
Proof.
  intros read w'.
  rewrite get_api_version_eq. fold read; fold w'.
  split; [intros result ->; reflexivity|].
  split.
  { intros result i0 rest -> Hlen. unfold struct_unpack.
    apply Nat.eqb_neq in Hlen. now rewrite Hlen. }
  split.
  { intros result i0 rest -> Hlen. unfold struct_unpack.
    rewrite Hlen. split; [reflexivity|].
    pose proof (le_decode_range i0) as Hr. rewrite Hlen in Hr. exact Hr. }
  intros e ->. reflexivity.
Qed.

(** X7. [get_running_firmware_app] turns the single byte of its read into
    the member of [FirmwareApp] with that value: it returns a member
    exactly when the byte is 1, 2, 3 or 4, raises [ValueError] for any
    other byte, [struct.error] when the first chunk is not one byte long
    and [IndexError] when the read returns no data. *)
Theorem get_running_firmware_app_outcomes (w : World) :
  let read := CargoRead CORE_WHO_AM_I 1 in
  let w' := add_trace w [read] in
  (forall result, socket (trace w) read = Ok (result, []) ->
     get_running_firmware_app w = (Raise IndexError, w'))
  /\ (forall result i0 rest, socket (trace w) read = Ok (result, i0 :: rest) ->
        length i0 <> 1 -> get_running_firmware_app w = (Raise struct_error, w'))
  /\ (forall result b rest app, socket (trace w) read = Ok (result, [b] :: rest) ->
        (get_running_firmware_app w = (Ok app, w') <-> FirmwareApp_value app = byte_val b))
  /\ (forall result b rest, socket (trace w) read = Ok (result, [b] :: rest) ->
        ~ (1 <= byte_val b <= 4)%Z ->
        get_running_firmware_app w = (Raise ValueError, w')).
Proof.
  intros read w'.
  rewrite get_running_firmware_app_eq. fold read; fold w'.
  split; [intros result ->; reflexivity|].
  split.
  { intros result i0 rest -> Hlen. unfold struct_unpack.
    apply Nat.eqb_neq in Hlen. now rewrite Hlen. }
  assert (Hdec : forall b, le_decode [b] = byte_val b).
  { intros b. cbn [le_decode]. lia. }
  split.
  { intros result b rest app ->. unfold struct_unpack.
    cbn [length Nat.eqb res_bind]. rewrite Hdec.
    rewrite <- FirmwareApp_of_int_spec.
    destruct (FirmwareApp_of_int (byte_val b)) as [a|e]; split; congruence. }
  intros result b rest -> Hb. unfold struct_unpack.
  cbn [length Nat.eqb res_bind]. rewrite Hdec.
  unfold FirmwareApp_of_int.
  destruct (byte_val b =? 1)%Z eqn:H1; [apply Z.eqb_eq in H1; lia|].
  destruct (byte_val b =? 2)%Z eqn:H2; [apply Z.eqb_eq in H2; lia|].
  destruct (byte_val b =? 3)%Z eqn:H3; [apply Z.eqb_eq in H3; lia|].
  destruct (byte_val b =? 4)%Z eqn:H4; [apply Z.eqb_eq in H4; lia|].
  reflexivity.
Qed.

(** *** [get_serial_number] on an empty cache *)

Lemma get_serial_number_eq (w : World) :
  serial_truthy (serial_number w) = false ->
  get_serial_number w
  = match socket (trace w) (CargoRead SERIAL_NUMBER_REQUEST 12) with
    | Ok (true, n0 :: _) =>
        match decode_utf8 n0 with
        | Ok text =>
            (Ok (Some text),
             with_serial_number (add_trace w [CargoRead SERIAL_NUMBER_REQUEST 12])
                                (Some text))
        | Raise e => (Raise e, add_trace w [CargoRead SERIAL_NUMBER_REQUEST 12])
        end
    | Ok (true, []) => (Raise IndexError, add_trace w [CargoRead SERIAL_NUMBER_REQUEST 12])
    | Ok (false, _) =>
        (Ok (serial_number w), add_trace w [CargoRead SERIAL_NUMBER_REQUEST 12])
    | Raise e => (Raise e, add_trace w [CargoRead SERIAL_NUMBER_REQUEST 12])
    end.
Proof.
  intros Hmiss. unfold get_serial_number.
  unfold bind at 1, get_attr at 1. rewrite Hmiss. cbn [negb].
  unfold bind at 1, cargo_read. unfold bind at 1. rewrite socket_call_eq.
  destruct (socket (trace w) _) as [[[|] [|n0 rest]]|e]; try reflexivity.
  unfold bind, lift, set_serial_number_attr, get_attr, with_serial_number.
  destruct (decode_utf8 n0); reflexivity.
Qed.

(** X8. On a device without a stored serial number, [get_serial_number]
    makes one read and looks at its status first: with a false status it
    returns the stored value without decoding anything and stores
    nothing; with a true status it decodes the first chunk as utf-8,
    stores the text and returns it; a true status without data raises
    [IndexError]; an exception of the decoder or of the read propagates
    and nothing is stored. *)
Theorem get_serial_number_outcomes (w : World) :
  serial_truthy (serial_number w) = false ->
  let read := CargoRead SERIAL_NUMBER_REQUEST 12 in
  let w' := add_trace w [read] in
  (forall data, socket (trace w) read = Ok (false, data) ->
     get_serial_number w = (Ok (serial_number w), w'))
  /\ (socket (trace w) read = Ok (true, []) ->
      get_serial_number w = (Raise IndexError, w'))
  /\ (forall n0 rest text,
        socket (trace w) read = Ok (true, n0 :: rest) -> decode_utf8 n0 = Ok text ->
        get_serial_number w = (Ok (Some text), with_serial_number w' (Some text)))
  /\ (forall n0 rest e,
        socket (trace w) read = Ok (true, n0 :: rest) -> decode_utf8 n0 = Raise e ->
        get_serial_number w = (Raise e, w'))
  /\ (forall e, socket (trace w) read = Raise e -> get_serial_number w = (Raise e, w')).
Proof.
  intros Hmiss read w'.
  rewrite (get_serial_number_eq w Hmiss). fold read; fold w'.
  split; [intros data ->; reflexivity|].
  split; [intros ->; reflexivity|].
  split; [intros n0 rest text -> ->; reflexivity|].
  split; [intros n0 rest e -> ->; reflexivity|].
  intros e ->. reflexivity.
Qed.

(** *** What [process_push] can return *)

Lemma process_push_loop_result (svcs : list Service) (guid : UUID) (command : bytes)
    (message : value) :
  match process_push_loop svcs guid command message with
  | Ok answer =>
      answer = message
      \/ (truthy answer = true
          /\ exists s, In s svcs /\ UUID_eqb (svc_guid s) guid = true
                       /\ svc_push s guid command message = Ok answer)
  | Raise e =>
      exists s, In s svcs /\ UUID_eqb (svc_guid s) guid = true
                /\ svc_push s guid command message = Raise e
  end.
Proof.
  induction svcs as [|s svcs IH]; cbn [process_push_loop]; [now left|].
  assert (Hrest : match process_push_loop svcs guid command message with
                  | Ok answer =>
                      answer = message
                      \/ (truthy answer = true
                          /\ exists s', In s' (s :: svcs)
                                        /\ UUID_eqb (svc_guid s') guid = true
                                        /\ svc_push s' guid command message = Ok answer)
                  | Raise e =>
                      exists s', In s' (s :: svcs) /\ UUID_eqb (svc_guid s') guid = true
                                 /\ svc_push s' guid command message = Raise e
                  end).
  { destruct (process_push_loop svcs guid command message) as [answer|e].
    - destruct IH as [IH|(Ht & s' & Hin & Hg & Hp)]; [now left|].
      right. split; [exact Ht|]. exists s'. repeat split; trivial. now right.
    - destruct IH as (s' & Hin & Hg & Hp). exists s'. repeat split; trivial. now right. }
  destruct (UUID_eqb (svc_guid s) guid) eqn:Hguid; [|exact Hrest].
  destruct (svc_push s guid command message) as [new_message|e] eqn:Hpush; cbn [res_bind].
  - destruct (truthy new_message) eqn:Htrue; [|exact Hrest].
    right. split; [exact Htrue|]. exists s. repeat split; trivial. now left.
  - exists s. repeat split; trivial. now left.
Qed.

(** X9. Whatever the handlers do, [process_push] leaves the device as it
    is, and what it returns is either the original message or a value
    that some handler with the given guid returned and that Python takes
    for true: a [None] or empty answer of a handler is never passed on.
    When it raises, the exception is the one a handler with that guid
    raised. *)
Theorem process_push_result (guid : UUID) (command : bytes) (message : value) (w : World) :
  exists r,
    process_push guid command message w = (r, w)
    /\ match r with
       | Ok answer =>
           answer = message
           \/ (truthy answer = true
               /\ exists s, In s services /\ UUID_eqb (svc_guid s) guid = true
                            /\ svc_push s guid command message = Ok answer)
       | Raise e =>
           exists s, In s services /\ UUID_eqb (svc_guid s) guid = true
                     /\ svc_push s guid command message = Raise e
       end.
Proof.
  exists (process_push_loop services guid command message).
  split; [reflexivity|]. apply process_push_loop_result.
Qed.

(** *** Frames too short for the callbacks *)

Lemma length_slice_min (r : bytes) (i j : nat) :
  length (slice r i j) = Nat.min (j - i) (length r - i).
Proof. unfold slice; now rewrite length_firstn, length_skipn. Qed.

(** X10. The two callbacks read fixed offsets and give nothing to the
    wrapper when the frame ends before them:
    [process_notification_callback] raises [struct.error] for a frame of
    fewer than 6 bytes and [ValueError] for one of 6 to 21 bytes;
    [process_tile_callback] raises [struct.error] below 10 bytes and
    [ValueError] from 10 to 25 bytes.  In all four cases no handler is
    consulted and the device is left as it is. *)
Theorem callbacks_short_frame (result : bytes) (w : World) :
  (length result < 6 ->
   process_notification_callback result w = (Raise struct_error, w))
  /\ (6 <= length result < 22 ->
      process_notification_callback result w = (Raise ValueError, w))
  /\ (length result < 10 ->
      process_tile_callback result w = (Raise struct_error, w))
  /\ (10 <= length result < 26 ->
      process_tile_callback result w = (Raise ValueError, w)).
Proof.
  unfold process_notification_callback, process_tile_callback, bind, lift,
    struct_unpack, UUID_of_bytes_le.
  rewrite !length_slice_min.
  repeat split; intros Hlen.
  - replace (Nat.eqb (Nat.min (6 - 2) (length result - 2)) 4) with false
      by (symmetry; apply Nat.eqb_neq; lia).
    reflexivity.
  - replace (Nat.eqb (Nat.min (6 - 2) (length result - 2)) 4) with true
      by (symmetry; apply Nat.eqb_eq; lia).
    replace (Nat.eqb (Nat.min (22 - 6) (length result - 6)) 16) with false
      by (symmetry; apply Nat.eqb_neq; lia).
    reflexivity.
  - replace (Nat.eqb (Nat.min (10 - 6) (length result - 6)) 4) with false
      by (symmetry; apply Nat.eqb_neq; lia).
    reflexivity.
  - replace (Nat.eqb (Nat.min (10 - 6) (length result - 6)) 4) with true
      by (symmetry; apply Nat.eqb_eq; lia).
    replace (Nat.eqb (Nat.min (26 - 10) (length result - 10)) 16) with false
      by (symmetry; apply Nat.eqb_neq; lia).
    reflexivity.
Qed.

(** *** What the listener touches *)

(** X11. For a frame whose packet type is a member of the enumeration
    other than RemoteSubscription, Sms, DismissCall and StrappEvent, one
    turn of the listener prints the member and the whole frame in
    hexadecimal and returns, whatever the body of the frame, the sensor
    decoder and the registered handlers are: none of them is used. *)
Theorem listen_iteration_passthrough (t : PushServicePacketType) (result : bytes)
    (w : World) :
  struct_unpack 2 (slice result 0 2) = Ok (PushServicePacketType_value t) ->
  t <> RemoteSubscription -> t <> Sms -> t <> DismissCall -> t <> StrappEvent ->
  listen_iteration result w
  = (Ok tt, add_trace w [WrapperPrint (PushServicePacketType_obj t) newline;
                         WrapperPrint (Bytes (hexlify result)) newline]).
Proof.
  intros Htype H1 H2 H3 H4.
  unfold listen_iteration.
  unfold bind at 1, lift at 1. rewrite Htype.
  unfold bind at 1, lift at 1. rewrite PushServicePacketType_of_value.
  unfold bind at 1, wrapper_print at 1. rewrite emit_eq.
  destruct t; try contradiction;
    cbn [PushServicePacketType_value Z.eqb Pos.eqb];
    unfold wrapper_print; rewrite emit_eq, add_trace_app; reflexivity.
Qed.

Lemma wrapper_only_pure {A} (x : res A) : wrapper_only (lift x).
Proof.
  intros w r w' [= _ <-]. exists []. now rewrite add_trace_nil.
Qed.

Lemma wrapper_only_emit (e : event) : is_wrapper_event e = true -> wrapper_only (emit e).
Proof.
  intros He w r w' [= _ <-]. exists [e]. split; [reflexivity|]. cbn. now rewrite He.
Qed.

Lemma wrapper_only_bind {A B} (m : M A) (k : A -> M B) :
  wrapper_only m -> (forall a, wrapper_only (k a)) -> wrapper_only (bind m k).
Proof.
  intros Hm Hk w r w'. unfold bind.
  destruct (m w) as [[a|e] w1] eqn:Hrun; destruct (Hm _ _ _ Hrun) as (es & -> & Hes).
  - intros Hrest. destruct (Hk a _ _ _ Hrest) as (es' & -> & Hes').
    exists (es ++ es'). rewrite add_trace_app, forallb_app, Hes, Hes'. now split.
  - intros [= _ <-]. now exists es.
Qed.

Ltac wrapper_only_step :=
  match goal with
  | |- wrapper_only (bind _ _) => apply wrapper_only_bind; [|intros ?]
  | |- wrapper_only (lift _) => apply wrapper_only_pure
  | |- wrapper_only (process_push _ _ _) => apply wrapper_only_pure
  | |- wrapper_only (wrapper_print _) => apply wrapper_only_emit; reflexivity
  | |- wrapper_only (wrapper_send _ _) => apply wrapper_only_emit; reflexivity
  | |- wrapper_only (match ?x with _ => _ end) => destruct x
  end.

Lemma wrapper_only_listen_iteration (result : bytes) :
  wrapper_only (listen_iteration result).
Proof.
  unfold listen_iteration, process_notification_callback, process_tile_callback.
  repeat (cbv zeta; wrapper_only_step).
Qed.

Lemma wrapper_only_listen_loop (inbox : list bytes) : wrapper_only (listen_loop inbox).
Proof.
  induction inbox as [|result rest IH]; cbn [listen_loop].
  - intros w r w' [= _ <-]. exists []. now rewrite add_trace_nil.
  - apply wrapper_only_bind; [apply wrapper_only_listen_iteration | intros _; exact IH].
Qed.

(** X12. Whatever frames arrive and however the run ends,
    [listen_pushservice] changes no attribute of the device and, after
    connecting the push socket, does nothing but receive frames from it
    and print and send on the wrapper.  In particular the listener never
    uses the cargo socket. *)
Theorem listen_pushservice_wrapper_only (inbox : list bytes) (w : World) :
  exists es,
    snd (listen_pushservice inbox w) = add_trace w (PushConnect :: es)
    /\ forallb is_wrapper_event es = true.
Proof.
  unfold listen_pushservice, push_connect.
  unfold bind at 1. rewrite socket_call_dropped.
  destruct (socket (trace w) PushConnect) as [ack|e]; cbn [res_bind snd];
    [|now exists []].
  destruct (listen_loop inbox (add_trace w [PushConnect])) as [r w'] eqn:Hloop.
  destruct (wrapper_only_listen_loop inbox _ _ _ Hloop) as (es & -> & Hes).
  exists es. cbn [snd]. now rewrite add_trace_app.
Qed.

(** *** [request_tiles] with a response that is cut short *)

(** X13. [request_tiles] stores the tile list only after every record was
    decoded.  A response of fewer than 4 bytes raises [struct.error], and
    a count of at least one followed by fewer than 16 bytes raises
    [ValueError]; whenever [request_tiles], and so [get_tiles], raises,
    the stored tiles, serial number and version are those from before the
    call and exactly one read was made. *)
Theorem request_tiles_truncated :
  (forall w result chunks,
     socket (trace w) (CargoRead GET_TILES_NO_IMAGES 1324) = Ok (result, chunks) ->
     length (join chunks) < 4 ->
     request_tiles false w
     = (Raise struct_error, add_trace w [CargoRead GET_TILES_NO_IMAGES 1324]))
  /\ (forall w result chunks count partial,
        socket (trace w) (CargoRead GET_TILES_NO_IMAGES 1324) = Ok (result, chunks) ->
        join chunks = count ++ partial -> length count = 4 ->
        (0 < le_decode count)%Z -> length partial < 16 ->
        request_tiles false w
        = (Raise ValueError, add_trace w [CargoRead GET_TILES_NO_IMAGES 1324]))
  /\ (forall icons w e w',
        request_tiles icons w = (Raise e, w') ->
        tiles w' = tiles w /\ serial_number w' = serial_number w
        /\ version w' = version w /\ reads (trace w') = reads (trace w) + 1)
  /\ (forall w e w',
        get_tiles w = (Raise e, w') ->
        tiles w' = tiles w /\ reads (trace w') = reads (trace w) + 1).
Proof.
  split; [|split; [|split]].
  - intros w result chunks Hread Hshort.
    unfold request_tiles, cargo_read.
    change (88 * Z.of_nat get_max_tile_capacity + 4)%Z with 1324%Z.
    rewrite (bind_ok _ _ _ (@socket_call_ok _ _ _ Hread)).
    unfold bind, lift, struct_unpack. rewrite length_slice_min.
    replace (Nat.eqb (Nat.min (0 + 4 - 0) (length (join chunks) - 0)) 4) with false
      by (symmetry; apply Nat.eqb_neq; lia).
    reflexivity.
  - intros w result chunks count partial Hread Hdata Hc Hpos Hshort.
    unfold request_tiles, cargo_read.
    change (88 * Z.of_nat get_max_tile_capacity + 4)%Z with 1324%Z.
    rewrite (bind_ok _ _ _ (@socket_call_ok _ _ _ Hread)).
    rewrite Hdata.
    rewrite (slice_app_l count _ 0 (0 + 4)) by lia.
    rewrite (slice_all count (0 + 4) Hc).
    unfold struct_unpack. rewrite Hc. cbn [Nat.eqb].
    unfold bind at 1, lift at 1.
    destruct (Z.to_nat (le_decode count)) as [|n] eqn:Hn; [lia|].
    cbn [request_tiles_loop]. unfold UUID_of_bytes_le.
    rewrite length_slice_min, length_app.
    replace (Nat.eqb (Nat.min (0 + 4 + 16 - (0 + 4))
                        (length count + length partial - (0 + 4))) 16)
      with false by (symmetry; apply Nat.eqb_neq; lia).
    reflexivity.
  - intros icons w e w' Hrun.
    destruct (request_tiles_effect _ _ _ _ Hrun) as (cmd & size & Htr & Hs & Hv & _ & Ht).
    repeat split; trivial. rewrite Htr, reads_app. reflexivity.
  - intros w e w'. unfold get_tiles.
    unfold bind at 1, get_attr at 1.
    destruct (tiles_truthy (tiles w)); cbn [negb].
    + unfold bind, ret, get_attr. discriminate.
    + unfold bind at 1.
      destruct (request_tiles false w) as [[[]|e0] w0] eqn:Hrun.
      * unfold get_attr. discriminate.
      * intros [= <- <-].
        destruct (request_tiles_effect _ _ _ _ Hrun) as (cmd & size & Htr & _ & _ & _ & Ht).
        split; [exact Ht|]. rewrite Htr, reads_app. reflexivity.
Qed.

(** *** [get_firmware_version] for any three records *)

Lemma get_firmware_version_three (w : World) (result : bool) (info : list bytes)
    (r1 r2 r3 extra : bytes) (f1 f2 f3 : FirmwareVersion) :
  socket (trace w) (CargoRead CORE_GET_VERSION 57) = Ok (result, info) ->
  join info = r1 ++ r2 ++ r3 ++ extra ->
  length r1 = 19 -> length r2 = 19 -> length r3 = 19 ->
  FirmwareVersion_deserialize r1 = Ok f1 ->
  FirmwareVersion_deserialize r2 = Ok f2 ->
  FirmwareVersion_deserialize r3 = Ok f3 ->
  let v := fold_left store_firmware_version [f1; f2; f3] empty_version in
  get_firmware_version w
  = (Ok v, with_version (add_trace w [CargoRead CORE_GET_VERSION 57]) v).
Proof.
  intros Hread Hinfo L1 L2 L3 D1 D2 D3.
  unfold get_firmware_version, cargo_read.
  change (19 * 3)%Z with 57%Z.
  rewrite (bind_ok _ _ _ (@socket_call_ok _ _ _ Hread)).
  assert (S1 : slice (join info) 0 (0 + 19) = r1).
  { rewrite Hinfo, slice_app_l by (simpl; lia). now apply slice_all. }
  assert (S2 : slice (join info) (0 + 19) (0 + 19 + 19) = r2).
  { rewrite Hinfo, (slice_middle_0 r1 r2 (r3 ++ extra) (0 + 19) 19) by (simpl; lia).
    now apply slice_all. }
  assert (S3 : slice (join info) (0 + 19 + 19) (0 + 19 + 19 + 19) = r3).
  { rewrite Hinfo, app_assoc, (slice_middle_0 (r1 ++ r2) r3 extra (0 + 19 + 19) 19)
      by (rewrite ?length_app; simpl; lia).
    now apply slice_all. }
  unfold bind at 1, set_version_attr at 1.
  unfold bind at 1.
  rewrite (get_firmware_version_loop_step _ _ _ _ f1 empty_version)
    by (rewrite ?S1; trivial).
  rewrite (get_firmware_version_loop_step _ _ _ _ f2 (store_firmware_version empty_version f1))
    by (rewrite ?S2; trivial).
  rewrite (get_firmware_version_loop_step _ _ _ _ f3
             (store_firmware_version (store_firmware_version empty_version f1) f2))
    by (rewrite ?S3; trivial).
  reflexivity.
Qed.

Ltac tag_cases f :=
  let E := fresh "E" in
  destruct (String.eqb_spec (app_name f) "1BL") as [E|_];
  [rewrite ?E
  |destruct (String.eqb_spec (app_name f) "2UP") as [E|_];
   [rewrite ?E|destruct (String.eqb_spec (app_name f) "App") as [E|_]]].

Lemma store_firmware_version_last_tagged (f1 f2 f3 : FirmwareVersion) :
  fold_left store_firmware_version [f1; f2; f3] empty_version
  = mkDeviceVersion (last_tagged "1BL" [f1; f2; f3])
                    (last_tagged "2UP" [f1; f2; f3])
                    (last_tagged "App" [f1; f2; f3]).
Proof.
  unfold last_tagged, empty_version, store_firmware_version.
  cbn [fold_left rev app find].
  tag_cases f1; tag_cases f2; tag_cases f3; reflexivity.
Qed.

(** X14. When the version read returns three 19-byte records that
    deserialize, whatever their tags, [get_firmware_version] returns and
    stores a [DeviceVersion] built from scratch in which each of the
    slots bootloader, updater and application holds the last record read
    with the tag '1BL', '2UP' and 'App' respectively, and is [None] when
    no record has that tag.  A record with another tag is dropped, and of
    two records with the same tag the later one wins. *)
Theorem get_firmware_version_last_wins (w : World) (result : bool) (info : list bytes)
    (r1 r2 r3 extra : bytes) (f1 f2 f3 : FirmwareVersion) :
  socket (trace w) (CargoRead CORE_GET_VERSION 57) = Ok (result, info) ->
  join info = r1 ++ r2 ++ r3 ++ extra ->
  length r1 = 19 -> length r2 = 19 -> length r3 = 19 ->
  FirmwareVersion_deserialize r1 = Ok f1 ->
  FirmwareVersion_deserialize r2 = Ok f2 ->
  FirmwareVersion_deserialize r3 = Ok f3 ->
  let v := mkDeviceVersion (last_tagged "1BL" [f1; f2; f3])
                           (last_tagged "2UP" [f1; f2; f3])
                           (last_tagged "App" [f1; f2; f3]) in
  get_firmware_version w
  = (Ok v, with_version (add_trace w [CargoRead CORE_GET_VERSION 57]) v).
Proof.
  intros Hread Hinfo L1 L2 L3 D1 D2 D3 v.
  rewrite (get_firmware_version_three w result info r1 r2 r3 extra f1 f2 f3)
    by assumption.
  rewrite (store_firmware_version_last_tagged f1 f2 f3). reflexivity.
Qed.

(** A first record that fails to deserialize. *)
Lemma get_firmware_version_first_fails (w : World) (result : bool) (info : list bytes)
    (e : exn) :
  socket (trace w) (CargoRead CORE_GET_VERSION 57) = Ok (result, info) ->
  FirmwareVersion_deserialize (slice (join info) 0 19) = Raise e ->
  get_firmware_version w
  = (Raise e, with_version (add_trace w [CargoRead CORE_GET_VERSION 57]) empty_version).
Proof.
  intros Hread Hfail.
  unfold get_firmware_version, cargo_read. change (19 * 3)%Z with 57%Z.
  rewrite (bind_ok _ _ _ (@socket_call_ok _ _ _ Hread)).
  unfold bind at 1, set_version_attr at 1.
  unfold bind at 1. cbn [get_firmware_version_loop].
  unfold bind at 1, lift at 1. change (0 + 19) with 19. rewrite Hfail.
  reflexivity.
Qed.

(** X15. [get_firmware_version] replaces the stored version by an empty
    [DeviceVersion] before it deserializes the first record.  When the
    read raises, the stored version is the one from before the call; when
    the read returns and a record fails to deserialize, the exception
    propagates and the version stored before the call is lost: the device
    is left with the empty [DeviceVersion] when the first record fails,
    and with the slots filled by the one or two records before it when
    the second or the third record fails. *)
Theorem get_firmware_version_failure :
  (forall w e,
     socket (trace w) (CargoRead CORE_GET_VERSION 57) = Raise e ->
     get_firmware_version w = (Raise e, add_trace w [CargoRead CORE_GET_VERSION 57]))
  /\ (forall w result info e,
        socket (trace w) (CargoRead CORE_GET_VERSION 57) = Ok (result, info) ->
        FirmwareVersion_deserialize (slice (join info) 0 19) = Raise e ->
        get_firmware_version w
        = (Raise e, with_version (add_trace w [CargoRead CORE_GET_VERSION 57])
                                 empty_version))
  /\ (forall w result info f1 e,
        socket (trace w) (CargoRead CORE_GET_VERSION 57) = Ok (result, info) ->
        FirmwareVersion_deserialize (slice (join info) 0 19) = Ok f1 ->
        FirmwareVersion_deserialize (slice (join info) 19 38) = Raise e ->
        get_firmware_version w
        = (Raise e, with_version (add_trace w [CargoRead CORE_GET_VERSION 57])
                                 (store_firmware_version empty_version f1)))
  /\ (forall w result info f1 f2 e,
        socket (trace w) (CargoRead CORE_GET_VERSION 57) = Ok (result, info) ->
        FirmwareVersion_deserialize (slice (join info) 0 19) = Ok f1 ->
        FirmwareVersion_deserialize (slice (join info) 19 38) = Ok f2 ->
        FirmwareVersion_deserialize (slice (join info) 38 57) = Raise e ->
        get_firmware_version w
        = (Raise e, with_version (add_trace w [CargoRead CORE_GET_VERSION 57])
                                 (store_firmware_version
                                    (store_firmware_version empty_version f1) f2))).
Proof.
  split; [|split; [|split]].
  - intros w e Hread.
    unfold get_firmware_version, cargo_read. change (19 * 3)%Z with 57%Z.
    unfold bind at 1. rewrite socket_call_eq, Hread. reflexivity.
  - intros w result info e. apply get_firmware_version_first_fails.
  - intros w result info f1 e Hread Hfirst Hfail.
    unfold get_firmware_version, cargo_read. change (19 * 3)%Z with 57%Z.
    rewrite (bind_ok _ _ _ (@socket_call_ok _ _ _ Hread)).
    unfold bind at 1, set_version_attr at 1.
    unfold bind at 1.
    rewrite (get_firmware_version_loop_step _ _ _ _ f1 empty_version)
      by (trivial).
    cbn [get_firmware_version_loop].
    unfold bind at 1, lift at 1. change (0 + 19 + 19) with 38. change (0 + 19) with 19.
    rewrite Hfail. reflexivity.
  - intros w result info f1 f2 e Hread Hfirst Hsecond Hfail.
    unfold get_firmware_version, cargo_read. change (19 * 3)%Z with 57%Z.
    rewrite (bind_ok _ _ _ (@socket_call_ok _ _ _ Hread)).
    unfold bind at 1, set_version_attr at 1.
    unfold bind at 1.
    rewrite (get_firmware_version_loop_step _ _ _ _ f1 empty_version)
      by (trivial).
    rewrite (get_firmware_version_loop_step _ _ _ _ f2
               (store_firmware_version empty_version f1))
      by (trivial).
    cbn [get_firmware_version_loop].
    unfold bind at 1, lift at 1.
    change (0 + 19 + 19 + 19) with 57. change (0 + 19 + 19) with 38.
    rewrite Hfail. reflexivity.
Qed.

(** *** [connect] and the listener *)


(** *** [set_tiles] *)

Lemma struct_pack_inv (size : nat) (v : Z) (b : bytes) :
  struct_pack size v = Ok b -> (0 <= v < 256 ^ Z.of_nat size)%Z.
Proof.
  unfold struct_pack.
  destruct (0 <=? v)%Z eqn:Hlo; [|discriminate].
  destruct (v <? 256 ^ Z.of_nat size)%Z eqn:Hhi; [|discriminate].
  intros _. apply Z.leb_le in Hlo; apply Z.ltb_lt in Hhi. lia.
Qed.

Lemma struct_pack_exn (size : nat) (v : Z) (e : exn) :
  struct_pack size v = Raise e -> e = struct_error.
Proof.
  unfold struct_pack.
  destruct ((0 <=? v) && (v <? 256 ^ Z.of_nat size))%Z; [discriminate|].
  now intros [= <-].
Qed.

Lemma set_tiles_record_ok (x : Tile) :
  tile_packable x -> set_tiles_record x = Ok (tile_record_bytes x).
Proof.
  intros (Ho & Hc & Hn & Hm). unfold set_tiles_record.
  rewrite !struct_pack_ok by (simpl; lia). reflexivity.
Qed.

Lemma set_tiles_record_error (x : Tile) :
  ~ tile_packable x -> set_tiles_record x = Raise struct_error.
Proof.
  intros Hbad. unfold set_tiles_record.
  destruct (struct_pack 4 (order x)) as [ob|e] eqn:Ho;
    [|now rewrite (struct_pack_exn _ _ _ Ho)].
  destruct (struct_pack 4 (theme_color x)) as [cb|e] eqn:Hc;
    [|now rewrite (struct_pack_exn _ _ _ Hc)].
  destruct (struct_pack 2 (Z.of_nat (String.length (name x)))) as [lb|e] eqn:Hn;
    [|now rewrite (struct_pack_exn _ _ _ Hn)].
  destruct (struct_pack 2 (settings_mask x)) as [mb|e] eqn:Hm;
    [|now rewrite (struct_pack_exn _ _ _ Hm)].
  apply struct_pack_inv in Ho, Hc, Hn, Hm.
  exfalso. apply Hbad. unfold tile_packable. simpl in *. lia.
Qed.

Lemma set_tiles_record_exn (x : Tile) (e : exn) :
  set_tiles_record x = Raise e -> e = struct_error.
Proof.
  unfold set_tiles_record.
  repeat match goal with
         | |- context [struct_pack ?s ?v] =>
             let H := fresh "H" in
             destruct (struct_pack s v) eqn:H; cbn [res_bind];
             [|apply struct_pack_exn in H; subst; now intros [= <-]]
         end.
  discriminate.
Qed.

Lemma set_tiles_records_ok (xs : list Tile) :
  Forall tile_packable xs -> set_tiles_records xs = Ok (map tile_record_bytes xs).
Proof.
  induction 1 as [|x xs Hx _ IH]; cbn [set_tiles_records map]; [reflexivity|].
  now rewrite (set_tiles_record_ok x Hx), IH.
Qed.

Lemma set_tiles_records_error (xs : list Tile) :
  Exists (fun x => ~ tile_packable x) xs -> set_tiles_records xs = Raise struct_error.
Proof.
  induction xs as [|x xs IH]; intros Hex; [inversion Hex|].
  cbn [set_tiles_records].
  destruct (set_tiles_record x) as [tile|e] eqn:Hx.
  - cbn [res_bind]. rewrite IH; [reflexivity|].
    inversion Hex as [? ? Hbad|? ? Hrest]; subst; [|assumption].
    rewrite (set_tiles_record_error x Hbad) in Hx. discriminate.
  - now rewrite (set_tiles_record_exn x e Hx).
Qed.

(** X16. [set_tiles] with a stored tile list whose fields fit their
    formats calls the cargo socket in this order: the start marker, one
    [SET_TILES] write, the end marker.  The data of the write is the
    number of tiles as four little-endian bytes followed by one record per
    tile in the order of the list, and its arguments are the same count.
    A record carries the GUID, order, colour, the length of the name as
    [len] gives it (the stored [name_length] and the icon are not used),
    the settings mask and the serialized name.  The method returns what
    the socket answered to the write, unless sending the end marker
    raises. *)
Theorem set_tiles_brackets (xs : list Tile) (w : World) :
  tiles w = Some xs ->
  Forall tile_packable xs ->
  (Z.of_nat (length xs) < 2 ^ 32)%Z ->
  let count := le_encode 4 (Z.of_nat (length xs)) in
  let start := CargoWrite START_STRIP_SYNC_START in
  let middle :=
    CargoWriteWithData SET_TILES (count ++ join (map tile_record_bytes xs)) count in
  let stop := CargoWrite START_STRIP_SYNC_END in
  set_tiles w
  = match socket (trace w) start with
    | Raise e => (Raise e, add_trace w [start])
    | Ok _ =>
        match socket (trace w ++ [start]) middle with
        | Raise e => (Raise e, add_trace w [start; middle])
        | Ok result =>
            (res_bind (socket (trace w ++ [start; middle]) stop) (fun _ => Ok result),
             add_trace w [start; middle; stop])
        end
    end.
Proof.
  intros Ht Hpack Hlen count start middle stop.
  unfold set_tiles, cargo_write, cargo_write_with_data.
  unfold bind at 1. rewrite socket_call_dropped. fold start.
  destruct (socket (trace w) start) as [r0|e0]; cbn [res_bind]; [|reflexivity].
  unfold bind at 1, get_attr at 1. cbn [tiles add_trace]. rewrite Ht.
  unfold bind at 1, lift at 1. rewrite (set_tiles_records_ok xs Hpack).
  rewrite length_map.
  rewrite (struct_pack_ok 4 (Z.of_nat (length xs))) by (simpl; lia).
  unfold bind at 1, lift at 1. unfold bind at 1, lift at 1.
  fold count. fold middle.
  change (mkWorld (tiles w) (serial_number w) (version w) (push_thread w)
                  (trace w ++ [start])) with (add_trace w [start]).
  unfold bind at 1. rewrite socket_call_eq, trace_add_trace, add_trace_app.
  cbn [app].
  destruct (socket (trace w ++ [start]) middle) as [r1|e1]; [|reflexivity].
  unfold bind at 1. rewrite socket_call_dropped, trace_add_trace, add_trace_app.
  cbn [app]. fold stop.
  destruct (socket (trace w ++ [start; middle]) stop) as [r2|e2]; reflexivity.
Qed.

(** X17. [set_tiles] sends the start marker before it looks at the stored
    tiles.  With no tile list stored (the attribute is [None], as on a
    new device) iterating over it raises [TypeError], and with a tile
    whose field does not fit its format packing raises [struct.error]; in
    both cases the start marker went out, and neither the table nor the
    end marker is sent. *)
Theorem set_tiles_leaves_bracket_open :
  (forall w,
     tiles w = None ->
     set_tiles w
     = (res_bind (socket (trace w) (CargoWrite START_STRIP_SYNC_START))
                 (fun _ => Raise TypeError),
        add_trace w [CargoWrite START_STRIP_SYNC_START]))
  /\ (forall w xs,
        tiles w = Some xs ->
        Exists (fun x => ~ tile_packable x) xs ->
        set_tiles w
        = (res_bind (socket (trace w) (CargoWrite START_STRIP_SYNC_START))
                    (fun _ => Raise struct_error),
           add_trace w [CargoWrite START_STRIP_SYNC_START])).
Proof.
  split.
  - intros w Ht. unfold set_tiles, cargo_write.
    unfold bind at 1. rewrite socket_call_dropped.
    destruct (socket (trace w) _) as [ack|e]; cbn [res_bind]; [|reflexivity].
    unfold bind, get_attr. cbn [tiles add_trace]. rewrite Ht. reflexivity.
  - intros w xs Ht Hbad. unfold set_tiles, cargo_write.
    unfold bind at 1. rewrite socket_call_dropped.
    destruct (socket (trace w) _) as [ack|e]; cbn [res_bind]; [|reflexivity].
    unfold bind at 1, get_attr. cbn [tiles add_trace]. rewrite Ht.
    unfold bind, lift. rewrite (set_tiles_records_error xs Hbad). reflexivity.
Qed.

(** *** [request_tiles] for any number of records *)

Lemma request_tiles_records (w : World) (result : bool) (chunks : list bytes)
    (count : bytes) (recs : list bytes) (names : list string) (extra : bytes) :
  socket (trace w) (CargoRead GET_TILES_NO_IMAGES 1324) = Ok (result, chunks) ->
  join chunks = count ++ join recs ++ extra ->
  length count = 4 -> le_decode count = Z.of_nat (length recs) ->
  Forall2 (fun r text => length r = 88 /\ record_name r text) recs names ->
  request_tiles false w
  = (Ok tt, with_tiles (add_trace w [CargoRead GET_TILES_NO_IMAGES 1324])
                       (Some (map (fun p => tile_of_record (fst p) (snd p))
                                  (combine recs names)))).
Proof.
  intros Hread Hdata Hc Hcount Hrecs.
  unfold request_tiles, cargo_read.
  change (88 * Z.of_nat get_max_tile_capacity + 4)%Z with 1324%Z.
  rewrite (bind_ok _ _ _ (@socket_call_ok _ _ _ Hread)).
  rewrite Hdata.
  rewrite (slice_app_l count _ 0 (0 + 4)) by lia.
  rewrite (slice_all count (0 + 4) Hc).
  unfold struct_unpack. rewrite Hc, Hcount. cbn [Nat.eqb].
  unfold bind at 1, lift at 1.
  rewrite Nat2Z.id.
  replace (0 + 4) with (length count) by lia.
  unfold join.
  rewrite (request_tiles_loop_records recs names Hrecs).
  reflexivity.
Qed.

(** X18. [request_tiles] decodes as many records as the count in the
    first four bytes says: for a response that holds a count [n] followed
    by [n] records of 88 bytes whose text decodes, it stores [n] tiles in
    the order of the records.  The count is not compared with
    [get_max_tile_capacity], and a count of zero stores the empty list. *)
Theorem request_tiles_any_count (w : World) (result : bool) (chunks : list bytes)
    (count : bytes) (recs : list bytes) (names : list string) (extra : bytes) :
  socket (trace w) (CargoRead GET_TILES_NO_IMAGES 1324) = Ok (result, chunks) ->
  join chunks = count ++ join recs ++ extra ->
  length count = 4 -> le_decode count = Z.of_nat (length recs) ->
  Forall2 (fun r text => length r = 88 /\ record_name r text) recs names ->
  length (combine recs names) = length recs
  /\ request_tiles false w
     = (Ok tt, with_tiles (add_trace w [CargoRead GET_TILES_NO_IMAGES 1324])
                          (Some (map (fun p => tile_of_record (fst p) (snd p))
                                     (combine recs names)))).
Proof.
  intros Hread Hdata Hc Hcount Hrecs. split.
  - rewrite length_combine, <- (Forall2_length Hrecs). apply Nat.min_id.
  - exact (request_tiles_records w result chunks count recs names extra
             Hread Hdata Hc Hcount Hrecs).
Qed.

(** *** What [set_tiles] writes is what [request_tiles] reads *)

Lemma slice_field (pre f post : bytes) (n k : nat) :
  length pre = n -> length f = k -> slice (pre ++ f ++ post) n (n + k) = f.
Proof.
  intros Hn Hk. rewrite (slice_middle_0 pre f post n k Hn) by lia.
  now apply slice_all.
Qed.

Lemma tile_record_bytes_read_back (x : Tile) :
  tile_packable x -> name_round_trips x ->
  length (tile_record_bytes x) = 88
  /\ record_name (tile_record_bytes x) (name x)
  /\ tile_of_record (tile_record_bytes x) (name x) = read_back x.
Proof.
  intros (Ho & Hc & Hn & Hm) (Hg & Ht & Htext).
  set (g := bytes_le (guid x)) in *.
  set (o := le_encode 4 (order x)).
  set (c := le_encode 4 (theme_color x)).
  set (l := le_encode 2 (Z.of_nat (String.length (name x)))).
  set (m := le_encode 2 (settings_mask x)).
  set (t := serialize_text (name x) 30) in *.
  assert (Lo : length o = 4) by apply length_le_encode.
  assert (Lc : length c = 4) by apply length_le_encode.
  assert (Ll : length l = 2) by apply length_le_encode.
  assert (Lm : length m = 2) by apply length_le_encode.
  assert (S0 : slice (tile_record_bytes x) 0 16 = g).
  { unfold tile_record_bytes. fold g.
    rewrite slice_app_l by lia. now apply slice_all. }
  assert (S1 : slice (tile_record_bytes x) 16 20 = o).
  { unfold tile_record_bytes. fold g o.
    apply (slice_field g o _ 16 4); assumption. }
  assert (S2 : slice (tile_record_bytes x) 20 24 = c).
  { unfold tile_record_bytes. fold g o c. rewrite app_assoc.
    apply (slice_field (g ++ o) c _ 20 4); rewrite ?length_app; lia. }
  assert (S3 : slice (tile_record_bytes x) 24 26 = l).
  { unfold tile_record_bytes. fold g o c l. rewrite 2!app_assoc.
    apply (slice_field ((g ++ o) ++ c) l _ 24 2); rewrite ?length_app; lia. }
  assert (S4 : slice (tile_record_bytes x) 26 28 = m).
  { unfold tile_record_bytes. fold g o c l m. rewrite 3!app_assoc.
    apply (slice_field (((g ++ o) ++ c) ++ l) m _ 26 2); rewrite ?length_app; lia. }
  assert (S5 : slice (tile_record_bytes x) 28 80 = firstn 52 t).
  { unfold tile_record_bytes. fold g o c l m t. rewrite 4!app_assoc.
    change (slice (((((g ++ o) ++ c) ++ l) ++ m) ++ t) 28 80)
      with (slice (((((g ++ o) ++ c) ++ l) ++ m) ++ t) (28 + 0) (28 + 52)).
    rewrite (slice_app_r ((((g ++ o) ++ c) ++ l) ++ m) t 28 0 52)
      by (rewrite ?length_app; lia).
    reflexivity. }
  split; [|split].
  - unfold tile_record_bytes. fold g o c l m t. rewrite !length_app. lia.
  - unfold record_name. rewrite S3, S5. subst l.
    rewrite le_decode_le_encode by (simpl; lia).
    destruct (name x) as [|a s] eqn:Hname; cbn [String.length Z.of_nat Z.eqb].
    + reflexivity.
    + apply Htext. discriminate.
  - unfold tile_of_record, read_back. rewrite S0, S1, S2, S3, S4.
    subst g o c l m.
    rewrite !le_decode_le_encode by (simpl; lia).
    destruct (guid x); reflexivity.
Qed.

(** X19. When the device answers the tile read with the table that
    [set_tiles] writes for the tiles [xs] (the count followed by the
    records), [request_tiles] stores these tiles again, in the same
    order, with the same GUID, order, colour, settings mask and name,
    with [name_length] set to the length of the name and without icon.
    This holds for tiles whose GUID has 16 bytes and whose name
    serializes to the 60 bytes of its field and decodes again from the
    first 52 of them, which are all that [request_tiles] reads. *)
Theorem request_tiles_reads_set_tiles_table (xs : list Tile) (w : World)
    (result : bool) (chunks : list bytes) (extra : bytes) :
  Forall tile_packable xs ->
  Forall name_round_trips xs ->
  (Z.of_nat (length xs) < 2 ^ 32)%Z ->
  socket (trace w) (CargoRead GET_TILES_NO_IMAGES 1324) = Ok (result, chunks) ->
  join chunks
  = le_encode 4 (Z.of_nat (length xs)) ++ join (map tile_record_bytes xs) ++ extra ->
  request_tiles false w
  = (Ok tt, with_tiles (add_trace w [CargoRead GET_TILES_NO_IMAGES 1324])
                       (Some (map read_back xs))).
Proof.
  intros Hpack Hnames Hlen Hread Hdata.
  assert (Hrecs : Forall2 (fun r text => length r = 88 /\ record_name r text)
                          (map tile_record_bytes xs) (map name xs)
                  /\ map (fun p => tile_of_record (fst p) (snd p))
                         (combine (map tile_record_bytes xs) (map name xs))
                     = map read_back xs).
  { clear Hlen Hdata.
    induction xs as [|x xs IH]; [split; constructor|].
    inversion Hpack as [|? ? Hx Hxs]; subst.
    inversion Hnames as [|? ? Hn Hns]; subst.
    destruct (tile_record_bytes_read_back x Hx Hn) as (L & N & T).
    destruct (IH Hxs Hns) as (IH1 & IH2).
    split; [constructor; [split|]; assumption|].
    cbn [map combine fst snd]. now rewrite T, IH2. }
  destruct Hrecs as (Hrecs & Htiles).
  rewrite <- Htiles.
  apply (request_tiles_records w result chunks (le_encode 4 (Z.of_nat (length xs)))
           (map tile_record_bytes xs) (map name xs) extra);
    [exact Hread | exact Hdata | apply length_le_encode | | exact Hrecs].
  rewrite length_map. apply le_decode_le_encode. simpl; lia.
Qed.

(** *** Frames the listener cannot handle *)

Lemma listen_loop_app (before rest : list bytes) (w w1 : World) :
  listen_loop before w = (Ok tt, w1) ->
  listen_loop (before ++ rest) w = listen_loop rest w1.
Proof.
  revert w. induction before as [|result before IH]; intros w; cbn [listen_loop app].
  - unfold ret. now intros [= <-].
  - unfold bind.
    destruct (listen_iteration result w) as [[[]|e] w0]; [apply IH | discriminate].
Qed.

(** X20. The listener ends with an exception at the first frame it cannot
    read the packet type of: [struct.error] for a frame of fewer than two
    bytes, and [ValueError] for a packet type that is no member of
    [PushServicePacketType], which is raised by the print of the member
    before the branch on the type.  Nothing is printed for that frame,
    the frames after it are not handled, and the raw dump of the last
    branch is reached for members of the enumeration only. *)
Theorem listen_pushservice_unreadable_frame :
  (forall before bad rest w w1 ack,
     socket (trace w) PushConnect = Ok ack ->
     listen_loop before (add_trace w [PushConnect]) = (Ok tt, w1) ->
     length bad < 2 ->
     listen_pushservice (before ++ bad :: rest) w = (Raise struct_error, w1))
  /\ (forall before bad rest w w1 ack n,
        socket (trace w) PushConnect = Ok ack ->
        listen_loop before (add_trace w [PushConnect]) = (Ok tt, w1) ->
        struct_unpack 2 (slice bad 0 2) = Ok n ->
        ~ In n (map PushServicePacketType_value PushServicePacketType_members) ->
        listen_pushservice (before ++ bad :: rest) w = (Raise ValueError, w1)).
Proof.
  split.
  - intros before bad rest w w1 ack Hconnect Hbefore Hshort.
    unfold listen_pushservice, push_connect.
    unfold bind at 1. rewrite socket_call_dropped, Hconnect. cbn [res_bind].
    rewrite (listen_loop_app before (bad :: rest) _ w1 Hbefore).
    apply listen_loop_stops.
    unfold listen_iteration. unfold bind at 1, lift at 1.
    unfold struct_unpack. rewrite length_slice_min.
    replace (Nat.eqb (Nat.min (2 - 0) (length bad - 0)) 2) with false
      by (symmetry; apply Nat.eqb_neq; lia).
    reflexivity.
  - intros before bad rest w w1 ack n Hconnect Hbefore Htype Hunknown.
    unfold listen_pushservice, push_connect.
    unfold bind at 1. rewrite socket_call_dropped, Hconnect. cbn [res_bind].
    rewrite (listen_loop_app before (bad :: rest) _ w1 Hbefore).
    apply listen_loop_stops.
    apply (listen_iteration_unknown_type bad n w1 Htype).
    intros t Ht. apply Hunknown. rewrite <- Ht.
    apply in_map. destruct t; cbn [PushServicePacketType_members In];
      repeat (first [left; reflexivity | right]).
Qed.

(** *** Which method writes which attribute *)

Ltac writes_nothing :=
  intros ? ? ? [= _ <-]; repeat split; auto;
  first [ exists []; now rewrite app_nil_r | eexists; reflexivity ].

Lemma writes_ret (ft fs fv fp : bool) {A} (a : A) : writes ft fs fv fp (ret a).
Proof. writes_nothing. Qed.

Lemma writes_raise (ft fs fv fp : bool) {A} (e : exn) : writes ft fs fv fp (@raise A e).
Proof. writes_nothing. Qed.

Lemma writes_lift (ft fs fv fp : bool) {A} (x : res A) : writes ft fs fv fp (lift x).
Proof. writes_nothing. Qed.

Lemma writes_get_attr (ft fs fv fp : bool) {A} (f : World -> A) :
  writes ft fs fv fp (get_attr f).
Proof. writes_nothing. Qed.

Lemma writes_emit (ft fs fv fp : bool) (e : event) : writes ft fs fv fp (emit e).
Proof. writes_nothing. Qed.

Lemma writes_socket_call (ft fs fv fp : bool) (e : event) :
  writes ft fs fv fp (socket_call e).
Proof. writes_nothing. Qed.

Lemma writes_set_tiles_attr (fs fv fp : bool) (t : option (list Tile)) :
  writes true fs fv fp (set_tiles_attr t).
Proof.
  intros w r w' [= _ <-]; repeat split; auto; try discriminate.
  exists []; cbn; now rewrite app_nil_r.
Qed.

Lemma writes_set_serial_number_attr (ft fv fp : bool) (s : option string) :
  writes ft true fv fp (set_serial_number_attr s).
Proof.
  intros w r w' [= _ <-]; repeat split; auto; try discriminate.
  exists []; cbn; now rewrite app_nil_r.
Qed.

Lemma writes_set_version_attr (ft fs fp : bool) (v : DeviceVersion) :
  writes ft fs true fp (set_version_attr v).
Proof.
  intros w r w' [= _ <-]; repeat split; auto; try discriminate.
  exists []; cbn; now rewrite app_nil_r.
Qed.

Lemma writes_set_push_thread_attr (ft fs fv : bool) :
  writes ft fs fv true set_push_thread_attr.
Proof.
  intros w r w' [= _ <-]; repeat split; auto; try discriminate.
  exists []; cbn; now rewrite app_nil_r.
Qed.

Lemma writes_bind (ft fs fv fp : bool) {A B} (m : M A) (k : A -> M B) :
  writes ft fs fv fp m -> (forall a, writes ft fs fv fp (k a)) ->
  writes ft fs fv fp (bind m k).
Proof.
  intros Hm Hk w r w'. unfold bind.
  destruct (m w) as [[a|e] w1] eqn:Hrun;
    destruct (Hm _ _ _ Hrun) as ([es Htr] & Ht & Hs & Hv & Hp).
  - intros Hrest. destruct (Hk a _ _ _ Hrest) as ([es' Htr'] & Ht' & Hs' & Hv' & Hp').
    split; [exists (es ++ es'); now rewrite Htr', Htr, app_assoc|].
    repeat split; intros Hf;
      [rewrite (Ht' Hf) | rewrite (Hs' Hf) | rewrite (Hv' Hf) | rewrite (Hp' Hf)]; auto.
  - intros [= _ <-]. split; [now exists es | auto].
Qed.

Lemma writes_try_except (ft fs fv fp : bool) {A} (m : M A) (handler : exn -> M A) :
  writes ft fs fv fp m -> (forall e, writes ft fs fv fp (handler e)) ->
  writes ft fs fv fp (try_except m handler).
Proof.
  intros Hm Hh w r w'. unfold try_except.
  destruct (m w) as [[a|e] w1] eqn:Hrun;
    destruct (Hm _ _ _ Hrun) as ([es Htr] & Ht & Hs & Hv & Hp).
  - intros [= _ <-]. split; [now exists es | auto].
  - destruct (is_Exception e); [|intros [= _ <-]; split; [now exists es | auto]].
    intros Hrest. destruct (Hh e _ _ _ Hrest) as ([es' Htr'] & Ht' & Hs' & Hv' & Hp').
    split; [exists (es ++ es'); now rewrite Htr', Htr, app_assoc|].
    repeat split; intros Hf;
      [rewrite (Ht' Hf) | rewrite (Hs' Hf) | rewrite (Hv' Hf) | rewrite (Hp' Hf)]; auto.
Qed.

Ltac writes_step :=
  match goal with
  | |- writes _ _ _ _ (bind _ _) => apply writes_bind; [|intros ?]
  | |- writes _ _ _ _ (try_except _ _) => apply writes_try_except; [|intros ?]
  | |- writes _ _ _ _ (ret _) => apply writes_ret
  | |- writes _ _ _ _ (raise _) => apply writes_raise
  | |- writes _ _ _ _ (lift _) => apply writes_lift
  | |- writes _ _ _ _ (emit _) => apply writes_emit
  | |- writes _ _ _ _ (get_attr _) => apply writes_get_attr
  | |- writes _ _ _ _ (socket_call _) => apply writes_socket_call
  | |- writes _ _ _ _ (set_tiles_attr _) => apply writes_set_tiles_attr
  | |- writes _ _ _ _ (set_serial_number_attr _) => apply writes_set_serial_number_attr
  | |- writes _ _ _ _ (set_version_attr _) => apply writes_set_version_attr
  | |- writes _ _ _ _ set_push_thread_attr => apply writes_set_push_thread_attr
  | |- writes _ _ _ _ (match ?x with _ => _ end) => destruct x
  | H : writes ?a ?b ?c ?d ?m |- writes ?a ?b ?c ?d ?m => exact H
  end.

Ltac writes_method :=
  unfold self_version, cargo_connect, cargo_disconnect, push_connect, push_disconnect,
    cargo_read, cargo_write, cargo_write_with_data, wrapper_print, wrapper_print_end,
    wrapper_send, process_push;
  repeat (cbv zeta; writes_step).

Lemma writes_listen_iteration (ft fs fv fp : bool) (result : bytes) :
  writes ft fs fv fp (listen_iteration result).
Proof.
  unfold listen_iteration, process_notification_callback, process_tile_callback.
  writes_method.
Qed.

Lemma writes_listen_loop (ft fs fv fp : bool) (inbox : list bytes) :
  writes ft fs fv fp (listen_loop inbox).
Proof.
  induction inbox as [|result rest IH]; cbn [listen_loop]; writes_method.
  apply writes_listen_iteration.
Qed.

Lemma writes_sync_loop (ft fs fv fp : bool) (svcs : list Service) :
  writes ft fs fv fp (sync_loop svcs).
Proof.
  induction svcs as [|s rest IH]; cbn [sync_loop]; writes_method.
  unfold sync_service; writes_method.
Qed.

Lemma writes_request_tiles (fs fv fp : bool) (icons : bool) :
  writes true fs fv fp (request_tiles icons).
Proof. unfold request_tiles; writes_method. Qed.

Lemma writes_get_firmware_version (ft fs fp : bool) :
  writes ft fs true fp get_firmware_version.
Proof.
  assert (Hloop : forall n info offset,
            writes ft fs true fp (get_firmware_version_loop n info offset)).
  { induction n as [|n IH]; intros info offset; cbn [get_firmware_version_loop];
      writes_method. apply IH. }
  unfold get_firmware_version; writes_method. apply Hloop.
Qed.

(** X21. Every method only appends to the record of calls on the sockets
    and the wrapper.  The stored tiles are written by [get_tiles] and
    [request_tiles] only, the serial number by [get_serial_number] only,
    the version by [connect] and [get_firmware_version] only, and the
    push thread by [connect] only: whatever its arguments, the answers of
    the socket and its outcome, no other method changes them. *)
Theorem attribute_writers (c : call) (w : World) :
  (exists es, trace (after c w) = trace w ++ es)
  /\ (tiles (after c w) = tiles w
      \/ c = call_get_tiles \/ exists icons, c = call_request_tiles icons)
  /\ (serial_number (after c w) = serial_number w \/ c = call_get_serial_number)
  /\ (version (after c w) = version w
      \/ c = call_connect \/ c = call_get_firmware_version)
  /\ (push_thread (after c w) = push_thread w \/ c = call_connect).
Proof.
  assert (Hsnd : forall ft fs fv fp A (m : M A), writes ft fs fv fp m ->
            (exists es, trace (snd (m w)) = trace w ++ es)
            /\ (ft = false -> tiles (snd (m w)) = tiles w)
            /\ (fs = false -> serial_number (snd (m w)) = serial_number w)
            /\ (fv = false -> version (snd (m w)) = version w)
            /\ (fp = false -> push_thread (snd (m w)) = push_thread w)).
  { intros ft fs fv fp A m Hm. destruct (m w) as [r w'] eqn:Hrun. exact (Hm _ _ _ Hrun). }
  destruct c; cbn [after];
    match goal with
    | |- context [snd (connect w)] => pose (flags := (false, false, true, true))
    | |- context [snd (get_firmware_version w)] => pose (flags := (false, false, true, false))
    | |- context [snd (get_tiles w)] => pose (flags := (true, false, false, false))
    | |- context [snd (request_tiles _ w)] => pose (flags := (true, false, false, false))
    | |- context [snd (get_serial_number w)] => pose (flags := (false, true, false, false))
    | |- _ => pose (flags := (false, false, false, false))
    end;
    match goal with
    | |- context [snd (?m w)] =>
        assert (Hm : writes (fst (fst (fst flags))) (snd (fst (fst flags)))
                            (snd (fst flags)) (snd flags) m);
        [ cbv [flags fst snd];
          unfold connect, disconnect, band_type, check_if_oobe_completed,
            get_me_tile_image_id, get_me_tile_image, band_type, set_me_tile_image,
            navigate_to_screen, process_tile_callback, process_notification_callback,
            listen_pushservice, sync, clear_tile, send_notification, set_theme,
            get_tiles, get_serial_number, set_tiles, get_api_version,
            get_running_firmware_app, check_firmware_sdk_bit;
          writes_method;
          first [ apply writes_listen_loop | apply writes_sync_loop
                | apply writes_request_tiles | apply writes_get_firmware_version ]
        | destruct (Hsnd _ _ _ _ _ m Hm) as (Htr & Ht & Hs & Hv & Hp);
          cbv [flags fst snd] in Ht, Hs, Hv, Hp;
          split; [exact Htr|];
          split; [first [left; solve [auto] | right; left; reflexivity
                        | right; right; eexists; reflexivity]|];
          split; [first [left; solve [auto] | right; reflexivity]|];
          split; [first [left; solve [auto] | right; left; reflexivity
                        | right; right; reflexivity]|];
          first [left; solve [auto] | right; reflexivity] ]
    end.
Qed.

(** *** [request_tiles] with icons *)

Lemma request_tiles_loop_step_icons (n : nat) (pre r post : bytes)
    (tile_icons : list bytes) (i : nat) (text : string) :
  length r = 88 -> record_name r text ->
  request_tiles_loop (S n) (pre ++ r ++ post) true tile_icons i (length pre)
  = match nth_error tile_icons i with
    | Some ic =>
        res_bind (request_tiles_loop n (pre ++ r ++ post) true tile_icons (i + 1)
                                     (length pre + 88))
                 (fun rest => Ok (tile_with_icon (tile_of_record r text) ic :: rest))
    | None => Raise IndexError
    end.
Proof.
  intros Hr Hname.
  cbn [request_tiles_loop].
  rewrite (slice_middle_0 pre r post (length pre) 16) by lia.
  rewrite !(slice_middle pre r post (length pre)) by lia.
  unfold UUID_of_bytes_le, struct_unpack.
  rewrite !length_slice by lia. cbn [Nat.sub Nat.eqb res_bind].
  unfold record_name in Hname.
  destruct (le_decode (slice r 24 26) =? 0)%Z eqn:Hlen; cbn [negb].
  - subst text. cbn [res_bind]. destruct (nth_error tile_icons i); reflexivity.
  - rewrite Hname. cbn [res_bind]. destruct (nth_error tile_icons i); reflexivity.
Qed.

Lemma request_tiles_loop_icons (recs : list bytes) (names : list string) :
  Forall2 (fun r text => length r = 88 /\ record_name r text) recs names ->
  forall (pre post : bytes) (tile_icons : list bytes) (i : nat),
    i <= length tile_icons ->
    request_tiles_loop (length recs) (pre ++ concat recs ++ post) true tile_icons i
                       (length pre)
    = if i + length recs <=? length tile_icons
      then Ok (tiles_with_icons (fun k => nth k tile_icons []) i recs names)
      else Raise IndexError.
Proof.
  induction 1 as [|r text recs names [Hr Hname] _ IH]; intros pre post tile_icons i Hi.
  - cbn [length request_tiles_loop]. rewrite Nat.add_0_r.
    apply Nat.leb_le in Hi. now rewrite Hi.
  - cbn [length concat].
    rewrite <- app_assoc.
    rewrite (request_tiles_loop_step_icons _ _ _ _ _ _ text Hr Hname).
    destruct (nth_error tile_icons i) as [ic|] eqn:Hic.
    + assert (Hlt : i < length tile_icons) by (apply nth_error_Some; congruence).
      replace (length pre + 88) with (length (pre ++ r)) by (rewrite length_app; lia).
      replace (pre ++ r ++ concat recs ++ post) with ((pre ++ r) ++ concat recs ++ post)
        by (now rewrite <- app_assoc).
      rewrite IH by lia.
      rewrite <- (Nat.add_assoc i 1). cbn [Nat.add].
      match goal with
      | |- context [Nat.leb ?a ?b] => destruct (Nat.leb a b); cbn [res_bind]
      end; [|reflexivity].
      unfold tiles_with_icons.
      cbn [length seq combine map fst snd].
      rewrite (nth_error_nth _ _ _ Hic), Nat.add_1_r. reflexivity.
    + apply nth_error_None in Hic.
      match goal with
      | |- context [Nat.leb ?a ?b] =>
          replace (Nat.leb a b) with false by (symmetry; apply Nat.leb_gt; lia)
      end.
      reflexivity.
Qed.

Lemma tiles_with_icons_ext (icon icon' : nat -> bytes) (i : nat) (recs : list bytes)
    (names : list string) (bound : nat) :
  (forall k, k < bound -> icon k = icon' k) -> i + length recs <= bound ->
  tiles_with_icons icon i recs names = tiles_with_icons icon' i recs names.
Proof.
  intros Hext Hbound. unfold tiles_with_icons.
  apply map_ext_in. intros [k [r text]] Hin. cbn [fst snd].
  apply in_combine_l, in_seq in Hin. rewrite Hext by lia. reflexivity.
Qed.

(** X22. [request_tiles(icons=True)] reads with [GET_TILES] and a size of
    16684 bytes, takes the first 15 blocks of 1024 bytes of the response
    as icons and decodes the tile table that follows them.  For a table
    of at most 15 records it stores one tile per record, the tile number
    [k] with the [k]-th block as icon; for a table of more than 15
    records the lookup of the sixteenth icon raises [IndexError] and
    nothing is stored. *)
Theorem request_tiles_with_icons (w : World) (result : bool) (chunks : list bytes)
    (block count : bytes) (recs : list bytes) (names : list string) (extra : bytes) :
  socket (trace w) (CargoRead GET_TILES 16684) = Ok (result, chunks) ->
  join chunks = block ++ count ++ join recs ++ extra ->
  length block = 15 * 1024 -> length count = 4 ->
  le_decode count = Z.of_nat (length recs) ->
  Forall2 (fun r text => length r = 88 /\ record_name r text) recs names ->
  request_tiles true w
  = if length recs <=? get_max_tile_capacity
    then (Ok tt, with_tiles (add_trace w [CargoRead GET_TILES 16684])
                            (Some (tiles_with_icons (icon_of block) 0 recs names)))
    else (Raise IndexError, add_trace w [CargoRead GET_TILES 16684]).
Proof.
  intros Hread Hdata Hb Hc Hcount Hrecs.
  unfold request_tiles, cargo_read.
  change (88 * Z.of_nat get_max_tile_capacity + 4
          + Z.of_nat get_max_tile_capacity * 1024)%Z with 16684%Z.
  rewrite (bind_ok _ _ _ (@socket_call_ok _ _ _ Hread)).
  rewrite Hdata.
  change (1024 * get_max_tile_capacity) with (15 * 1024).
  rewrite (slice_field block count (join recs ++ extra) (15 * 1024) 4 Hb Hc).
  unfold struct_unpack. rewrite Hc, Hcount. cbn [Nat.eqb].
  unfold bind at 1, lift at 1.
  rewrite Nat2Z.id.
  replace (15 * 1024 + 4) with (length (block ++ count)) by (rewrite length_app; lia).
  replace (block ++ count ++ join recs ++ extra)
    with ((block ++ count) ++ concat recs ++ extra) by (now rewrite <- app_assoc).
  rewrite (request_tiles_loop_icons recs names Hrecs)
    by (rewrite length_map, length_seq; unfold get_max_tile_capacity; lia).
  rewrite length_map, length_seq. cbn [Nat.add].
  destruct (Nat.leb_spec (length recs) get_max_tile_capacity) as [Hle|Hgt];
    [|reflexivity].
  unfold bind, lift, set_tiles_attr, with_tiles.
  rewrite (tiles_with_icons_ext _ (icon_of block) 0 recs names get_max_tile_capacity);
    [reflexivity| |lia].
  intros k Hk. unfold get_max_tile_capacity in *. cbv beta.
  rewrite nth_indep
    with (d' := slice ((block ++ count) ++ concat recs ++ extra) (1024 * 0) (1024 * 0 + 1024))
    by (rewrite length_map, length_seq; lia).
  rewrite (map_nth (fun i => slice ((block ++ count) ++ concat recs ++ extra)
                                   (1024 * i) (1024 * i + 1024)) (seq 0 15) 0 k).
  rewrite seq_nth by lia. cbn [Nat.add].
  unfold icon_of. rewrite <- !app_assoc. apply slice_app_l. lia.
Qed.

End Device.

(** ** A sample device

    Concrete collaborators, used to run the methods: firmware versions are
    kept as their raw 19-byte record with the tag in the first three
    bytes, texts are 16-bit code units of which the low bytes are kept,
    and the cargo socket answers each command with a fixed reply. *)

Module Sample.

Definition FirmwareVersion : Type := bytes.

Definition deserialize (b : bytes) : res FirmwareVersion :=
  if Nat.eqb (length b) 19 then Ok b else Raise struct_error.

Definition app_name (f : FirmwareVersion) : string := string_of_list_byte (firstn 3 f).

Definition version_bool (v : DeviceVersion FirmwareVersion) : bool := true.

Definition version_band_type (v : DeviceVersion FirmwareVersion) : BandType :=
  match application v with
  | Some _ => Cargo
  | None => Unknown
  end.

Definition bytes_to_text (b : bytes) : res string :=
  Ok (string_of_list_byte (filter (fun x => negb (Byte.eqb x x00)) b)).

Definition decode_sensor_reading (b : bytes) : res value := Ok (Bytes (slice_from b 2)).

Definition decode_utf8 (b : bytes) : res string := Ok (string_of_list_byte b).

Definition bytes_le_of_guid (u : UUID) : bytes := bytes_le u.

Definition record (tag : string) : bytes := list_byte_of_string tag ++ repeat x01 16.

Definition guid_a : bytes := map byte_of_Z [1; 2; 3; 4; 5; 6; 7; 8; 9; 10; 11; 12; 13; 14; 15; 16]%Z.
Definition guid_b : bytes := map byte_of_Z [17; 18; 19; 20; 21; 22; 23; 24; 25; 26; 27; 28; 29; 30; 31; 32]%Z.

(** An 88-byte tile record: GUID, order, colour, name length, mask, 52
    bytes of text and 8 more bytes. *)
Definition tile_record (guid : bytes) (order : Z) (text : string) (tail : byte) : bytes :=
  guid ++ le_encode 4 order ++ map byte_of_Z [16; 32; 48; 255]%Z
  ++ le_encode 2 (Z.of_nat (String.length text)) ++ [x00; x00]
  ++ flat_map (fun c => [c; x00]) (list_byte_of_string text)
  ++ repeat x00 (52 - 2 * String.length text)
  ++ repeat tail 8.

Definition tile_a : bytes := tile_record guid_a 0 "Run" x00.
Definition tile_b : bytes := tile_record guid_b 1 "Mail" xff.

Definition socket (history : list event) (call : event) : res reply :=
  match call with
  | CargoRead CORE_GET_VERSION _ => Ok (true, [record "2UP" ++ record "App"; record "1BL"])
  | CargoRead GET_TILES_NO_IMAGES _ => Ok (true, [le_encode 4 2; tile_a ++ tile_b])
  | CargoRead SERIAL_NUMBER_REQUEST _ => Ok (true, [list_byte_of_string "007198A1B2C3"])
  | CargoRead CARGO_SYSTEM_SETTINGS_OOBE_COMPLETED_GET _ => Ok (true, [le_encode 4 1])
  | CargoRead _ _ => Ok (false, [])
  | _ => Ok (true, [])
  end.

(** A band without tiles. *)
Definition socket_no_tiles (history : list event) (call : event) : res reply :=
  match call with
  | CargoRead GET_TILES_NO_IMAGES _ => Ok (true, [le_encode 4 0])
  | _ => socket history call
  end.

(** A link that breaks while the theme colours are written. *)
Definition socket_write_raises (history : list event) (call : event) : res reply :=
  match call with
  | CargoWriteWithData SET_THEME_COLOR _ _ => Raise OSError
  | _ => socket history call
  end.

(** A read of the OOBE flag that fails after two of the four bytes. *)
Definition socket_short_read (history : list event) (call : event) : res reply :=
  match call with
  | CargoRead CARGO_SYSTEM_SETTINGS_OOBE_COMPLETED_GET _ => Ok (false, [[x01; x00]])
  | _ => socket history call
  end.



(** A link that breaks while the OOBE flag is read. *)
Definition socket_read_raises (history : list event) (call : event) : res reply :=
  match call with
  | CargoRead CARGO_SYSTEM_SETTINGS_OOBE_COMPLETED_GET _ => Raise OSError
  | _ => socket history call
  end.

Definition handled : value := Dict [("handled"%string, Bool true)].

Definition svc_other : Service :=
  mkService (Ok "other"%string) (mkUUID guid_b) (fun _ _ _ => Raise ValueError) (Ok (Bool false)).
Definition svc_silent : Service :=
  mkService (Ok "silent"%string) (mkUUID guid_a) (fun _ _ _ => Ok None_) (Raise OSError).
Definition svc_answer : Service :=
  mkService (Ok "answer"%string) (mkUUID guid_a) (fun _ _ _ => Ok handled) (Ok (Bool true)).

Definition services : list Service := [svc_other; svc_silent; svc_answer].

(** A handler that answers with an empty message. *)
Definition svc_empty : Service :=
  mkService (Ok "empty"%string) (mkUUID guid_a) (fun _ _ _ => Ok (Dict [])) (Ok (Bool true)).

(** A service whose [sync] is interrupted from the keyboard, and one whose
    [__str__] raises. *)
Definition svc_interrupted : Service :=
  mkService (Ok "interrupted"%string) (mkUUID guid_b) (fun _ _ _ => Ok None_)
            (Raise KeyboardInterrupt).
Definition svc_unprintable : Service :=
  mkService (Raise TypeError) (mkUUID guid_b) (fun _ _ _ => Ok None_) (Ok (Bool true)).

(** Frames of the push socket. *)
Definition frame_sensor : bytes := map byte_of_Z [1; 0; 7; 7]%Z.
Definition frame_sms : bytes :=
  map byte_of_Z [100; 0; 5; 0; 0; 0]%Z ++ guid_a ++ map byte_of_Z [9; 9]%Z.
Definition frame_tile : bytes :=
  map byte_of_Z [204; 0; 0; 0; 0; 0; 2; 0; 0; 0]%Z ++ guid_a ++ repeat x00 18
  ++ flat_map (fun c => [c; x00]) (list_byte_of_string "Run") ++ repeat x00 34.
Definition frame_wake : bytes := map byte_of_Z [0; 0]%Z.
Definition frame_sms_short : bytes := map byte_of_Z [100; 0; 5]%Z.
Definition frame_unknown : bytes := map byte_of_Z [5; 0; 1; 2]%Z.

(** A device after [connect]. *)
Definition connected : World FirmwareVersion :=
  snd (connect deserialize app_name socket (new_device FirmwareVersion)).

End Sample.

Module Run.

Import Sample.

Definition fresh : World FirmwareVersion := new_device FirmwareVersion.


Definition after_get_tiles : World FirmwareVersion :=
  snd (get_tiles bytes_to_text socket fresh).

Definition after_get_serial_number : World FirmwareVersion :=
  snd (get_serial_number decode_utf8 socket fresh).

Definition theme : list Z := [0; 1; 255; 65536; 16777215; 4294967295]%Z.

Definition theme_payload : bytes := flat_map (le_encode 4) theme.

End Run.

(** Further collaborators and states, for the further properties. *)

Module More.

Import Sample.

(** Text as 16-bit code units, padded with zeros or cut to [n] units. *)
Definition serialize_text (s : string) (n : nat) : bytes :=
  firstn (2 * n) (flat_map (fun c => [c; x00]) (list_byte_of_string s) ++ repeat x00 (2 * n)).

(** Stored tiles; the first has a [name_length] that is not the length of
    its name, and an icon. *)
Definition tile_run : Tile := mkTile (mkUUID guid_a) 0 16711680 99 3 "Run" (Some [x01]).
Definition tile_mail : Tile := mkTile (mkUUID guid_b) 1 255 4 0 "Mail" None.

Definition stored : World FirmwareVersion :=
  with_tiles (new_device FirmwareVersion) (Some [tile_run; tile_mail]).

(** The table [set_tiles] writes for the stored tiles. *)
Definition table : bytes :=
  le_encode 4 2 ++ join (map (tile_record_bytes serialize_text) [tile_run; tile_mail]).

(** A band that answers the tile read with that table. *)
Definition socket_echo (history : list event) (call : event) : res reply :=
  match call with
  | CargoRead GET_TILES_NO_IMAGES _ => Ok (true, [table])
  | _ => socket history call
  end.

(** A band that reports sixteen tiles. *)
Definition socket_sixteen (history : list event) (call : event) : res reply :=
  match call with
  | CargoRead GET_TILES_NO_IMAGES _ => Ok (true, [le_encode 4 16; join (repeat tile_a 16)])
  | _ => socket history call
  end.

(** A tile table cut after two bytes of the first record. *)
Definition socket_truncated (history : list event) (call : event) : res reply :=
  match call with
  | CargoRead GET_TILES_NO_IMAGES _ => Ok (false, [le_encode 4 1 ++ [x00; x01]])
  | _ => socket history call
  end.

(** Fifteen icons, the [k]-th filled with the byte [k]. *)
Definition icons_block : bytes :=
  flat_map (fun k => repeat (byte_of_Z (Z.of_nat k)) 1024) (seq 0 15).

Definition socket_icons (history : list event) (call : event) : res reply :=
  match call with
  | CargoRead GET_TILES _ => Ok (true, [icons_block; le_encode 4 2 ++ tile_a ++ tile_b])
  | _ => socket history call
  end.

Definition record_filled (tag : string) (fill : byte) : bytes :=
  list_byte_of_string tag ++ repeat fill 16.

(** A band that reports two application records and a record with an
    unknown tag. *)
Definition socket_versions (history : list event) (call : event) : res reply :=
  match call with
  | CargoRead CORE_GET_VERSION _ =>
      Ok (true, [record_filled "App" x01 ++ record_filled "App" x02
                 ++ record_filled "Dbg" x03])
  | _ => socket history call
  end.

(** A version read that returns a single byte. *)
Definition socket_short_version (history : list event) (call : event) : res reply :=
  match call with
  | CargoRead CORE_GET_VERSION _ => Ok (false, [[x01]])
  | _ => socket history call
  end.

(** A band that answers the API version and the running application. *)
Definition socket_info (history : list event) (call : event) : res reply :=
  match call with
  | CargoRead CORE_GET_API_VERSION _ => Ok (true, [le_encode 4 21])
  | CargoRead CORE_WHO_AM_I _ => Ok (true, [[x03]])
  | _ => socket history call
  end.

End More.

(** ** The theorems at the sample device *)

(** Three handlers, of which the second declines and the third answers. *)
Lemma process_push_routes_witness :
  process_push Sample.services (mkUUID Sample.guid_a) [] (Str "m") Run.fresh
  = (Ok Sample.handled, Run.fresh)
  /\ process_push [Sample.svc_other; Sample.svc_silent] (mkUUID Sample.guid_a) []
       (Str "m") Run.fresh
     = (Ok (Str "m"), Run.fresh).
Proof.
  split.
  - apply (proj2 (process_push_routes Sample.services (mkUUID Sample.guid_a) []
                    (Str "m") Run.fresh)
             [Sample.svc_other; Sample.svc_silent] Sample.svc_answer [] Sample.handled).
    + reflexivity.
    + intros s [<-|[<-|[]]] Hguid.
      * vm_compute in Hguid. discriminate.
      * exists None_. split; reflexivity.
    + reflexivity.
    + reflexivity.
    + reflexivity.
  - apply (proj1 (process_push_routes [Sample.svc_other; Sample.svc_silent]
                    (mkUUID Sample.guid_a) [] (Str "m") Run.fresh)).
    intros s [<-|[<-|[]]] Hguid.
    + vm_compute in Hguid. discriminate.
    + exists None_. split; reflexivity.
Defined.

(** A theme of six colours on a socket that answers every call. *)
Lemma set_theme_brackets_witness :
  length Run.theme_payload = 24
  /\ set_theme Sample.socket Run.theme Run.fresh
     = (Ok tt, add_trace Run.fresh
                 [CargoWrite START_STRIP_SYNC_START;
                  CargoWriteWithData SET_THEME_COLOR Run.theme_payload [];
                  CargoWrite START_STRIP_SYNC_END]).
Proof.
  apply (set_theme_brackets Sample.socket (colors := Run.theme) Run.fresh).
  - reflexivity.
  - unfold Run.theme. repeat constructor; lia.
Defined.

(** A band that reports the flag as 1. *)
Lemma check_if_oobe_completed_fallback_witness :
  check_if_oobe_completed Sample.socket Run.fresh
  = (Ok true, add_trace Run.fresh [CargoRead CARGO_SYSTEM_SETTINGS_OOBE_COMPLETED_GET 4]).
Proof.
  apply (proj1 (proj2 (check_if_oobe_completed_fallback Sample.socket Run.fresh))
           true (le_encode 4 1) []).
  - reflexivity.
  - reflexivity.
Defined.

(** The records arrive in the order 2UP, App, 1BL, in two chunks. *)
Lemma get_firmware_version_slots_witness :
  exists v w',
    get_firmware_version Sample.deserialize Sample.app_name Sample.socket Run.fresh
    = (Ok v, w')
    /\ version w' = Some v
    /\ trace w' = trace Run.fresh ++ [CargoRead CORE_GET_VERSION 57]
    /\ (forall f, In f [Sample.record "2UP"; Sample.record "App"; Sample.record "1BL"] ->
          Sample.app_name f = "1BL"%string -> bootloader v = Some f)
    /\ (forall f, In f [Sample.record "2UP"; Sample.record "App"; Sample.record "1BL"] ->
          Sample.app_name f = "2UP"%string -> updater v = Some f)
    /\ (forall f, In f [Sample.record "2UP"; Sample.record "App"; Sample.record "1BL"] ->
          Sample.app_name f = "App"%string -> application v = Some f).
Proof.
  apply (get_firmware_version_slots Sample.FirmwareVersion Sample.deserialize
           Sample.app_name Sample.socket Run.fresh true
           [Sample.record "2UP" ++ Sample.record "App"; Sample.record "1BL"]
           (Sample.record "2UP") (Sample.record "App") (Sample.record "1BL") []
           (Sample.record "2UP") (Sample.record "App") (Sample.record "1BL")).
  - reflexivity.
  - reflexivity.
  - reflexivity.
  - reflexivity.
  - reflexivity.
  - reflexivity.
  - reflexivity.
  - reflexivity.
  - apply Permutation_sym.
    exact (Permutation_cons_append ["2UP"; "App"]%string "1BL"%string).
Defined.

(** Two tiles, 'Run' and 'Mail', with different bytes after the text. *)
Lemma request_tiles_two_records_witness :
  map (@length byte) (tile_record_fields Sample.tile_a) = [16; 4; 4; 2; 2; 52]
  /\ map (@length byte) (tile_record_fields Sample.tile_b) = [16; 4; 4; 2; 2; 52]
  /\ tile_of_record (firstn 80 Sample.tile_a) "Run" = tile_of_record Sample.tile_a "Run"
  /\ tile_of_record (firstn 80 Sample.tile_b) "Mail" = tile_of_record Sample.tile_b "Mail"
  /\ request_tiles Sample.bytes_to_text Sample.socket false Run.fresh
     = (Ok tt, with_tiles (add_trace Run.fresh [CargoRead GET_TILES_NO_IMAGES 1324])
                          (Some [tile_of_record Sample.tile_a "Run";
                                 tile_of_record Sample.tile_b "Mail"])).
Proof.
  apply (request_tiles_two_records Sample.FirmwareVersion Sample.bytes_to_text
           Sample.socket Run.fresh true [le_encode 4 2; Sample.tile_a ++ Sample.tile_b]
           (le_encode 4 2) Sample.tile_a Sample.tile_b [] "Run" "Mail").
  - reflexivity.
  - reflexivity.
  - reflexivity.
  - reflexivity.
  - reflexivity.
  - reflexivity.
  - reflexivity.
  - reflexivity.
Defined.

(** A sensor frame, a notification, a tile event and a wake-up frame. *)
Lemma listen_pushservice_surfaces_witness :
  exists outs,
    Forall2 (surfaces Sample.bytes_to_text Sample.decode_sensor_reading
               [Sample.svc_silent; Sample.svc_answer])
            [Sample.frame_sensor; Sample.frame_sms; Sample.frame_tile; Sample.frame_wake]
            outs
    /\ listen_pushservice Sample.bytes_to_text Sample.decode_sensor_reading Sample.socket
         [Sample.svc_silent; Sample.svc_answer]
         [Sample.frame_sensor; Sample.frame_sms; Sample.frame_tile; Sample.frame_wake]
         Run.fresh
       = (Ok tt, add_trace Run.fresh (PushConnect :: concat outs)).
Proof.
  apply (proj1 (listen_pushservice_surfaces Sample.FirmwareVersion Sample.bytes_to_text
                  Sample.decode_sensor_reading Sample.socket
                  [Sample.svc_silent; Sample.svc_answer]) _ Run.fresh (true, [])).
  - reflexivity.
  - repeat constructor.
    + exists RemoteSubscription. split; [reflexivity|]. eexists; reflexivity.
    + exists Sms. split; [reflexivity|]. vm_compute. lia.
    + exists StrappEvent. split; [reflexivity|].
      split; [vm_compute; lia | eexists; reflexivity].
    + exists WakeApp. split; [reflexivity | exact I].
  - intros s guid command message [<-|[<-|[]]]; eexists; reflexivity.
Defined.

(** A second call of [get_tiles] and of [get_serial_number]. *)
Lemma cache_backed_getters_witness :
  (get_tiles Sample.bytes_to_text Sample.socket Run.after_get_tiles
   = (Ok (tiles Run.after_get_tiles), Run.after_get_tiles)
   /\ reads (trace Run.after_get_tiles) = reads (trace Run.fresh) + 1)
  /\ (get_serial_number Sample.decode_utf8 Sample.socket Run.after_get_serial_number
      = (Ok (serial_number Run.after_get_serial_number), Run.after_get_serial_number)
      /\ reads (trace Run.after_get_serial_number) = reads (trace Run.fresh) + 1).
Proof.
  split.
  - apply (proj1 (cache_backed_getters Sample.FirmwareVersion Sample.deserialize
                    Sample.app_name Sample.bytes_to_text Sample.decode_utf8
                    Sample.socket) Run.fresh).
    + reflexivity.
    + reflexivity.
  - apply (proj1 (proj2 (cache_backed_getters Sample.FirmwareVersion Sample.deserialize
                           Sample.app_name Sample.bytes_to_text Sample.decode_utf8
                           Sample.socket)) Run.fresh).
    + reflexivity.
    + reflexivity.
Defined.



(** Three services, of which the second raises [OSError]. *)
Lemma sync_isolates_failures_witness :
  sync Sample.services Run.fresh
  = (Ok tt,
     add_trace Run.fresh
       [WrapperPrint (Str (ljust "other" 80)) "";
        WrapperPrint (Str "[FAIL]") newline;
        WrapperPrint (Str (ljust "silent" 80)) "";
        WrapperPrint (Exc OSError) newline;
        WrapperPrint (Str "[FAIL]") newline;
        WrapperPrint (Str (ljust "answer" 80)) "";
        WrapperPrint (Str "[OK]") newline;
        WrapperPrint (Str "Sync finished") newline]).
Proof.
  apply (proj1 (sync_isolates_failures Sample.FirmwareVersion Sample.services) Run.fresh).
  repeat constructor; try (eexists; reflexivity);
    intros e [= <-]; reflexivity.
Defined.

(** The sample device after [connect] is a state in which the listener
    runs. *)
Example connected_reachable :
  reachable Sample.deserialize Sample.app_name Sample.version_bool
    Sample.version_band_type Sample.bytes_to_text (fun _ _ => [])
    Sample.decode_sensor_reading Sample.bytes_le_of_guid Sample.decode_utf8
    Sample.socket Sample.services Sample.connected
  /\ push_thread Sample.connected = true.
Proof.
  split; [|reflexivity].
  change Sample.connected
    with (after Sample.deserialize Sample.app_name Sample.version_bool
            Sample.version_band_type Sample.bytes_to_text (fun _ _ => [])
            Sample.decode_sensor_reading Sample.bytes_le_of_guid Sample.decode_utf8
            Sample.socket Sample.services call_connect Run.fresh).
  apply reachable_call. apply reachable_new.
Qed.

(** ** Where the code departs from the specification *)

(** C1. A notification frame cut short makes [struct.unpack] raise inside
    the loop, and a packet type outside the enumeration makes the
    conversion to [PushServicePacketType] raise: in both runs the
    exception leaves [listen_pushservice] and the frame that follows is
    never handled. *)
Lemma listen_pushservice_raises :
  listen_pushservice Sample.bytes_to_text Sample.decode_sensor_reading Sample.socket
    Sample.services [Sample.frame_sms_short; Sample.frame_wake] Run.fresh
  = (Raise struct_error,
     add_trace Run.fresh [PushConnect; WrapperPrint (PushServicePacketType_obj Sms) newline])
  /\ listen_pushservice Sample.bytes_to_text Sample.decode_sensor_reading Sample.socket
       Sample.services [Sample.frame_unknown; Sample.frame_wake] Run.fresh
     = (Raise ValueError, add_trace Run.fresh [PushConnect]).
Proof. split; reflexivity. Qed.

(** C2. Two calls of [get_firmware_version] in a row read the cargo socket
    twice, and return the same version both times. *)
Lemma get_firmware_version_reads_twice :
  let get := get_firmware_version Sample.deserialize Sample.app_name Sample.socket in
  fst (get (snd (get Run.fresh))) = fst (get Run.fresh)
  /\ reads (trace (snd (get (snd (get Run.fresh))))) = 2
  /\ reads (trace (snd (get (snd (get Run.fresh))))) <> 1.
Proof. repeat split; try reflexivity. vm_compute. discriminate. Qed.

(** With a band that has no tiles the list stays empty, and [get_tiles]
    reads again on the second call. *)
Lemma get_tiles_empty_reads_twice :
  let get := get_tiles Sample.bytes_to_text Sample.socket_no_tiles in
  fst (get Run.fresh) = Ok (Some [])
  /\ reads (trace (snd (get (snd (get Run.fresh))))) = 2.
Proof. split; reflexivity. Qed.

(** C3. The six fields [request_tiles] reads from an 88-byte record make
    up 80 bytes, not the record. *)
Lemma tile_record_fields_are_80_bytes :
  length Sample.tile_b = 88
  /\ length (join (tile_record_fields Sample.tile_b)) = 80
  /\ join (tile_record_fields Sample.tile_b) <> Sample.tile_b.
Proof.
  split; [reflexivity|]. split; [reflexivity|].
  intros Heq. apply (f_equal (@length byte)) in Heq. vm_compute in Heq. discriminate.
Qed.

(** C4. When the write of the colours raises, [set_theme] ends with that
    exception after two calls on the socket: the end marker is not sent. *)
Lemma set_theme_end_marker_skipped :
  set_theme Sample.socket_write_raises Run.theme Run.fresh
  = (Raise OSError,
     add_trace Run.fresh [CargoWrite START_STRIP_SYNC_START;
                          CargoWriteWithData SET_THEME_COLOR Run.theme_payload []])
  /\ ~ In (CargoWrite START_STRIP_SYNC_END)
         (trace (snd (set_theme Sample.socket_write_raises Run.theme Run.fresh))).
Proof.
  split; [reflexivity|].
  vm_compute. intros [H|[H|[]]]; discriminate.
Qed.

(** C5. A read of the OOBE flag that fails with two bytes of data makes
    [check_if_oobe_completed] raise [struct.error], and a read that raises
    makes it raise the same exception. *)
Lemma check_if_oobe_completed_propagates :
  check_if_oobe_completed Sample.socket_short_read Run.fresh
  = (Raise struct_error,
     add_trace Run.fresh [CargoRead CARGO_SYSTEM_SETTINGS_OOBE_COMPLETED_GET 4])
  /\ check_if_oobe_completed Sample.socket_read_raises Run.fresh
     = (Raise OSError,
        add_trace Run.fresh [CargoRead CARGO_SYSTEM_SETTINGS_OOBE_COMPLETED_GET 4]).
Proof. split; reflexivity. Qed.

(** C6. A handler whose identifier matches and which answers with an
    empty message is passed over: the message that comes back is not its
    answer, and the handlers after it are still consulted. *)
Lemma process_push_drops_empty_replacement :
  svc_push Sample.svc_empty (mkUUID Sample.guid_a) [] (Str "m") = Ok (Dict [])
  /\ process_push [Sample.svc_empty] (mkUUID Sample.guid_a) [] (Str "m") Run.fresh
     = (Ok (Str "m"), Run.fresh)
  /\ process_push [Sample.svc_empty; Sample.svc_answer] (mkUUID Sample.guid_a) []
       (Str "m") Run.fresh
     = (Ok Sample.handled, Run.fresh).
Proof. repeat split. Qed.



(** C10. A service whose [sync] raises [KeyboardInterrupt], which
    [except Exception] does not catch, and a service whose formatting
    raises: [sync] raises, the services after it are not synchronized and
    "Sync finished" is not printed. *)
Lemma sync_propagates :
  sync [Sample.svc_silent; Sample.svc_interrupted; Sample.svc_answer] Run.fresh
  = (Raise KeyboardInterrupt,
     add_trace Run.fresh
       [WrapperPrint (Str (ljust "silent" 80)) "";
        WrapperPrint (Exc OSError) newline;
        WrapperPrint (Str "[FAIL]") newline;
        WrapperPrint (Str (ljust "interrupted" 80)) ""])
  /\ sync [Sample.svc_unprintable; Sample.svc_answer] Run.fresh
     = (Raise TypeError, Run.fresh).
Proof. split; reflexivity. Qed.

(** ** The further properties at the sample device *)

(** A screen number of 17 bits. *)
Lemma arguments_packed_before_sending_witness :
  navigate_to_screen Sample.socket 65536 Run.fresh = (Raise struct_error, Run.fresh).
Proof.
  apply (proj1 (arguments_packed_before_sending Sample.FirmwareVersion Sample.socket)).
  simpl; lia.
Defined.

(** The screen 258 goes out as the bytes 2 and 1. *)
Lemma packed_arguments_sent_witness :
  length (le_encode 2 258) = 2
  /\ le_decode (le_encode 2 258) = 258%Z
  /\ navigate_to_screen Sample.socket 258 Run.fresh
     = (Ok (true, []),
        add_trace Run.fresh [CargoWriteWithData NAVIGATE_TO_SCREEN [x02; x01] []]).
Proof.
  apply (proj1 (packed_arguments_sent Sample.FirmwareVersion Sample.socket) 258%Z Run.fresh).
  simpl; lia.
Defined.

(** A theme of three colours. *)
Lemma set_theme_bad_colors_witness :
  set_theme Sample.socket [1; 2; 3]%Z Run.fresh
  = (Raise struct_error, add_trace Run.fresh [CargoWrite START_STRIP_SYNC_START]).
Proof.
  apply (set_theme_bad_colors Sample.FirmwareVersion Sample.socket [1; 2; 3]%Z Run.fresh).
  left. discriminate.
Defined.

(** A device that was never connected. *)
Lemma band_type_needs_version_witness :
  band_type Sample.version_bool Sample.version_band_type Run.fresh
  = (Raise AttributeError, Run.fresh)
  /\ get_me_tile_image Sample.version_bool Sample.version_band_type Sample.socket Run.fresh
     = (Raise AttributeError, Run.fresh).
Proof.
  apply (proj1 (band_type_needs_version Sample.FirmwareVersion Sample.version_bool
                  Sample.version_band_type Sample.socket) Run.fresh).
  reflexivity.
Defined.

(** A band that answers the API version 21. *)
Lemma get_api_version_outcomes_witness :
  get_api_version More.socket_info Run.fresh
  = (Ok 21%Z, add_trace Run.fresh [CargoRead CORE_GET_API_VERSION 4])
  /\ (0 <= 21 < 2 ^ 32)%Z.
Proof.
  apply (proj1 (proj2 (proj2 (get_api_version_outcomes Sample.FirmwareVersion
                                More.socket_info Run.fresh)))
           true (le_encode 4 21) []).
  - reflexivity.
  - reflexivity.
Defined.

(** A band that runs the application. *)
Lemma get_running_firmware_app_outcomes_witness :
  get_running_firmware_app More.socket_info Run.fresh
  = (Ok App, add_trace Run.fresh [CargoRead CORE_WHO_AM_I 1]).
Proof.
  apply (proj2 (proj1 (proj2 (proj2 (get_running_firmware_app_outcomes
                                       Sample.FirmwareVersion More.socket_info Run.fresh)))
                  true x03 [] App eq_refl)).
  reflexivity.
Defined.

(** The first call on a new device. *)
Lemma get_serial_number_outcomes_witness :
  get_serial_number Sample.decode_utf8 Sample.socket Run.fresh
  = (Ok (Some "007198A1B2C3"%string),
     with_serial_number (add_trace Run.fresh [CargoRead SERIAL_NUMBER_REQUEST 12])
                        (Some "007198A1B2C3"%string)).
Proof.
  apply (proj1 (proj2 (proj2 (get_serial_number_outcomes Sample.FirmwareVersion
                                Sample.decode_utf8 Sample.socket Run.fresh eq_refl)))
           (list_byte_of_string "007198A1B2C3") [] "007198A1B2C3"%string).
  - reflexivity.
  - reflexivity.
Defined.

(** A notification frame of three bytes. *)
Lemma callbacks_short_frame_witness :
  process_notification_callback Sample.services Sample.frame_sms_short Run.fresh
  = (Raise struct_error, Run.fresh).
Proof.
  apply (proj1 (callbacks_short_frame Sample.FirmwareVersion Sample.bytes_to_text
                  Sample.services Sample.frame_sms_short Run.fresh)).
  simpl; lia.
Defined.

(** A wake-up frame. *)
Lemma listen_iteration_passthrough_witness :
  listen_iteration Sample.bytes_to_text Sample.decode_sensor_reading Sample.services
    Sample.frame_wake Run.fresh
  = (Ok tt, add_trace Run.fresh
              [WrapperPrint (PushServicePacketType_obj WakeApp) newline;
               WrapperPrint (Bytes (hexlify Sample.frame_wake)) newline]).
Proof.
  apply (listen_iteration_passthrough Sample.FirmwareVersion Sample.bytes_to_text
           Sample.decode_sensor_reading Sample.services WakeApp Sample.frame_wake Run.fresh).
  - reflexivity.
  - discriminate.
  - discriminate.
  - discriminate.
  - discriminate.
Defined.

(** A tile table that ends two bytes after the count. *)
Lemma request_tiles_truncated_witness :
  request_tiles Sample.bytes_to_text More.socket_truncated false Run.fresh
  = (Raise ValueError, add_trace Run.fresh [CargoRead GET_TILES_NO_IMAGES 1324]).
Proof.
  apply (proj1 (proj2 (request_tiles_truncated Sample.FirmwareVersion Sample.bytes_to_text
                         More.socket_truncated))
           Run.fresh false [le_encode 4 1 ++ [x00; x01]] (le_encode 4 1) [x00; x01]).
  - reflexivity.
  - reflexivity.
  - reflexivity.
  - reflexivity.
  - simpl; lia.
Defined.

(** Two records tagged 'App' and one with an unknown tag. *)
Lemma get_firmware_version_last_wins_witness :
  get_firmware_version Sample.deserialize Sample.app_name More.socket_versions Run.fresh
  = (Ok (mkDeviceVersion None None (Some (More.record_filled "App" x02))),
     with_version (add_trace Run.fresh [CargoRead CORE_GET_VERSION 57])
                  (mkDeviceVersion None None (Some (More.record_filled "App" x02)))).
Proof.
  apply (get_firmware_version_last_wins Sample.FirmwareVersion Sample.deserialize
           Sample.app_name More.socket_versions Run.fresh true
           [More.record_filled "App" x01 ++ More.record_filled "App" x02
            ++ More.record_filled "Dbg" x03]
           (More.record_filled "App" x01) (More.record_filled "App" x02)
           (More.record_filled "Dbg" x03) []
           (More.record_filled "App" x01) (More.record_filled "App" x02)
           (More.record_filled "Dbg" x03)).
  - reflexivity.
  - reflexivity.
  - reflexivity.
  - reflexivity.
  - reflexivity.
  - reflexivity.
  - reflexivity.
  - reflexivity.
Defined.

(** A connected device whose next version read returns one byte. *)
Lemma get_firmware_version_failure_witness :
  get_firmware_version Sample.deserialize Sample.app_name More.socket_short_version
    Sample.connected
  = (Raise struct_error,
     with_version (add_trace Sample.connected [CargoRead CORE_GET_VERSION 57])
                  (empty_version Sample.FirmwareVersion))
  /\ version Sample.connected
     = Some (mkDeviceVersion (Some (Sample.record "1BL")) (Some (Sample.record "2UP"))
                             (Some (Sample.record "App"))).
Proof.
  split.
  - apply (proj1 (proj2 (get_firmware_version_failure Sample.FirmwareVersion
                           Sample.deserialize Sample.app_name More.socket_short_version))
             Sample.connected false [[x01]] struct_error).
    + reflexivity.
    + reflexivity.
  - reflexivity.
Defined.

(** The two stored tiles on a socket that answers every call. *)
Lemma set_tiles_brackets_witness :
  set_tiles More.serialize_text Sample.socket More.stored
  = (Ok (true, []),
     add_trace More.stored
       [CargoWrite START_STRIP_SYNC_START;
        CargoWriteWithData SET_TILES More.table (le_encode 4 2);
        CargoWrite START_STRIP_SYNC_END]).
Proof.
  apply (set_tiles_brackets Sample.FirmwareVersion More.serialize_text Sample.socket
           [More.tile_run; More.tile_mail] More.stored).
  - reflexivity.
  - constructor; [unfold tile_packable; simpl; lia|].
    constructor; [unfold tile_packable; simpl; lia|].
    constructor.
  - simpl; lia.
Defined.

(** A new device, on which no tile list is stored. *)
Lemma set_tiles_leaves_bracket_open_witness :
  set_tiles More.serialize_text Sample.socket Run.fresh
  = (Raise TypeError, add_trace Run.fresh [CargoWrite START_STRIP_SYNC_START]).
Proof.
  apply (proj1 (set_tiles_leaves_bracket_open Sample.FirmwareVersion More.serialize_text
                  Sample.socket) Run.fresh).
  reflexivity.
Defined.

(** Sixteen records, one more than [get_max_tile_capacity]. *)
Lemma request_tiles_any_count_witness :
  length (combine (repeat Sample.tile_a 16) (repeat "Run"%string 16)) = 16
  /\ request_tiles Sample.bytes_to_text More.socket_sixteen false Run.fresh
     = (Ok tt, with_tiles (add_trace Run.fresh [CargoRead GET_TILES_NO_IMAGES 1324])
                          (Some (repeat (tile_of_record Sample.tile_a "Run") 16))).
Proof.
  apply (request_tiles_any_count Sample.FirmwareVersion Sample.bytes_to_text
           More.socket_sixteen Run.fresh true
           [le_encode 4 16; join (repeat Sample.tile_a 16)]
           (le_encode 4 16) (repeat Sample.tile_a 16) (repeat "Run"%string 16) []).
  - reflexivity.
  - reflexivity.
  - reflexivity.
  - reflexivity.
  - cbn [repeat]. repeat (constructor; [split; reflexivity|]). constructor.
Defined.

(** The table written for the stored tiles, read back. *)
Lemma request_tiles_reads_set_tiles_table_witness :
  request_tiles Sample.bytes_to_text More.socket_echo false Run.fresh
  = (Ok tt, with_tiles (add_trace Run.fresh [CargoRead GET_TILES_NO_IMAGES 1324])
                       (Some [mkTile (mkUUID Sample.guid_a) 0 16711680 3 3 "Run" None;
                              mkTile (mkUUID Sample.guid_b) 1 255 4 0 "Mail" None])).
Proof.
  apply (request_tiles_reads_set_tiles_table Sample.FirmwareVersion Sample.bytes_to_text
           More.serialize_text More.socket_echo [More.tile_run; More.tile_mail]
           Run.fresh true [More.table] []).
  - constructor; [unfold tile_packable; simpl; lia|].
    constructor; [unfold tile_packable; simpl; lia|].
    constructor.
  - constructor; [split; [reflexivity | split; [reflexivity | intros _; reflexivity]]|].
    constructor; [split; [reflexivity | split; [reflexivity | intros _; reflexivity]]|].
    constructor.
  - simpl; lia.
  - reflexivity.
  - reflexivity.
Defined.

(** A wake-up frame, a frame of type 5 and a sensor frame. *)
Lemma listen_pushservice_unreadable_frame_witness :
  listen_pushservice Sample.bytes_to_text Sample.decode_sensor_reading Sample.socket
    Sample.services [Sample.frame_wake; Sample.frame_unknown; Sample.frame_sensor]
    Run.fresh
  = (Raise ValueError,
     add_trace Run.fresh
       [PushConnect;
        WrapperPrint (PushServicePacketType_obj WakeApp) newline;
        WrapperPrint (Bytes (hexlify Sample.frame_wake)) newline]).
Proof.
  apply (proj2 (listen_pushservice_unreadable_frame Sample.FirmwareVersion
                  Sample.bytes_to_text Sample.decode_sensor_reading Sample.socket
                  Sample.services)
           [Sample.frame_wake] Sample.frame_unknown [Sample.frame_sensor] Run.fresh
           _ (true, []) 5%Z).
  - reflexivity.
  - reflexivity.
  - reflexivity.
  - cbn. intros H.
    repeat (destruct H as [H|H]; [discriminate H|]). exact H.
Defined.

(** Two tiles with the first two of fifteen icons. *)
Lemma request_tiles_with_icons_witness :
  request_tiles Sample.bytes_to_text More.socket_icons true Run.fresh
  = (Ok tt, with_tiles (add_trace Run.fresh [CargoRead GET_TILES 16684])
                       (Some [tile_with_icon (tile_of_record Sample.tile_a "Run")
                                             (repeat x00 1024);
                              tile_with_icon (tile_of_record Sample.tile_b "Mail")
                                             (repeat x01 1024)])).
Proof.
  apply (request_tiles_with_icons Sample.FirmwareVersion Sample.bytes_to_text
           More.socket_icons Run.fresh true
           [More.icons_block; le_encode 4 2 ++ Sample.tile_a ++ Sample.tile_b]
           More.icons_block (le_encode 4 2) [Sample.tile_a; Sample.tile_b]
           ["Run"; "Mail"]%string []).
  - reflexivity.
  - vm_compute. reflexivity.
  - vm_compute. reflexivity.
  - reflexivity.
  - reflexivity.
  - constructor; [split; reflexivity|].
    constructor; [split; reflexivity|].
    constructor.
Defined.
